(** * Aura: critical-state detection and escalation

    A shallow embedding of the alerting pipeline of the Aura companion
    ([app.py], [models.py], [elevenlabs_integration.py]) and the properties
    its specification states about it.

    Conventions of the embedding.
    - Python [float] is IEEE 754 binary64: the kernel's primitive floats.
    - Python [str] is a [string] of 8-bit characters; [str.lower] and
      [str.title] act on the ASCII letters.
    - The SQLAlchemy session is a pair of stores: the session's view, which
      sees every added row, and the durable rows of the last commit.
    - A Python exception is an [Outcome] of a small state-and-error monad;
      only subclasses of [Exception] are modelled.
    - f-strings that interpolate numbers or exceptions are kept as lists of
      fragments, so no float printing is needed. *)

From Stdlib Require Import List String Ascii Bool Arith Lia.
From Stdlib Require Import Floats.
From Stdlib Require Import Sorted.
Import ListNotations.
Local Open Scope string_scope.
Local Open Scope list_scope.

Set Implicit Arguments.
Set Warnings "-register-all".

(** ** Python built-ins used by the code *)

Module Py.

Definition is_upper (c : ascii) : bool :=
  let n := nat_of_ascii c in Nat.leb 65 n && Nat.leb n 90.

Definition is_lower (c : ascii) : bool :=
  let n := nat_of_ascii c in Nat.leb 97 n && Nat.leb n 122.

Definition lower_char (c : ascii) : ascii :=
  if is_upper c then ascii_of_nat (nat_of_ascii c + 32) else c.

Definition upper_char (c : ascii) : ascii :=
  if is_lower c then ascii_of_nat (nat_of_ascii c - 32) else c.

(** [s.lower()] *)
Fixpoint lower (s : string) : string :=
  match s with
  | EmptyString => EmptyString
  | String c t => String (lower_char c) (lower t)
  end.

(** [s.upper()], used only to state case-insensitivity. *)
Fixpoint upper (s : string) : string :=
  match s with
  | EmptyString => EmptyString
  | String c t => String (upper_char c) (upper t)
  end.

(** [needle in hay] on strings: [needle] occurs as a substring. *)
Fixpoint contains (needle hay : string) : bool :=
  if prefix needle hay then true
  else match hay with
       | EmptyString => false
       | String _ t => contains needle t
       end.

(** [s[:n]] *)
Fixpoint take (n : nat) (s : string) : string :=
  match n, s with
  | S k, String c t => String c (take k t)
  | _, _ => EmptyString
  end.

(** [s.replace(a, b)] for one-character [a] and [b]. *)
Fixpoint replace_char (a b : ascii) (s : string) : string :=
  match s with
  | EmptyString => EmptyString
  | String c t =>
      String (if Ascii.eqb c a then b else c) (replace_char a b t)
  end.

(** [s.title()]: a letter that follows a letter is lowered, any other
    letter is raised. *)
Fixpoint title_from (previous_is_cased : bool) (s : string) : string :=
  match s with
  | EmptyString => EmptyString
  | String c t =>
      if is_lower c || is_upper c
      then String (if previous_is_cased then lower_char c else upper_char c)
                  (title_from true t)
      else String c (title_from false t)
  end.

Definition title (s : string) : string := title_from false s.

(** [sep.join(parts)] *)
Fixpoint join (sep : string) (parts : list string) : string :=
  match parts with
  | [] => ""
  | [p] => p
  | p :: rest => (p ++ sep ++ join sep rest)%string
  end.

(** Truth value of a string, and of an optional string ([None] or [""]
    are false). *)
Definition truthy (s : string) : bool := negb (String.eqb s "").

Definition truthy_opt (s : option string) : bool :=
  match s with
  | Some s => truthy s
  | None => false
  end.

Definition is_space (c : ascii) : bool :=
  let n := nat_of_ascii c in
  Nat.eqb n 32 || (Nat.leb 9 n && Nat.leb n 13) || (Nat.leb 28 n && Nat.leb n 31).

(** [s.split()]: the maximal runs of characters that are not white space. *)
Fixpoint split_acc (word s : string) : list string :=
  match s with
  | EmptyString => if truthy word then [word] else []
  | String c t =>
      if is_space c
      then (if truthy word then word :: split_acc "" t else split_acc "" t)
      else split_acc (word ++ String c "")%string t
  end.

Definition split (s : string) : list string := split_acc "" s.

(** [sum(xs)] of floats, from the integer [0], left to right. (CPython 3.12
    and later add floats with a compensated sum, which can differ from this
    in the last place; no property below depends on the rounding.) *)
Definition sum (xs : list float) : float :=
  fold_left PrimFloat.add xs 0%float.

End Py.

(** ** Enumerations of [models.py] *)

Module UserType.
Inductive t := PATIENT | DOCTOR.
Definition eqb (a b : t) : bool :=
  match a, b with
  | PATIENT, PATIENT | DOCTOR, DOCTOR => true
  | _, _ => false
  end.
End UserType.

Module MessageSender.
Inductive t := PATIENT | AI.
Definition eqb (a b : t) : bool :=
  match a, b with
  | PATIENT, PATIENT | AI, AI => true
  | _, _ => false
  end.
End MessageSender.

Module ConversationChannel.
Inductive t := CHAT | VOICE.
End ConversationChannel.

Module AlertSeverity.
Inductive t := INFO | WARNING | CRITICAL.
End AlertSeverity.

Module AlertType.
Inductive t := SUICIDAL_IDEATION | SELF_HARM | PANIC | SEVERE_DEPRESSION | ABUSE.
(** [alert_type.value] *)
Definition value (a : t) : string :=
  match a with
  | SUICIDAL_IDEATION => "suicidal_ideation"
  | SELF_HARM => "self_harm"
  | PANIC => "panic"
  | SEVERE_DEPRESSION => "severe_depression"
  | ABUSE => "abuse"
  end.
End AlertType.

Module NotificationChannel.
Inductive t := SMS | VOICE | PUSH.
End NotificationChannel.

Module NotificationStatus.
Inductive t := PENDING | SENT | DELIVERED | FAILED.
End NotificationStatus.

(** ** Values: exceptions, f-strings, JSON columns *)

(** A raised [Exception], by class name. *)
Inductive exn := Exception (cls : string).

(** An f-string: its literal pieces and the values interpolated in it.
    [Float x] is [{x}], [Float1 x] is [{x:.1f}], [Exc e] is [{e}]. *)
Inductive Frag :=
| Lit (s : string)
| Int (n : nat)
| Float (x : float)
| Float1 (x : float)
| OptStr (s : option string)
| Keys (ks : list string)
| Exc (e : exn).

Definition FString := list Frag.

(** The values stored in JSON columns and passed as dynamic variables. *)
Inductive Json :=
| JFloat (x : float)
| JStr (s : string)
| JList (xs : list Json).

Definition Dict := list (string * Json).

(** [d.get(k)] *)
Fixpoint dict_get (k : string) (d : Dict) : option Json :=
  match d with
  | [] => None
  | (k', v) :: rest => if String.eqb k k' then Some v else dict_get k rest
  end.

Definition dict_keys (d : Dict) : list string := map fst d.

(** The values of the [dynamic_variables] passed to the voice agent. *)
Inductive DynVar :=
| DVStr (s : string)
| DVFmt (s : FString)
| DVJson (j : Json).

(** ** Tables of [models.py] (the columns the pipeline reads or writes) *)

Record User := mkUser {
  u_id : nat;
  u_name : string;
  u_phone : option string;
  u_country_code : option string;
  u_user_type : UserType.t
}.

(** [User.get_full_phone] *)
Definition get_full_phone (self : User) : option string :=
  match u_country_code self, u_phone self with
  | Some cc, Some ph =>
      if Py.truthy cc && Py.truthy ph then Some (cc ++ ph)%string else u_phone self
  | _, _ => u_phone self
  end.

Record DoctorPatient := mkDoctorPatient {
  dp_id : nat;
  dp_doctor_id : nat;
  dp_patient_id : nat;
  dp_is_active : bool
}.

Record Conversation := mkConversation {
  cv_id : nat;
  cv_patient_id : nat;
  cv_channel : ConversationChannel.t;
  cv_started_at : nat;
  cv_provider_session_id : option string
}.

Record Message := mkMessage {
  msg_id : nat;
  msg_conversation_id : nat;
  msg_sender : MessageSender.t;
  msg_text : string;
  msg_created_at : nat
}.

Record SentimentSnapshot := mkSentimentSnapshot {
  ss_id : nat;
  ss_patient_id : nat;
  ss_source : ConversationChannel.t;
  ss_rating : float;
  ss_confidence : float;
  ss_created_at : nat;
  ss_message_id : option nat
}.

Record Alert := mkAlert {
  al_id : nat;
  al_patient_id : nat;
  al_severity : AlertSeverity.t;
  al_alert_type : AlertType.t;
  al_rationale : FString;
  al_status : string;
  al_trigger_data : option Dict
}.

Record NotificationLog := mkNotificationLog {
  nl_id : nat;
  nl_alert_id : nat;
  nl_channel : NotificationChannel.t;
  nl_to_user_id : nat;
  nl_status : NotificationStatus.t
}.

(** The database: one list of rows per table, in insertion order. *)
Record Store := mkStore {
  users : list User;
  doctor_patients : list DoctorPatient;
  conversations : list Conversation;
  messages : list Message;
  sentiment_snapshots : list SentimentSnapshot;
  alerts : list Alert;
  notification_logs : list NotificationLog
}.

Definition empty_store : Store := mkStore [] [] [] [] [] [] [].

(** ** Logging and outbound calls *)

Module Level.
Inductive t := INFO | WARNING | ERROR | CRITICAL.
End Level.

Record LogRecord := mkLog { log_level : Level.t; log_msg : FString }.

(** The body of the outbound-call request of
    [create_conversation_with_agent]. *)
Record VoicePayload := mkVoicePayload {
  vp_agent_id : option string;
  vp_to_number : option string;
  vp_dynamic_variables : option (list (string * DynVar));
  vp_customer_id : option FString;
  vp_status_callback_url : option string
}.

(** What left the process: an HTTP POST to the voice provider, a text
    handed to [send_twilio_message]. *)
Inductive Outbound :=
| VoicePost (payload : VoicePayload)
| SmsSend (to : option string) (body : string).

(** The server-sent events of the streaming chat endpoint. *)
Inductive Event :=
| WordEvent (word : string)
| CompleteEvent (conversation_id : nat)
| ErrorEvent (message : string).

(** ** The world and the collaborators *)

Record World := mkWorld {
  session : Store;       (* what queries of the running session see *)
  durable : Store;       (* the rows of the last successful commit *)
  log : list LogRecord;  (* oldest first *)
  outbox : list Outbound;(* oldest first *)
  yielded : list Event;  (* what a response generator has yielded so far *)
  clock : nat;           (* [datetime.now], the default of the time columns *)
  ops : nat              (* store and framework calls made so far *)
}.

Inductive Outcome (A : Type) :=
| Ok (a : A)
| Raise (e : exn).
Arguments Ok {A} a.
Arguments Raise {A} e.

(** [analyze_sentiment] returns an object with these two attributes. *)
Record Sentiment := mkSentiment { rating : float; confidence : float }.

(** What the voice provider's endpoint returns. *)
Record CallData := mkCallData {
  call_sid : option string;
  conversation_id : option string
}.

Inductive HttpOutcome :=
| Responded (status_code : nat) (call_data : CallData)
| HttpFailed (e : exn).

(** The collaborators outside the repository's sources and the process
    configuration. [fault n] makes the [n]-th store or framework call of a
    run raise, so every pattern of failures is an [Env]. *)
Record Env := mkEnv {
  fault : nat -> option exn;
  analyze_sentiment : string -> Outcome Sentiment;
  generate_content : string -> string -> Outcome (option string);
  send_twilio_message : option string -> string -> Outcome unit;
  requests_post : VoicePayload -> HttpOutcome;
  ELEVENLABS_API_KEY : option string;
  elevenlabs_installed : bool;
  ELEVENLABS_CRITICAL_ALERT_AGENT_ID : option string;
  SERVER_NAME : string
}.

(** The default of the environment variable. *)
Definition ELEVENLABS_AGENT_ID : string := "NrwS4Bi2Qi8wsW1FhnKa".

(** ** The monad: reader of [Env], state [World], exceptions *)

Definition M (A : Type) : Type := Env -> World -> Outcome A * World.

Definition ret {A} (a : A) : M A := fun _ w => (Ok a, w).

Definition bind {A B} (m : M A) (k : A -> M B) : M B :=
  fun env w =>
    match m env w with
    | (Ok a, w') => k a env w'
    | (Raise e, w') => (Raise e, w')
    end.

Definition raise {A} (e : exn) : M A := fun _ w => (Raise e, w).

(** [try: body except Exception as e: handler(e)] *)
Definition try_except {A} (body : M A) (handler : exn -> M A) : M A :=
  fun env w =>
    match body env w with
    | (Ok a, w') => (Ok a, w')
    | (Raise e, w') => handler e env w'
    end.

Definition ask : M Env := fun env w => (Ok env, w).
Definition get : M World := fun _ w => (Ok w, w).
Definition modify (f : World -> World) : M unit := fun _ w => (Ok tt, f w).

Declare Scope monad_scope.
Delimit Scope monad_scope with monad.
Notation "x <- m ;; k" := (bind m (fun x => k))
  (at level 61, m at next level, right associativity) : monad_scope.
Notation "m ;; k" := (bind m (fun _ => k))
  (at level 61, right associativity) : monad_scope.
Local Open Scope monad_scope.

(** Lifting of a collaborator's outcome. *)
Definition lift {A} (o : Outcome A) : M A := fun _ w => (o, w).

(** World updates. *)
Definition set_session (s : Store) (w : World) : World :=
  mkWorld s (durable w) (log w) (outbox w) (yielded w) (clock w) (ops w).
Definition set_durable (s : Store) (w : World) : World :=
  mkWorld (session w) s (log w) (outbox w) (yielded w) (clock w) (ops w).
Definition add_log (r : LogRecord) (w : World) : World :=
  mkWorld (session w) (durable w) (log w ++ [r]) (outbox w) (yielded w)
          (clock w) (ops w).
Definition add_outbound (o : Outbound) (w : World) : World :=
  mkWorld (session w) (durable w) (log w) (outbox w ++ [o]) (yielded w)
          (clock w) (ops w).
Definition add_yield (e : Event) (w : World) : World :=
  mkWorld (session w) (durable w) (log w) (outbox w) (yielded w ++ [e])
          (clock w) (ops w).
Definition tick (w : World) : World :=
  mkWorld (session w) (durable w) (log w) (outbox w) (yielded w) (clock w)
          (S (ops w)).

(** [logger.<level>(msg)] *)
Definition logger (l : Level.t) (msg : FString) : M unit :=
  modify (add_log (mkLog l msg)).

(** A call into the store or the framework: it may raise. *)
Definition guard : M unit :=
  fun env w =>
    match fault env (ops w) with
    | Some e => (Raise e, tick w)
    | None => (Ok tt, tick w)
    end.

(** ** Queries of the SQLAlchemy session *)

Section OrderBy.
Context {A : Type} (key : A -> nat).

(** Insertion into a list sorted by decreasing key; among equal keys the
    inserted row comes first. *)
Fixpoint insert_desc (x : A) (l : list A) : list A :=
  match l with
  | [] => [x]
  | y :: t => if Nat.leb (key y) (key x) then x :: l else y :: insert_desc x t
  end.

(** [order_by(desc(key))]; rows with equal keys keep the table's order. *)
Definition order_by_desc (l : list A) : list A := fold_right insert_desc [] l.

Fixpoint insert_asc (x : A) (l : list A) : list A :=
  match l with
  | [] => [x]
  | y :: t => if Nat.leb (key x) (key y) then x :: l else y :: insert_asc x t
  end.

(** [order_by(key.asc())] *)
Definition order_by_asc (l : list A) : list A := fold_right insert_asc [] l.
End OrderBy.

(** The next value of an autoincrement primary key. *)
Definition fresh_id (ids : list nat) : nat := S (fold_right Nat.max 0 ids).

(** [db.session.get(User, user_id)] *)
Definition db_get_user (user_id : nat) : M (option User) :=
  guard ;;
  w <- get ;;
  ret (find (fun u => Nat.eqb (u_id u) user_id) (users (session w))).

(** [query(SentimentSnapshot).filter_by(patient_id=user_id)
      .order_by(desc(created_at)).limit(5).all()] *)
Definition recent_snapshots (user_id : nat) (s : Store) : list SentimentSnapshot :=
  firstn 5 (order_by_desc ss_created_at
              (filter (fun x => Nat.eqb (ss_patient_id x) user_id)
                      (sentiment_snapshots s))).

Definition query_recent_sentiments (user_id : nat) : M (list SentimentSnapshot) :=
  guard ;;
  w <- get ;;
  ret (recent_snapshots user_id (session w)).

(** [DoctorPatient.query.filter_by(patient_id=user_id, is_active=True).first()] *)
Definition active_assignment (user_id : nat) (s : Store) : option DoctorPatient :=
  find (fun d => Nat.eqb (dp_patient_id d) user_id && dp_is_active d)
       (doctor_patients s).

Definition query_active_assignment (user_id : nat) : M (option DoctorPatient) :=
  guard ;;
  w <- get ;;
  ret (active_assignment user_id (session w)).

(** [doctor_assignment.doctor]: the relationship is loaded on access. *)
Definition load_doctor (d : DoctorPatient) : M (option User) :=
  guard ;;
  w <- get ;;
  ret (find (fun u => Nat.eqb (u_id u) (dp_doctor_id d)) (users (session w))).

(** [query(Message).join(Conversation).filter(Conversation.patient_id == pid)
      .order_by(Message.created_at.desc()).limit(10).all()] *)
Definition recent_messages_of (pid : nat) (s : Store) : list Message :=
  firstn 10 (order_by_desc msg_created_at
    (filter (fun m =>
               existsb (fun c => Nat.eqb (cv_id c) (msg_conversation_id m)
                                 && Nat.eqb (cv_patient_id c) pid)
                       (conversations s))
            (messages s))).

Definition query_recent_messages (pid : nat) : M (list Message) :=
  guard ;;
  w <- get ;;
  ret (recent_messages_of pid (session w)).

(** [db.session.commit()]: the session's rows become durable, or the call
    raises and nothing does. *)
Definition commit : M unit :=
  guard ;;
  modify (fun w => set_durable (session w) w).

(** Row insertion: [db.session.add(row)] with the primary key that the next
    flush assigns. *)
Definition with_alerts (f : list Alert -> list Alert) (s : Store) : Store :=
  mkStore (users s) (doctor_patients s) (conversations s) (messages s)
          (sentiment_snapshots s) (f (alerts s)) (notification_logs s).

Definition with_conversations (f : list Conversation -> list Conversation)
    (s : Store) : Store :=
  mkStore (users s) (doctor_patients s) (f (conversations s)) (messages s)
          (sentiment_snapshots s) (alerts s) (notification_logs s).

Definition with_messages (f : list Message -> list Message) (s : Store) : Store :=
  mkStore (users s) (doctor_patients s) (conversations s) (f (messages s))
          (sentiment_snapshots s) (alerts s) (notification_logs s).

Definition with_snapshots (f : list SentimentSnapshot -> list SentimentSnapshot)
    (s : Store) : Store :=
  mkStore (users s) (doctor_patients s) (conversations s) (messages s)
          (f (sentiment_snapshots s)) (alerts s) (notification_logs s).

Definition add_alert (mk : nat -> Alert) : M Alert :=
  w <- get ;;
  let a := mk (fresh_id (map al_id (alerts (session w)))) in
  modify (fun w => set_session (with_alerts (fun l => l ++ [a]) (session w)) w) ;;
  ret a.

Definition add_conversation (mk : nat -> nat -> Conversation) : M Conversation :=
  w <- get ;;
  let c := mk (fresh_id (map cv_id (conversations (session w)))) (clock w) in
  modify (fun w => set_session (with_conversations (fun l => l ++ [c]) (session w)) w) ;;
  ret c.

Definition add_message (mk : nat -> nat -> Message) : M Message :=
  w <- get ;;
  let m := mk (fresh_id (map msg_id (messages (session w)))) (clock w) in
  modify (fun w => set_session (with_messages (fun l => l ++ [m]) (session w)) w) ;;
  ret m.

Definition add_snapshot (mk : nat -> nat -> SentimentSnapshot) : M SentimentSnapshot :=
  w <- get ;;
  let x := mk (fresh_id (map ss_id (sentiment_snapshots (session w)))) (clock w) in
  modify (fun w => set_session (with_snapshots (fun l => l ++ [x]) (session w)) w) ;;
  ret x.

(** [db.session.flush()] *)
Definition flush : M unit := guard.

(** ** The decision of [check_critical_mood_and_alert] (app.py 46-67) *)

Record Verdict := mkVerdict {
  is_critical : bool;
  alert_type : option AlertType.t;
  rationale : FString
}.

(** [is_critical = False; alert_type = None; rationale = ""] *)
Definition initial_verdict : Verdict := mkVerdict false None [].

(** The three f-strings a rationale can be. *)
Definition floor_reason (r : float) : FString :=
  [Lit "Very low mood detected (rating: "; Float r; Lit ")"].

Definition decline_reason (r avg : float) : FString :=
  [Lit "Rapid mood decline detected (current: "; Float r;
   Lit ", recent avg: "; Float1 avg; Lit ")"].

Definition crisis_reason : FString :=
  [Lit "Crisis language detected in conversation"].

(** [if sentiment_rating <= 1.5: ...] *)
Definition floor_rule (sentiment_rating : float) (v : Verdict) : Verdict :=
  if (sentiment_rating <=? 1.5)%float
  then mkVerdict true (Some AlertType.SEVERE_DEPRESSION)
         (floor_reason sentiment_rating)
  else v.

(** [sum(s.rating for s in recent_sentiments[:3]) / 3] *)
Definition avg_recent (recent_sentiments : list SentimentSnapshot) : float :=
  (Py.sum (map ss_rating (firstn 3 recent_sentiments)) / 3)%float.

(** [if len(recent_sentiments) >= 3: ...] *)
Definition decline_rule (sentiment_rating : float)
    (recent_sentiments : list SentimentSnapshot) (v : Verdict) : Verdict :=
  if Nat.leb 3 (List.length recent_sentiments)
  then
    let avg := avg_recent recent_sentiments in
    if ((avg <=? 2.0) && (sentiment_rating <? avg - 1.0))%float
    then mkVerdict true (Some AlertType.SEVERE_DEPRESSION)
           (decline_reason sentiment_rating avg)
    else v
  else v.

Definition crisis_keywords : list string :=
  ["suicide"; "kill myself"; "end it all"; "hurt myself"; "no point"; "give up"].

(** [any(keyword in text_lower for keyword in crisis_keywords)] *)
Definition crisis_language (conversation_text : string) : bool :=
  let text_lower := Py.lower conversation_text in
  existsb (fun keyword => Py.contains keyword text_lower) crisis_keywords.

Definition crisis_rule (conversation_text : string) (v : Verdict) : Verdict :=
  if crisis_language conversation_text
  then mkVerdict true (Some AlertType.SUICIDAL_IDEATION) crisis_reason
  else v.

(** The state of the three variables after the two rating checks. *)
Definition trend_verdict (sentiment_rating : float)
    (recent_sentiments : list SentimentSnapshot) : Verdict :=
  decline_rule sentiment_rating recent_sentiments
    (floor_rule sentiment_rating initial_verdict).

(** ... and after the keyword check. *)
Definition critical_verdict (sentiment_rating : float)
    (recent_sentiments : list SentimentSnapshot) (conversation_text : string)
    : Verdict :=
  crisis_rule conversation_text (trend_verdict sentiment_rating recent_sentiments).

(** The [trigger_data] dictionary of the alert. *)
Definition trigger_data_of (sentiment_rating : float) (conversation_text : string)
    (recent_sentiments : list SentimentSnapshot) : Dict :=
  [("sentiment_rating", JFloat sentiment_rating);
   ("conversation_snippet", JStr (Py.take 200 conversation_text));
   ("recent_ratings", JList (map (fun s => JFloat (ss_rating s)) recent_sentiments))].

(** ** [elevenlabs_integration.py] *)

Definition ELEVENLABS_PHONE_ID : string := "phnum_1301k52zn761ed4vrmvf0r6spv78".

(** The module-level [client]: created when the package imports and the
    key is set. *)
Definition elevenlabs_client (env : Env) : bool :=
  elevenlabs_installed env && Py.truthy_opt (ELEVENLABS_API_KEY env).

(** [is_configured()] *)
Definition is_configured (env : Env) : bool :=
  match ELEVENLABS_API_KEY env with
  | Some _ => elevenlabs_client env
  | None => false
  end.

Definition nonempty {A} (l : option (list A)) : bool :=
  match l with
  | Some (_ :: _) => true
  | _ => false
  end.

(** [create_conversation_with_agent]; the result is [None] on every failure.
    The callers in [app.py] pass no [system_prompt] and no dynamic variable
    named conversation_context, so the two branches on them are left out. *)
Definition create_conversation_with_agent
    (phone_number : option string) (agent_id : option string)
    (customer_id : option FString)
    (dynamic_variables : option (list (string * DynVar)))
    (status_callback_url : option string) : M (option CallData) :=
  env <- ask ;;
  if negb (Py.truthy_opt (ELEVENLABS_API_KEY env))
  then logger Level.ERROR [Lit "ElevenLabs API key not configured"] ;; ret None
  else
    let final_agent_id :=
      if Py.truthy_opt agent_id then agent_id else Some ELEVENLABS_AGENT_ID in
    try_except
      (let payload :=
         mkVoicePayload final_agent_id phone_number
           (if nonempty dynamic_variables then dynamic_variables else None)
           (match customer_id with Some (_ :: _) => customer_id | _ => None end)
           (if Py.truthy_opt status_callback_url then status_callback_url else None) in
       (if nonempty dynamic_variables
        then logger Level.INFO
               [Lit "Sending dynamic variables: ";
                Keys (map fst (match dynamic_variables with Some d => d | None => [] end))]
        else ret tt) ;;
       logger Level.INFO [Lit "ElevenLabs API payload"] ;;
       (* requests.post(..., json=payload, timeout=20) *)
       modify (add_outbound (VoicePost payload)) ;;
       match requests_post env payload with
       | HttpFailed e => raise e
       | Responded status_code call_data =>
           if Nat.eqb status_code 200 || Nat.eqb status_code 201
           then
             logger Level.INFO
               [Lit "Started ElevenLabs call "; OptStr (call_sid call_data);
                Lit " to "; OptStr phone_number;
                Lit " with agent "; OptStr final_agent_id] ;;
             (if nonempty dynamic_variables
              then logger Level.INFO
                     [Lit "Dynamic variables passed: ";
                      Keys (map fst (match dynamic_variables with Some d => d | None => [] end))]
              else ret tt) ;;
             ret (Some call_data)
           else
             logger Level.ERROR [Lit "Failed to start call: "; Int status_code] ;;
             ret None
       end)
      (fun e => logger Level.ERROR [Lit "Error creating ElevenLabs call: "; Exc e] ;;
                ret None).

(** ** [call_doctor_for_critical_alert] (app.py 98-154) *)

Definition newline : string := String (ascii_of_nat 10) EmptyString.

Definition speaker (m : Message) : string :=
  if MessageSender.eqb (msg_sender m) MessageSender.PATIENT then "Patient" else "Aura".

(** The nested [build_snippet(messages, max_chars)]. *)
Definition build_snippet (msgs : list Message) (max_chars : nat) : string :=
  let parts := map (fun m => (speaker m ++ ": " ++ msg_text m)%string) msgs in
  let joined := Py.join newline parts in
  if Nat.ltb max_chars (String.length joined)
  then (Py.take (max_chars - 3) joined ++ "...")%string
  else joined.

(** [x[:n]] on a JSON value; a number cannot be sliced. *)
Definition json_slice (n : nat) (j : Json) : Outcome Json :=
  match j with
  | JStr s => Ok (JStr (Py.take n s))
  | JList xs => Ok (JList (firstn n xs))
  | JFloat _ => Raise (Exception "TypeError")
  end.

(** [url_for('elevenlabs_call_status_webhook', _external=True)] *)
Definition url_for_status_webhook : M string :=
  guard ;;
  env <- ask ;;
  ret ("http://" ++ SERVER_NAME env ++ "/hooks/elevenlabs-status")%string.

Definition alert_type_text_of (a : Alert) : string :=
  Py.title (Py.replace_char "_" " " (AlertType.value (al_alert_type a))).

Definition sms_summary_of (patient_name alert_type_text : string) : string :=
  ("URGENT AURA ALERT: Patient " ++ patient_name
   ++ " requires immediate attention. A " ++ alert_type_text
   ++ " alert was triggered. A context-aware AI is calling you now. Please check your dashboard.")%string.

(** The body of the [try]. *)
Definition call_doctor_body (alert : Alert) (doctor : option User) : M unit :=
   (match doctor with
     | None => raise (Exception "AttributeError")
     | Some doctor =>
       if negb (Py.truthy_opt (u_phone doctor))
       then logger Level.ERROR
              [Lit "Doctor "; Int (u_id doctor);
               Lit " has no phone number for emergency contact"]
       else
         patient <- db_get_user (al_patient_id alert) ;;
         let alert_type_text := alert_type_text_of alert in
         match patient with
         | None => raise (Exception "AttributeError")
         | Some patient =>
           recent_messages <- query_recent_messages (u_id patient) ;;
           let conversation_snippet :=
             match recent_messages with
             | [] => ""
             | _ => build_snippet (rev (firstn 6 recent_messages)) 800
             end in
           let trigger_data :=
             match al_trigger_data alert with
             | Some (kv :: d) => Some (kv :: d)
             | _ => None
             end in
           recent_ratings <-
             ret (match trigger_data with
                  | Some d => match dict_get "recent_ratings" d with
                              | Some j => j
                              | None => JList []
                              end
                  | None => JList []
                  end) ;;
           trigger_snippet <-
             lift (match trigger_data with
                   | Some d => json_slice 240
                                 (match dict_get "conversation_snippet" d with
                                  | Some j => j
                                  | None => JStr ""
                                  end)
                   | None => Ok (JStr "")
                   end) ;;
           let dynamic_vars :=
             [("user_name", DVStr (u_name patient));
              ("patient_id", DVFmt [Int (u_id patient)]);
              ("alert_type", DVStr alert_type_text);
              ("alert_rationale", DVFmt (al_rationale alert));
              ("conversation_snippet", DVStr conversation_snippet);
              ("recent_ratings", DVJson recent_ratings);
              ("trigger_snippet", DVJson trigger_snippet)] in
           env <- ask ;;
           (if is_configured env
            then
              status_callback_url <- url_for_status_webhook ;;
              res <- create_conversation_with_agent
                       (get_full_phone doctor)
                       (ELEVENLABS_CRITICAL_ALERT_AGENT_ID env)
                       (Some [Lit "doctor_alert_"; Int (al_id alert)])
                       (Some dynamic_vars)
                       (Some status_callback_url) ;;
              match res with
              | Some r => logger Level.INFO
                            [Lit "ElevenLabs call initiation response: ";
                             OptStr (call_sid r)]
              | None => ret tt
              end
            else ret tt) ;;
           let sms_summary := sms_summary_of (u_name patient) alert_type_text in
           modify (add_outbound (SmsSend (get_full_phone doctor) sms_summary)) ;;
           lift (send_twilio_message env (get_full_phone doctor) sms_summary) ;;
           logger Level.INFO
             [Lit "Context-aware alert call initiated to Dr. "; Int (u_id doctor);
              Lit " for patient "; Int (u_id patient)]
         end
     end).

Definition call_doctor_for_critical_alert (alert : Alert) (doctor : option User)
    : M unit :=
  try_except
    (call_doctor_body alert doctor)
    (fun e => logger Level.ERROR
                [Lit "Failed to notify doctor of critical alert: "; Exc e]).

(** ** [check_critical_mood_and_alert] (app.py 36-96) *)

(** The body of the [try]. *)
Definition check_body (user_id : nat)
    (sentiment_rating : float) (conversation_text : string) : M unit :=
   (user <- db_get_user user_id ;;
     match user with
     | None => ret tt
     | Some user =>
       if negb (UserType.eqb (u_user_type user) UserType.PATIENT)
       then ret tt
       else
         recent_sentiments <- query_recent_sentiments user_id ;;
         let v := critical_verdict sentiment_rating recent_sentiments
                    conversation_text in
         if is_critical v
         then
           doctor_assignment <- query_active_assignment user_id ;;
           match doctor_assignment with
           | Some doctor_assignment =>
             match alert_type v with
             | None => (* alert_type is a NOT NULL column *)
               raise (Exception "IntegrityError")
             | Some ty =>
               alert <- add_alert (fun id =>
                          mkAlert id user_id AlertSeverity.CRITICAL ty (rationale v)
                            "active"
                            (Some (trigger_data_of sentiment_rating
                                     conversation_text recent_sentiments))) ;;
               commit ;;
               doctor <- load_doctor doctor_assignment ;;
               call_doctor_for_critical_alert alert doctor ;;
               logger Level.CRITICAL
                 [Lit "Critical alert triggered for patient "; Int user_id;
                  Lit ", doctor "; Int (dp_doctor_id doctor_assignment);
                  Lit " notified"]
             end
           | None =>
             logger Level.WARNING
               [Lit "Critical patient "; Int user_id;
                Lit " has no assigned doctor for emergency contact"]
           end
         else ret tt
     end).

Definition check_critical_mood_and_alert (user_id : nat)
    (sentiment_rating : float) (conversation_text : string) : M unit :=
  try_except
    (check_body user_id sentiment_rating conversation_text)
    (fun e => logger Level.ERROR [Lit "Error in critical mood check: "; Exc e]).

(** ** The endpoints that receive patient utterances *)

(** The Flask session and the JSON body of a chat request. *)
Record ChatRequest := mkChatRequest {
  session_user_id : option nat;
  session_user_type : option string;
  message : option string
}.

(** A Twilio voice request: the [call_id] argument, the call contexts kept
    in the session (by call id, giving the context's [user_id]) and the
    [SpeechResult] form field. *)
Record VoiceRequest := mkVoiceRequest {
  call_id : option string;
  call_context : string -> option nat;
  speech_result : option string
}.

Inductive Verb :=
| Say (text : string)
| Gather (action : string) (prompt : string)
| Redirect (url : string).

Inductive Response :=
| JsonError (status : nat) (error : string)
| ChatReply (response : string) (conversation_id : nat) (sentiment_rating : float)
| EventStream
| Plain (status : nat) (body : string)
| TwiML (verbs : list Verb).

(** The opening of the chat system prompt; the literal goes on with the
    guidelines and the crisis resources and only feeds the generator. *)
Definition system_prompt : string :=
  "You are Aura, a compassionate and professional AI mental health companion.".

(** [query(Conversation).filter_by(patient_id=uid)
      .order_by(desc(started_at)).limit(3).all()] *)
Definition query_recent_conversations (uid : nat) : M (list Conversation) :=
  guard ;;
  w <- get ;;
  ret (firstn 3 (order_by_desc cv_started_at
         (filter (fun c => Nat.eqb (cv_patient_id c) uid)
                 (conversations (session w))))).

(** [query(Message).filter_by(conversation_id=cid)
      .order_by(created_at.asc()).limit(2).all()] *)
Definition query_first_messages (cid : nat) : M (list Message) :=
  guard ;;
  w <- get ;;
  ret (firstn 2 (order_by_asc msg_created_at
         (filter (fun m => Nat.eqb (msg_conversation_id m) cid)
                 (messages (session w))))).

(** The loop of [api_chat] that builds [context]. *)
Fixpoint build_context (convs : list Conversation) (context : string) : M string :=
  match convs with
  | [] => ret context
  | conv :: rest =>
      msgs <- query_first_messages (cv_id conv) ;;
      let context :=
        fold_left
          (fun ctx msg =>
             (ctx ++ (if MessageSender.eqb (msg_sender msg) MessageSender.PATIENT
                      then "User: " else "Aura: ")
                  ++ msg_text msg ++ newline)%string)
          msgs context in
      build_context rest (context ++ newline)%string
  end.

(** [get_user_from_session()] *)
Definition get_user_from_session (req : ChatRequest) : M (option User) :=
  match session_user_id req with
  | None => ret None
  | Some uid => db_get_user uid
  end.

Definition text_or (text : option string) (default : string) : string :=
  match text with
  | Some t => if Py.truthy t then t else default
  | None => default
  end.

(** [api_chat] from the scoring to the commit (app.py 343-386), run once the
    reply text is known and the user is loaded: the result is the new
    conversation and the rating. *)
Definition score_and_store (user : User) (message : string)
    (ai_response : string) : M (Conversation * float) :=
  env <- ask ;;
  sentiment <-
    try_except
      (sentiment <- lift (analyze_sentiment env message) ;;
       ret (rating sentiment, confidence sentiment))
      (fun e =>
         logger Level.WARNING [Lit "Sentiment analysis failed: "; Exc e] ;;
         ret (3.0%float, 0.5%float)) ;;
  let '(sentiment_rating, sentiment_confidence) := sentiment in
  conversation <- add_conversation (fun id now =>
      mkConversation id (u_id user) ConversationChannel.CHAT now None) ;;
  flush ;;
  user_message <- add_message (fun id now =>
      mkMessage id (cv_id conversation) MessageSender.PATIENT message now) ;;
  flush ;;
  _ <- add_message (fun id now =>
      mkMessage id (cv_id conversation) MessageSender.AI ai_response now) ;;
  _ <- add_snapshot (fun id now =>
      mkSentimentSnapshot id (u_id user) ConversationChannel.CHAT
        sentiment_rating sentiment_confidence now (Some (msg_id user_message))) ;;
  commit ;;
  ret (conversation, sentiment_rating).

(** ... and from there to the reply (app.py 388-395). *)
Definition check_and_reply (user : User) (message : string) (ai_response : string)
    (stored : Conversation * float) : M Response :=
  let '(conversation, sentiment_rating) := stored in
  check_critical_mood_and_alert (u_id user) sentiment_rating message ;;
  ret (ChatReply ai_response (cv_id conversation) sentiment_rating).

(** [api_chat] (app.py 276-399) *)
Definition api_chat (req : ChatRequest) : M Response :=
  match session_user_id req with
  | None => ret (JsonError 401 "Not authenticated")
  | Some uid =>
    if negb (match session_user_type req with
             | Some t => String.eqb t "patient"
             | None => false
             end)
    then ret (JsonError 403 "Unauthorized - patients only")
    else
      match message req with
      | None => ret (JsonError 400 "Message is required")
      | Some message =>
        if negb (Py.truthy message)
        then ret (JsonError 400 "Message is required")
        else
          try_except
            (recent_conversations <- query_recent_conversations uid ;;
             context <- build_context (rev recent_conversations) "" ;;
             let conversation_history :=
               (if Py.truthy context
                then [("Previous conversation context:" ++ newline ++ context)%string]
                else [])
               ++ [("Current message: " ++ message)%string] in
             let full_prompt :=
               (system_prompt ++ newline ++ newline ++ "Conversation:" ++ newline
                ++ Py.join newline conversation_history)%string in
             env <- ask ;;
             text <- lift (generate_content env "gemini-2.0-flash-lite" full_prompt) ;;
             let ai_response := text_or text "I'm here to listen and support you." in
             user <- get_user_from_session req ;;
             match user with
             | None => ret (JsonError 401 "User not found")
             | Some user =>
                 stored <- score_and_store user message ai_response ;;
                 check_and_reply user message ai_response stored
             end)
            (fun e =>
               logger Level.ERROR [Lit "Chat error: "; Exc e] ;;
               ret (JsonError 500 "I apologize, but I encountered a technical issue."))
      end
  end.

Fixpoint yield_words (words : list string) : M unit :=
  match words with
  | [] => ret tt
  | word :: rest => modify (add_yield (WordEvent word)) ;; yield_words rest
  end.

(** The generator [generate_streaming_response] of [api_chat_stream], run to
    its end. *)
Definition generate_streaming_response (user_id : nat) (message : string) : M unit :=
  try_except
    (env <- ask ;;
     text <- lift (generate_content env "gemini-2.0-flash-lite"
                     ("User: " ++ message)%string) ;;
     let ai_response := text_or text "I am here to listen." in
     yield_words (Py.split ai_response) ;;
     user <- db_get_user user_id ;;
     match user with
     | None =>
         logger Level.ERROR
           [Lit "User "; Int user_id;
            Lit " not found in database for streaming context."]
     | Some user =>
         sentiment <- lift (analyze_sentiment env message) ;;
         conversation <- add_conversation (fun id now =>
             mkConversation id (u_id user) ConversationChannel.CHAT now None) ;;
         flush ;;
         user_msg <- add_message (fun id now =>
             mkMessage id (cv_id conversation) MessageSender.PATIENT message now) ;;
         _ <- add_message (fun id now =>
             mkMessage id (cv_id conversation) MessageSender.AI ai_response now) ;;
         flush ;;
         _ <- add_snapshot (fun id now =>
             mkSentimentSnapshot id (u_id user) ConversationChannel.CHAT
               (rating sentiment) (confidence sentiment) now
               (Some (msg_id user_msg))) ;;
         commit ;;
         check_critical_mood_and_alert (u_id user) (rating sentiment) message ;;
         modify (add_yield (CompleteEvent (cv_id conversation)))
     end)
    (fun e =>
       logger Level.ERROR [Lit "Streaming error: "; Exc e] ;;
       modify (add_yield (ErrorEvent "Stream failed."))).

(** [api_chat_stream] (app.py 409-471); the events of the response are the
    [yielded] events of the world. *)
Definition api_chat_stream (req : ChatRequest) : M Response :=
  match session_user_id req with
  | None => ret (JsonError 401 "Not authenticated")
  | Some user_id =>
    if negb (match session_user_type req with
             | Some t => String.eqb t "patient"
             | None => false
             end)
    then ret (JsonError 403 "Unauthorized - patients only")
    else
      match message req with
      | None => ret (JsonError 400 "Message is required")
      | Some message =>
        if negb (Py.truthy message)
        then ret (JsonError 400 "Message is required")
        else generate_streaming_response user_id message ;; ret EventStream
      end
  end.

Definition dquote : string := String (ascii_of_nat 34) EmptyString.

(** [json.dumps({'call_sid': call_id})] *)
Definition call_sid_json (call_id : string) : string :=
  ("{" ++ dquote ++ "call_sid" ++ dquote ++ ": " ++ dquote ++ call_id ++ dquote
   ++ "}")%string.

(** [Conversation.query.filter(
       Conversation.provider_session_id.contains(call_id)).first()] *)
Definition query_conversation_of_call (call_id : string) : M (option Conversation) :=
  guard ;;
  w <- get ;;
  ret (find (fun c => match cv_provider_session_id c with
                      | Some sid => Py.contains call_id sid
                      | None => false
                      end)
            (conversations (session w))).

(** The opening of the voice system prompt. *)
Definition voice_system_prompt : string :=
  "You are Aura, a compassionate AI mental health companion in a voice conversation.".

(** [voice_process] (app.py 564-663) *)
Definition voice_process (req : VoiceRequest) : M Response :=
  try_except
    (match call_id req with
     | None => ret (Plain 400 "Call context not found")
     | Some call_id =>
       match (if Py.truthy call_id then call_context req call_id else None) with
       | None => ret (Plain 400 "Call context not found")
       | Some user_id =>
         let user_speech := match speech_result req with Some s => s | None => "" end in
         if negb (Py.truthy user_speech)
         then ret (TwiML [Say "I didn't catch that. Could you please repeat what you said?";
                          Redirect ("/voice/webhook?call_id=" ++ call_id)%string])
         else
           let full_prompt :=
             (voice_system_prompt ++ newline ++ newline ++ "User said: " ++ user_speech
              ++ newline ++ newline ++ "Respond with empathy and support:")%string in
           env <- ask ;;
           text <- lift (generate_content env "gemini-2.5-pro" full_prompt) ;;
           let ai_response :=
             text_or text
               "I understand you're reaching out, and I'm here to listen and support you." in
           user <- db_get_user user_id ;;
           user_message <-
             match user with
             | Some user =>
                 found <- query_conversation_of_call call_id ;;
                 conversation <-
                   match found with
                   | Some c => ret c
                   | None =>
                       c <- add_conversation (fun id now =>
                              mkConversation id (u_id user) ConversationChannel.VOICE
                                now (Some (call_sid_json call_id))) ;;
                       flush ;;
                       ret c
                   end ;;
                 user_message <- add_message (fun id now =>
                     mkMessage id (cv_id conversation) MessageSender.PATIENT
                       user_speech now) ;;
                 _ <- add_message (fun id now =>
                     mkMessage id (cv_id conversation) MessageSender.AI ai_response now) ;;
                 commit ;;
                 ret (Some user_message)
             | None => ret None
             end ;;
           try_except
             (sentiment <- lift (analyze_sentiment env user_speech) ;;
              match user_message with
              | None => (* [user_message] is unbound *)
                  raise (Exception "UnboundLocalError")
              | Some user_message =>
                  _ <- add_snapshot (fun id now =>
                      mkSentimentSnapshot id user_id ConversationChannel.VOICE
                        (rating sentiment) (confidence sentiment) now
                        (Some (msg_id user_message))) ;;
                  commit
              end)
             (fun e =>
                logger Level.ERROR
                  [Lit "Failed to analyze sentiment for voice: "; Exc e]) ;;
           ret (TwiML
                  [Say ai_response;
                   Gather ("/voice/process?call_id=" ++ call_id)%string
                          "Please continue sharing. I'm here to listen.";
                   Say "Thank you for talking with me. Feel free to continue our conversation in the chat anytime. Take care."])
       end
     end)
    (fun e =>
       logger Level.ERROR [Lit "Voice processing error: "; Exc e] ;;
       ret (TwiML [Say "I apologize for the technical issue. Our conversation has been helpful, and you can always continue chatting with me online."])).

(** ** Fixtures: a patient, the assigned doctor, and collaborators that work *)

Module Fixture.

Definition patient : User := mkUser 1 "Ana" (Some "5550101") (Some "+1") UserType.PATIENT.
Definition doctor : User := mkUser 2 "Lee" (Some "5550100") (Some "+1") UserType.DOCTOR.

(** Users and an active assignment of the patient to the doctor. *)
Definition assigned : Store :=
  mkStore [patient; doctor] [mkDoctorPatient 1 2 1 true] [] [] [] [] [].

(** The same users, the patient without a doctor. *)
Definition unassigned : Store := mkStore [patient; doctor] [] [] [] [] [] [].

Definition world_of (s : Store) : World := mkWorld s s [] [] [] 100 0.

Definition sentiment_of (r : float) : string -> Outcome Sentiment :=
  fun _ => Ok (mkSentiment r 0.5%float).

(** Everything works: the scorer answers [r], the voice provider answers
    200, the text is sent. *)
Definition env_of (scorer : string -> Outcome Sentiment) : Env :=
  mkEnv (fun _ => None) scorer
        (fun _ _ => Ok (Some "I hear you."))
        (fun _ _ => Ok tt)
        (fun _ => Responded 200 (mkCallData (Some "CA1") (Some "conv1")))
        (Some "key") true (Some "agent") "127.0.0.1:5000".


(** The voice provider cannot be reached and the text is refused. *)
Definition channels_down : Env :=
  mkEnv (fun _ => None) (sentiment_of 3.0%float)
        (fun _ _ => Ok (Some "I hear you."))
        (fun _ _ => Raise (Exception "TwilioRestException"))
        (fun _ => HttpFailed (Exception "ConnectionError"))
        (Some "key") true (Some "agent") "127.0.0.1:5000".


(** The scorer is unavailable. *)
Definition scorer_down : Env :=
  env_of (fun _ => Raise (Exception "ScoringUnavailable")).

Definition chat (text : string) : ChatRequest :=
  mkChatRequest (Some 1) (Some "patient") (Some text).

Definition voice (text : string) : VoiceRequest :=
  mkVoiceRequest (Some "CA7")
    (fun cid => if String.eqb cid "CA7" then Some 1 else None) (Some text).

End Fixture.

(** ** Predicates used to state the properties *)

(** The rapid-decline condition of the code, as a proposition. *)
Definition declines (r : float) (rs : list SentimentSnapshot) : Prop :=
  3 <= List.length rs
  /\ (avg_recent rs <=? 2.0)%float = true
  /\ (r <? avg_recent rs - 1.0)%float = true.

(** The keywords of the lexicon that occur in the lowered text: what the
    specification calls the matched keywords. The code computes only whether
    this list is empty. *)
Definition spec_matched_keywords (conversation_text : string) : list string :=
  filter (fun keyword => Py.contains keyword (Py.lower conversation_text))
         crisis_keywords.

(** No store or framework call raises. *)
Definition no_faults (env : Env) : Prop := forall n, fault env n = None.

(** [m] leaves the observation [f] of the world unchanged, whatever the
    collaborators do and whether or not it raises. *)
Definition keeps {A B} (f : World -> B) (m : M A) : Prop :=
  forall env w, f (snd (m env w)) = f w.

(** The two stores. *)
Definition stores (w : World) : Store * Store := (session w, durable w).


(** The row that [check_critical_mood_and_alert] adds when it adds one:
    the [Alert(...)] of app.py 75-85 over the snapshots it has queried. *)
Definition new_alert (s : Store) (user_id : nat) (r : float) (text : string)
    : option Alert :=
  let rs := recent_snapshots user_id s in
  let v := critical_verdict r rs text in
  match alert_type v with
  | Some ty =>
      Some (mkAlert (fresh_id (map al_id (alerts s))) user_id AlertSeverity.CRITICAL
                    ty (rationale v) "active" (Some (trigger_data_of r text rs)))
  | None => None
  end.


Definition find_user (user_id : nat) (s : Store) : option User :=
  find (fun u => Nat.eqb (u_id u) user_id) (users s).

(** ** [api_request_doctor] (app.py 693-736) *)

(** The session keys and the [doctor_id] of the JSON body. *)
Record DoctorRequest := mkDoctorRequest {
  dr_user_id : option nat;
  dr_user_type : option string;
  dr_doctor_id : option nat
}.

Inductive AssignResponse :=
| AssignError (status : nat) (error : string)
| AssignSuccess (doctor_name : string) (message : string).

Definition with_doctor_patients (f : list DoctorPatient -> list DoctorPatient)
    (s : Store) : Store :=
  mkStore (users s) (f (doctor_patients s)) (conversations s) (messages s)
          (sentiment_snapshots s) (alerts s) (notification_logs s).

Definition add_assignment (mk : nat -> DoctorPatient) : M DoctorPatient :=
  w <- get ;;
  let d := mk (fresh_id (map dp_id (doctor_patients (session w)))) in
  modify (fun w => set_session (with_doctor_patients (fun l => l ++ [d]) (session w)) w) ;;
  ret d.

(** [db.session.rollback()]: the session's view falls back to the durable
    rows. *)
Definition rollback : M unit := modify (fun w => set_session (durable w) w).

(** [User.query.filter_by(id=doctor_id, user_type=UserType.DOCTOR).first()] *)
Definition find_doctor (doctor_id : nat) (s : Store) : option User :=
  find (fun u => Nat.eqb (u_id u) doctor_id
                 && UserType.eqb (u_user_type u) UserType.DOCTOR)
       (users s).

Definition query_doctor (doctor_id : nat) : M (option User) :=
  guard ;;
  w <- get ;;
  ret (find_doctor doctor_id (session w)).

Definition is_patient_session (user_type : option string) : bool :=
  match user_type with
  | Some t => String.eqb t "patient"
  | None => false
  end.

Definition api_request_doctor (req : DoctorRequest) : M AssignResponse :=
  match dr_user_id req with
  | None => ret (AssignError 401 "Unauthorized - patients only")
  | Some user_id =>
    if negb (is_patient_session (dr_user_type req))
    then ret (AssignError 401 "Unauthorized - patients only")
    else
      match dr_doctor_id req with
      | None => ret (AssignError 400 "Doctor ID required")
      | Some doctor_id =>
        if Nat.eqb doctor_id 0
        then ret (AssignError 400 "Doctor ID required")
        else
          try_except
            (existing_assignment <- query_active_assignment user_id ;;
             match existing_assignment with
             | Some _ => ret (AssignError 400 "You already have an assigned doctor")
             | None =>
               doctor <- query_doctor doctor_id ;;
               match doctor with
               | None => ret (AssignError 404 "Doctor not found")
               | Some doctor =>
                 _ <- add_assignment (fun id =>
                        mkDoctorPatient id doctor_id user_id true) ;;
                 commit ;;
                 ret (AssignSuccess (u_name doctor)
                        ("Successfully assigned to Dr. " ++ u_name doctor)%string)
               end
             end)
            (fun e =>
               rollback ;;
               logger Level.ERROR [Lit "Error assigning doctor: "; Exc e] ;;
               ret (AssignError 500 "Failed to assign doctor"))
      end
  end.



(** ** Further predicates *)

(** What one notification of the doctor [d] may add to the outbox: nothing,
    the voice request, the text, or the voice request followed by the
    text; each addressed to the doctor's full phone number, and the voice
    request only when the voice channel is configured. *)
Definition notification_of (env : Env) (d : User) (new : list Outbound) : Prop :=
  match new with
  | [] => True
  | [VoicePost p] =>
      vp_to_number p = get_full_phone d /\ is_configured env = true
  | [SmsSend to _] => to = get_full_phone d
  | [VoicePost p; SmsSend to _] =>
      vp_to_number p = get_full_phone d /\ is_configured env = true
      /\ to = get_full_phone d
  | _ => False
  end.

(** Under the collaborators [env], [m] only appends to the list [f] of the
    world (the outbox, the yielded events), and what it appends satisfies
    [P], whether or not it raises. *)
Definition appends {A B} (f : World -> list B) (env : Env)
    (P : list B -> Prop) (m : M A) : Prop :=
  forall w, exists new, f (snd (m env w)) = f w ++ new /\ P new.


(** The status codes that [create_conversation_with_agent] accepts. *)
Definition call_started (status_code : nat) : bool :=
  Nat.eqb status_code 200 || Nat.eqb status_code 201.

(** [m] never raises. *)
Definition never_raises {A} (m : M A) : Prop :=
  forall env w, exists a, fst (m env w) = Ok a.

(** ** Accounts: [api_register], [api_login], [api_logout] (app.py 178-261) *)

Module Auth.

(** A row of the users table with its credential columns; [User] above is
    its projection on the columns that the alerting pipeline reads. *)
Record Account := mkAccount {
  acc_id : nat;
  acc_name : string;
  acc_email : string;
  acc_phone : string;
  acc_country_code : string;
  acc_user_type : UserType.t;
  acc_password_hash : string
}.

Definition to_user (a : Account) : User :=
  mkUser (acc_id a) (acc_name a) (Some (acc_phone a)) (Some (acc_country_code a))
         (acc_user_type a).

Record PatientProfile := mkPatientProfile {
  pp_id : nat;
  pp_user_id : nat;
  pp_consent_analytics : bool;
  pp_consent_doctor_sharing : bool;
  pp_consent_emergency_contact : bool
}.

Record Tables := mkTables {
  accounts : list Account;
  patient_profiles : list PatientProfile
}.

(** The SQLAlchemy session's view, the durable rows and the log. *)
Record State := mkState {
  st_session : Tables;
  st_durable : Tables;
  st_log : list LogRecord
}.

(** Which of the store calls of one request raise. *)
Record Faults := mkFaults {
  query_fails : option exn;
  flush_fails : option exn;
  commit_fails : option exn
}.

Definition no_fault : Faults := mkFaults None None None.

(** A JSON value of the request body that may or may not be a string. *)
Inductive Field :=
| Str (s : string)
| Num (n : nat).

Definition field_truthy (f : option Field) : bool :=
  match f with
  | Some (Str s) => Py.truthy s
  | Some (Num n) => negb (Nat.eqb n 0)
  | None => false
  end.

(** The JSON body of a registration; email, name and phone are strings when
    present. *)
Record RegisterRequest := mkRegisterRequest {
  rq_email : option string;
  rq_password : option Field;
  rq_user_type : option string;
  rq_name : option string;
  rq_phone : option string;
  rq_country_code : option string
}.

Inductive RegisterResponse :=
| RegisterError (status : nat) (error : string)
| Registered (user_id : nat).

(** The Flask session. *)
Record Session := mkSession {
  fs_user_id : option nat;
  fs_user_email : option string;
  fs_user_type : option string;
  fs_user_name : option string
}.

Definition empty_session : Session := mkSession None None None None.

Record LoginRequest := mkLoginRequest {
  lq_email : option string;
  lq_password : option Field
}.

Inductive LoginResponse :=
| LoginError (status : nat) (error : string)
| LoggedIn (user_type : string).

(** [user_type.value] *)
Definition user_type_value (t : UserType.t) : string :=
  match t with
  | UserType.PATIENT => "patient"
  | UserType.DOCTOR => "doctor"
  end.

Definition or_default (o : option string) (default : string) : string :=
  match o with
  | Some s => s
  | None => default
  end.

(** [User.query.filter_by(email=email).first()] *)
Definition find_by_email (email : string) (t : Tables) : option Account :=
  find (fun a => String.eqb (acc_email a) email) (accounts t).

(** [db.session.rollback()] and the logging of the handlers. *)
Definition rolled_back (prefix : string) (e : exn) (st : State) : State :=
  mkState (st_durable st) (st_durable st)
          (st_log st ++ [mkLog Level.ERROR [Lit prefix; Exc e]]).

Section Hashing.
(** [werkzeug.security]; the salt that the real function draws is left
    out. *)
Variable generate_password_hash : string -> string.
Variable check_password_hash : string -> string -> bool.

(** [api_register] *)
Definition api_register (req : RegisterRequest) (f : Faults) (st : State)
    : RegisterResponse * State :=
  if negb (Py.truthy_opt (rq_email req) && field_truthy (rq_password req)
           && Py.truthy_opt (rq_name req) && Py.truthy_opt (rq_phone req))
  then (RegisterError 400 "Missing required fields", st)
  else
    match rq_password req with
    | Some (Str password) =>
      if Nat.ltb (String.length password) 6
      then (RegisterError 400 "Password must be at least 6 characters", st)
      else
        let email := or_default (rq_email req) "" in
        match query_fails f with
        | Some e => (RegisterError 500 "Registration failed. Please try again.",
                     rolled_back "Registration error: " e st)
        | None =>
          match find_by_email email (st_session st) with
          | Some _ => (RegisterError 400 "User already exists", st)
          | None =>
            let user :=
              mkAccount (fresh_id (map acc_id (accounts (st_session st))))
                (or_default (rq_name req) "") email
                (or_default (rq_phone req) "")
                (or_default (rq_country_code req) "")
                (if String.eqb (or_default (rq_user_type req) "patient") "patient"
                 then UserType.PATIENT else UserType.DOCTOR)
                (generate_password_hash password) in
            let st1 :=
              mkState (mkTables (accounts (st_session st) ++ [user])
                                (patient_profiles (st_session st)))
                      (st_durable st) (st_log st) in
            match flush_fails f with
            | Some e => (RegisterError 500 "Registration failed. Please try again.",
                         rolled_back "Registration error: " e st1)
            | None =>
              let st2 :=
                if UserType.eqb (acc_user_type user) UserType.PATIENT
                then mkState
                       (mkTables (accounts (st_session st1))
                          (patient_profiles (st_session st1)
                           ++ [mkPatientProfile
                                 (fresh_id (map pp_id
                                              (patient_profiles (st_session st1))))
                                 (acc_id user) true true true]))
                       (st_durable st1) (st_log st1)
                else st1 in
              match commit_fails f with
              | Some e => (RegisterError 500 "Registration failed. Please try again.",
                           rolled_back "Registration error: " e st2)
              | None => (Registered (acc_id user),
                         mkState (st_session st2) (st_session st2) (st_log st2))
              end
            end
          end
        end
    | _ => (RegisterError 400 "Password must be at least 6 characters", st)
    end.

(** [api_login]: the response, the Flask session and the log. *)
Definition api_login (req : LoginRequest) (f : Faults) (st : State)
    (sess : Session) : LoginResponse * Session * State :=
  if negb (Py.truthy_opt (lq_email req) && field_truthy (lq_password req))
  then (LoginError 400 "Missing email or password", sess, st)
  else
    match lq_password req with
    | Some (Str password) =>
      let email := or_default (lq_email req) "" in
      match query_fails f with
      | Some e =>
          (LoginError 500 "Login failed. Please try again.", sess,
           mkState (st_session st) (st_durable st)
                   (st_log st ++ [mkLog Level.ERROR [Lit "Login error: "; Exc e]]))
      | None =>
        match find_by_email email (st_session st) with
        | Some user =>
          if check_password_hash (acc_password_hash user) password
          then (LoggedIn (user_type_value (acc_user_type user)),
                mkSession (Some (acc_id user)) (Some email)
                          (Some (user_type_value (acc_user_type user)))
                          (Some (acc_name user)),
                st)
          else (LoginError 401 "Invalid credentials", sess, st)
        | None => (LoginError 401 "Invalid credentials", sess, st)
        end
      end
    | _ => (LoginError 400 "Invalid password format", sess, st)
    end.

End Hashing.

(** [api_logout]: [session.clear()] *)
Definition api_logout (sess : Session) : Session := empty_session.

(** The chat request that a browser with this Flask session sends. *)
Definition chat_request (sess : Session) (message : option string) : ChatRequest :=
  mkChatRequest (fs_user_id sess) (fs_user_type sess) message.

(** The request for a doctor that a browser with this Flask session sends. *)
Definition doctor_request (sess : Session) (doctor_id : option nat)
    : DoctorRequest :=
  mkDoctorRequest (fs_user_id sess) (fs_user_type sess) doctor_id.

(** A stand-in for the hashing of werkzeug: the hash of a password is the
    password after a tag, and a password is accepted by its own hash
    only. *)
Definition tagged_hash (password : string) : string := ("pbkdf2:" ++ password)%string.
Definition tagged_check (pwhash password : string) : bool :=
  String.eqb pwhash (tagged_hash password).


End Auth.

(** ** [api_start_call] (app.py 473-517) *)

Inductive CallResponse :=
| CallError (status : nat) (error : string)
| CallStarted (conversation_id : nat) (phone_number : option string)
              (message : FString).

(** [api_start_call]. The request gives the two session keys; its body is
    not read. [json_dumps] is [json.dumps] on the dictionary that the voice
    adapter returns. The adapter's [customer_id] is the session's user id,
    an integer, which [if customer_id:] takes as absent when it is 0. *)
Definition api_start_call (json_dumps : CallData -> string) (req : ChatRequest)
    : M CallResponse :=
  match session_user_id req with
  | None => ret (CallError 401 "Not authenticated")
  | Some uid =>
    if negb (is_patient_session (session_user_type req))
    then ret (CallError 403 "Unauthorized - patients only")
    else
      try_except
        (user <- get_user_from_session req ;;
         match user with
         | None =>
             ret (CallError 400 "Phone number not found. Please update your profile.")
         | Some user =>
           if negb (Py.truthy_opt (u_phone user))
           then ret (CallError 400
                       "Phone number not found. Please update your profile.")
           else
             let phone_number := get_full_phone user in
             call_response_data <-
               create_conversation_with_agent phone_number None
                 (if Nat.eqb uid 0 then None else Some [Int uid]) None None ;;
             match call_response_data with
             | Some data =>
                 voice_conversation <- add_conversation (fun id now =>
                     mkConversation id (u_id user) ConversationChannel.VOICE now
                       (Some (json_dumps data))) ;;
                 commit ;;
                 logger Level.INFO
                   [Lit "ElevenLabs voice call initiated for user ";
                    Int (u_id user); Lit ": "; OptStr (call_sid data)] ;;
                 ret (CallStarted (cv_id voice_conversation) phone_number
                        [Lit "AI voice call initiated to "; OptStr phone_number;
                         Lit ". You should receive a call from Aura shortly."])
             | None =>
                 ret (CallError 500
                        "Failed to initiate voice call. Please try again later.")
             end
         end)
        (fun e =>
           rollback ;;
           logger Level.ERROR [Lit "Call initiation error: "; Exc e] ;;
           ret (CallError 500
                  "Unable to start call at this time. Please try again later."))
  end.

(** ** [api_patient_analytics] (app.py 790-833) *)

(** The two session keys and the [patient_id] of the path. *)
Record AnalyticsRequest := mkAnalyticsRequest {
  ar_user_id : option nat;
  ar_user_type : option string;
  ar_patient_id : nat
}.

Record ConversationSummary := mkConversationSummary {
  cs_timestamp : nat;
  cs_type : string;
  cs_user_message : string;
  cs_ai_response : string
}.

Inductive AnalyticsResponse :=
| AnalyticsError (status : nat) (error : string)
| Analytics (total_interactions : nat) (avg_sentiment : float)
            (recent_conversations : list ConversationSummary).

(** [channel.value] *)
Definition channel_value (c : ConversationChannel.t) : string :=
  match c with
  | ConversationChannel.CHAT => "chat"
  | ConversationChannel.VOICE => "voice"
  end.

Definition is_doctor_session (user_type : option string) : bool :=
  match user_type with
  | Some t => String.eqb t "doctor"
  | None => false
  end.

(** [len(xs)] as a float, for the division. *)
Definition float_of_len {A} (xs : list A) : float :=
  PrimFloat.of_uint63 (Uint63.of_Z (BinInt.Z.of_nat (List.length xs))).

Definition assigned_to (doctor_id patient_id : nat) (s : Store)
    : option DoctorPatient :=
  find (fun d => Nat.eqb (dp_doctor_id d) doctor_id
                 && Nat.eqb (dp_patient_id d) patient_id
                 && dp_is_active d)
       (doctor_patients s).

(** [DoctorPatient.query.filter_by(doctor_id=..., patient_id=...,
       is_active=True).first()] *)
Definition query_assignment (doctor_id patient_id : nat)
    : M (option DoctorPatient) :=
  guard ;;
  w <- get ;;
  ret (assigned_to doctor_id patient_id (session w)).

Definition conversations_of (patient_id : nat) (s : Store) : list Conversation :=
  filter (fun c => Nat.eqb (cv_patient_id c) patient_id) (conversations s).

(** [Conversation.query.filter_by(patient_id=patient_id).count()] *)
Definition count_conversations (patient_id : nat) : M nat :=
  guard ;;
  w <- get ;;
  ret (List.length (conversations_of patient_id (session w))).

(** [[s.rating for s in
       SentimentSnapshot.query.filter_by(patient_id=patient_id).all()]] *)
Definition query_ratings (patient_id : nat) : M (list float) :=
  guard ;;
  w <- get ;;
  ret (map ss_rating
         (filter (fun s => Nat.eqb (ss_patient_id s) patient_id)
                 (sentiment_snapshots (session w)))).

(** [query(Conversation).filter_by(patient_id=patient_id)
      .order_by(desc(started_at)).limit(5).all()] *)
Definition query_last_conversations (patient_id : nat) : M (list Conversation) :=
  guard ;;
  w <- get ;;
  ret (firstn 5 (order_by_desc cv_started_at
                   (conversations_of patient_id (session w)))).

(** [Message.query.filter_by(conversation_id=cid, sender=sender).first()] *)
Definition query_first_message_of (cid : nat) (sender : MessageSender.t)
    : M (option Message) :=
  guard ;;
  w <- get ;;
  ret (find (fun m => Nat.eqb (msg_conversation_id m) cid
                      && MessageSender.eqb (msg_sender m) sender)
            (messages (session w))).

(** The loop that fills [recent_conversations_list]. *)
Fixpoint summarise (convs : list Conversation) : M (list ConversationSummary) :=
  match convs with
  | [] => ret []
  | convo :: rest =>
      user_msg <- query_first_message_of (cv_id convo) MessageSender.PATIENT ;;
      ai_msg <- query_first_message_of (cv_id convo) MessageSender.AI ;;
      let entry :=
        mkConversationSummary (cv_started_at convo) (channel_value (cv_channel convo))
          (match user_msg with
           | Some m => msg_text m
           | None => "[No user message]"
           end)
          (match ai_msg with
           | Some m => msg_text m
           | None => "[No AI response]"
           end) in
      entries <- summarise rest ;;
      ret (entry :: entries)
  end.

(** [sum(sentiments) / len(sentiments) if sentiments else 0] *)
Definition avg_sentiment_of (sentiments : list float) : float :=
  match sentiments with
  | [] => 0%float
  | _ :: _ => (Py.sum sentiments / float_of_len sentiments)%float
  end.

(** [api_patient_analytics]: the query of the assignment stands before the
    [try], so an exception of it is not handled here. *)
Definition api_patient_analytics (req : AnalyticsRequest) : M AnalyticsResponse :=
  match ar_user_id req with
  | None => ret (AnalyticsError 401 "Unauthorized")
  | Some uid =>
    if negb (is_doctor_session (ar_user_type req))
    then ret (AnalyticsError 401 "Unauthorized")
    else
      assignment <- query_assignment uid (ar_patient_id req) ;;
      match assignment with
      | None => ret (AnalyticsError 404 "Patient not found or not assigned to you")
      | Some _ =>
        try_except
          (total_interactions <- count_conversations (ar_patient_id req) ;;
           sentiments <- query_ratings (ar_patient_id req) ;;
           let avg_sentiment := avg_sentiment_of sentiments in
           recent_conversations_db <- query_last_conversations (ar_patient_id req) ;;
           recent_conversations_list <- summarise recent_conversations_db ;;
           ret (Analytics total_interactions avg_sentiment
                  recent_conversations_list))
          (fun e =>
             logger Level.ERROR [Lit "Error fetching patient analytics: "; Exc e] ;;
             ret (AnalyticsError 500 "Unable to fetch analytics"))
      end
  end.

(** * Properties *)

(** ** Comparisons of floats *)

Lemma float_eqb_leb (x y : float) : (x =? y)%float = true -> (x <=? y)%float = true.
Proof.
  rewrite eqb_spec, leb_spec. unfold SFeqb, SFleb.
  destruct (SFcompare (Prim2SF x) (Prim2SF y)) as [[]|]; congruence.
Qed.

Lemma float_eqb_ltb (x y : float) : (x =? y)%float = true -> (x <? y)%float = false.
Proof.
  rewrite eqb_spec, ltb_spec. unfold SFeqb, SFltb.
  destruct (SFcompare (Prim2SF x) (Prim2SF y)) as [[]|]; congruence.
Qed.

(** ** The rating rules *)

Lemma decline_rule_fires (r : float) (rs : list SentimentSnapshot) (v : Verdict) :
  declines r rs ->
  decline_rule r rs v =
    mkVerdict true (Some AlertType.SEVERE_DEPRESSION)
      (decline_reason r (avg_recent rs)).
Proof.
  intros (Hlen & Havg & Hlt). unfold decline_rule.
  apply Nat.leb_le in Hlen. rewrite Hlen. cbv zeta. rewrite Havg, Hlt. reflexivity.
Qed.

Lemma decline_rule_idle (r : float) (rs : list SentimentSnapshot) (v : Verdict) :
  ~ declines r rs -> decline_rule r rs v = v.
Proof.
  intros Hn. unfold decline_rule.
  destruct (Nat.leb 3 (List.length rs)) eqn:Hlen; [|reflexivity].
  cbv zeta.
  destruct (avg_recent rs <=? 2.0)%float eqn:Havg; [|reflexivity].
  destruct (r <? avg_recent rs - 1.0)%float eqn:Hlt; [|reflexivity].
  exfalso. apply Hn. repeat split; auto. now apply Nat.leb_le.
Qed.

Lemma declines_dec (r : float) (rs : list SentimentSnapshot) :
  {declines r rs} + {~ declines r rs}.
Proof.
  unfold declines.
  destruct (le_dec 3 (List.length rs)); [|right; tauto].
  destruct (avg_recent rs <=? 2.0)%float; [|right; intuition congruence].
  destruct (r <? avg_recent rs - 1.0)%float; [left; auto|right; intuition congruence].
Qed.

Lemma trend_verdict_cases (r : float) (rs : list SentimentSnapshot) :
  (declines r rs /\ trend_verdict r rs = decline_rule r rs initial_verdict
     /\ is_critical (trend_verdict r rs) = true)
  \/ (~ declines r rs /\ trend_verdict r rs = floor_rule r initial_verdict).
Proof.
  unfold trend_verdict.
  destruct (declines_dec r rs) as [Hd|Hd].
  - left. rewrite !decline_rule_fires by assumption. auto.
  - right. rewrite decline_rule_idle by assumption. auto.
Qed.

(** C4. The rating rules trigger exactly when the floor rule
    ([sentiment_rating <= 1.5]) or the decline rule (at least three
    snapshots, the mean of the three newest at most 2.0, and the rating
    strictly below that mean minus 1.0) holds. A rating equal to 1.5
    triggers; a rating equal to the mean minus 1.0 leaves the decline rule
    idle; so does every history of fewer than three snapshots. The mean is
    that of the first three entries of the newest-first history. *)
Theorem trend_triggers_iff (r : float) (rs : list SentimentSnapshot) :
  (is_critical (trend_verdict r rs) = true
     <-> (r <=? 1.5)%float = true \/ declines r rs)
  /\ ((r =? 1.5)%float = true -> is_critical (trend_verdict r rs) = true)
  /\ (forall v, (r =? avg_recent rs - 1.0)%float = true -> decline_rule r rs v = v)
  /\ (forall v, List.length rs < 3 -> decline_rule r rs v = v)
  /\ (forall a b c rest, rs = a :: b :: c :: rest ->
        avg_recent rs = ((0 + ss_rating a + ss_rating b + ss_rating c) / 3)%float).
Proof.
  split; [|split; [|split; [|split]]].
  - destruct (trend_verdict_cases r rs) as [(Hd & _ & Hc)|(Hd & ->)].
    + tauto.
    + unfold floor_rule. destruct (r <=? 1.5)%float; simpl; intuition congruence.
  - intros Heq. apply float_eqb_leb in Heq.
    destruct (trend_verdict_cases r rs) as [(_ & _ & Hc)|(_ & ->)]; [exact Hc|].
    unfold floor_rule. now rewrite Heq.
  - intros v Heq. apply decline_rule_idle.
    intros (_ & _ & Hlt). apply float_eqb_ltb in Heq. congruence.
  - intros v Hlen. apply decline_rule_idle. intros (Hge & _). lia.
  - intros a b c rest ->. reflexivity.
Qed.

Lemma trend_triggers_iff_witness :
  is_critical (trend_verdict 1.5%float []) = true
  /\ decline_rule 1.0%float
       [mkSentimentSnapshot 1 1 ConversationChannel.CHAT 2.0%float 0.5%float 3 None;
        mkSentimentSnapshot 2 1 ConversationChannel.CHAT 2.0%float 0.5%float 2 None;
        mkSentimentSnapshot 3 1 ConversationChannel.CHAT 2.0%float 0.5%float 1 None]
       initial_verdict = initial_verdict.
Proof.
  split.
  - apply (proj1 (proj2 (trend_triggers_iff 1.5%float []))). reflexivity.
  - apply (proj1 (proj2 (proj2 (trend_triggers_iff 1.0%float _)))). reflexivity.
Defined.

(** ** Frame reasoning: what a computation leaves unchanged *)

Section Keeps.
Context {B : Type} (f : World -> B).

Lemma keeps_ret {A} (a : A) : keeps f (ret a).
Proof. intros env w. reflexivity. Qed.

Lemma keeps_raise {A} (e : exn) : keeps f (@raise A e).
Proof. intros env w. reflexivity. Qed.

Lemma keeps_lift {A} (o : Outcome A) : keeps f (lift o).
Proof. intros env w. reflexivity. Qed.

Lemma keeps_ask : keeps f ask.
Proof. intros env w. reflexivity. Qed.

Lemma keeps_get : keeps f get.
Proof. intros env w. reflexivity. Qed.

Lemma keeps_bind {A C} (m : M A) (k : A -> M C) :
  keeps f m -> (forall a, keeps f (k a)) -> keeps f (bind m k).
Proof.
  intros Hm Hk env w. unfold bind. specialize (Hm env w).
  destruct (m env w) as [[a|e] w']; simpl in *.
  - now rewrite Hk.
  - exact Hm.
Qed.

Lemma keeps_try {A} (m : M A) (h : exn -> M A) :
  keeps f m -> (forall e, keeps f (h e)) -> keeps f (try_except m h).
Proof.
  intros Hm Hh env w. unfold try_except. specialize (Hm env w).
  destruct (m env w) as [[a|e] w']; simpl in *.
  - exact Hm.
  - now rewrite Hh.
Qed.

Lemma keeps_modify (g : World -> World) :
  (forall w, f (g w) = f w) -> keeps f (modify g).
Proof. intros Hg env w. apply Hg. Qed.

Lemma keeps_guard : (forall w, f (tick w) = f w) -> keeps f guard.
Proof.
  intros Ht env w. unfold guard. destruct (fault env (ops w)); apply Ht.
Qed.

Lemma keeps_logger (l : Level.t) (msg : FString) :
  (forall r w, f (add_log r w) = f w) -> keeps f (logger l msg).
Proof. intros Hl env w. apply Hl. Qed.

End Keeps.

Ltac keeps_step :=
  first
    [ apply keeps_ret | apply keeps_raise | apply keeps_lift | apply keeps_ask
    | apply keeps_get
    | apply keeps_bind; [|intro]
    | apply keeps_try; [|intro]
    | apply keeps_guard; intros; reflexivity
    | apply keeps_logger; intros; reflexivity
    | apply keeps_modify; intros; reflexivity
    | match goal with
      | |- keeps _ (match ?x with _ => _ end) => destruct x
      end ].

Ltac keeps_auto := repeat keeps_step.

Lemma create_conversation_keeps_stores p a c d u :
  keeps stores (create_conversation_with_agent p a c d u).
Proof. unfold create_conversation_with_agent. keeps_auto. Qed.

Lemma call_doctor_keeps_stores (alert : Alert) (doctor : option User) :
  keeps stores (call_doctor_for_critical_alert alert doctor).
Proof.
  unfold call_doctor_for_critical_alert, call_doctor_body, db_get_user,
    query_recent_messages, url_for_status_webhook.
  keeps_auto; try apply create_conversation_keeps_stores; keeps_auto.
Qed.

(** ** The escalation path *)

Ltac munfold :=
  repeat (progress (unfold bind, try_except, ret, get, ask, modify, lift, raise,
                      logger, guard, commit, flush, db_get_user,
                      query_recent_sentiments, query_active_assignment,
                      load_doctor, add_alert));
  simpl.

Lemma try_except_logger_returns (body : M unit) (l : Level.t)
    (msg : exn -> FString) env w :
  exists w', try_except body (fun e => logger l (msg e)) env w = (Ok tt, w').
Proof.
  unfold try_except. destruct (body env w) as [[[]|e] w']; eauto.
  unfold logger, modify. eauto.
Qed.

Lemma create_conversation_returns env w p a c d u :
  exists res, fst (create_conversation_with_agent p a c d u env w) = Ok res.
Proof.
  unfold create_conversation_with_agent, bind at 1, ask.
  destruct (negb (Py.truthy_opt (ELEVENLABS_API_KEY env))).
  - munfold. eauto.
  - unfold try_except.
    match goal with
    | |- context [match ?b env w with _ => _ end] =>
        destruct (b env w) as [[res|e] w']
    end; munfold; eauto.
Qed.

Lemma check_returns env w user_id r text :
  fst (check_critical_mood_and_alert user_id r text env w) = Ok tt.
Proof.
  unfold check_critical_mood_and_alert.
  match goal with
  | |- fst (try_except ?b (fun e => logger ?l (@?m e)) env w) = _ =>
      destruct (try_except_logger_returns b l m env w) as [w' ->]
  end.
  reflexivity.
Qed.

Lemma call_doctor_returns env w alert doctor :
  fst (call_doctor_for_critical_alert alert doctor env w) = Ok tt.
Proof.
  unfold call_doctor_for_critical_alert.
  match goal with
  | |- fst (try_except ?b (fun e => logger ?l (@?m e)) env w) = _ =>
      destruct (try_except_logger_returns b l m env w) as [w' ->]
  end.
  reflexivity.
Qed.

(** Every run of the check either leaves both stores and the outbox as they
    were, or adds the one alert row [new_alert] for a patient with a critical
    verdict and an active assignment. *)
Lemma check_effect env w user_id r text :
  let w' := snd (check_critical_mood_and_alert user_id r text env w) in
  (stores w' = stores w /\ outbox w' = outbox w)
  \/ (exists u da a,
        find_user user_id (session w) = Some u
        /\ u_user_type u = UserType.PATIENT
        /\ is_critical (critical_verdict r (recent_snapshots user_id (session w)) text)
           = true
        /\ active_assignment user_id (session w) = Some da
        /\ new_alert (session w) user_id r text = Some a
        /\ session w' = with_alerts (fun l => l ++ [a]) (session w)
        /\ ((durable w' = durable w /\ outbox w' = outbox w)
            \/ durable w' = session w')).
Proof.
  unfold check_critical_mood_and_alert, check_body, find_user. munfold.
  destruct (fault env (ops w)) eqn:F1; simpl; [left; split; reflexivity|].
  destruct (find _ (users (session w))) as [u|] eqn:Hu; simpl;
    [|left; split; reflexivity].
  destruct (u_user_type u) eqn:Hty; simpl; [|left; split; reflexivity].
  destruct (fault env (S (ops w))) eqn:F2; simpl; [left; split; reflexivity|].
  destruct (is_critical _) eqn:Hc; simpl; [|left; split; reflexivity].
  destruct (fault env (S (S (ops w)))) eqn:F3; simpl; [left; split; reflexivity|].
  destruct (active_assignment user_id (session w)) as [da|] eqn:Hda; simpl;
    [|left; split; reflexivity].
  destruct (alert_type _) as [ty|] eqn:Hat; simpl; [|left; split; reflexivity].
  right. exists u, da. unfold new_alert. rewrite Hat. eexists.
  repeat (split; [reflexivity || assumption|]).
  destruct (fault env (S (S (S (ops w))))) eqn:F4; simpl.
  { split; [reflexivity|]. left. split; reflexivity. }
  destruct (fault env (S (S (S (S (ops w)))))) eqn:F5; simpl.
  { split; [reflexivity|]. right. reflexivity. }
  match goal with
  | |- context [call_doctor_for_critical_alert ?a ?d env ?w0] =>
      pose proof (call_doctor_keeps_stores a d env w0) as Hk;
      destruct (call_doctor_for_critical_alert a d env w0) as [[[]|e] w1]
  end;
  simpl in *; unfold stores in Hk; simpl in Hk; inversion Hk as [[Hs Hd]];
  (split; [reflexivity|]); right; rewrite Hd; reflexivity.
Qed.



(** ** One alert at most, and its classification *)

Lemma crisis_rule_fires (text : string) (v : Verdict) :
  crisis_language text = true ->
  crisis_rule text v = mkVerdict true (Some AlertType.SUICIDAL_IDEATION) crisis_reason.
Proof. intros H. unfold crisis_rule. now rewrite H. Qed.

Lemma crisis_rule_idle (text : string) (v : Verdict) :
  crisis_language text = false -> crisis_rule text v = v.
Proof. intros H. unfold crisis_rule. now rewrite H. Qed.

Lemma trend_verdict_shape (r : float) (rs : list SentimentSnapshot) :
  is_critical (trend_verdict r rs) = true ->
  alert_type (trend_verdict r rs) = Some AlertType.SEVERE_DEPRESSION
  /\ (rationale (trend_verdict r rs) = floor_reason r
      \/ rationale (trend_verdict r rs) = decline_reason r (avg_recent rs)).
Proof.
  destruct (trend_verdict_cases r rs) as [(Hd & -> & _)|(Hd & ->)].
  - rewrite decline_rule_fires by assumption. simpl. auto.
  - unfold floor_rule. destruct (r <=? 1.5)%float; simpl; [auto|discriminate].
Qed.

(** C3. One run of the check adds at most one alert row, whichever of the
    floor, decline and keyword conditions hold together, and the row carries
    the type and rationale of the one verdict. Crisis language decides the
    type: with a keyword match the verdict is SUICIDAL_IDEATION with the
    crisis rationale whatever the ratings say; with only the rating rules
    triggering it is SEVERE_DEPRESSION with the rationale of the rating
    rules. *)
Theorem one_alert_crisis_first env w user_id r text :
  let rs := recent_snapshots user_id (session w) in
  let v := critical_verdict r rs text in
  let w' := snd (check_critical_mood_and_alert user_id r text env w) in
  (exists new,
      alerts (session w') = alerts (session w) ++ new
      /\ List.length new <= 1
      /\ (alerts (durable w') = alerts (durable w)
          \/ alerts (durable w') = alerts (session w) ++ new)
      /\ (forall a, In a new ->
            Some (al_alert_type a) = alert_type v /\ al_rationale a = rationale v))
  /\ (crisis_language text = true ->
        v = mkVerdict true (Some AlertType.SUICIDAL_IDEATION) crisis_reason)
  /\ (crisis_language text = false ->
        is_critical (trend_verdict r rs) = true ->
        is_critical v = true
        /\ alert_type v = Some AlertType.SEVERE_DEPRESSION
        /\ rationale v = rationale (trend_verdict r rs)
        /\ (rationale v = floor_reason r
            \/ rationale v = decline_reason r (avg_recent rs))).
Proof.
  intros rs v w'. subst w'. split; [|split].
  - destruct (check_effect env w user_id r text) as
      [(Hst & _)|(u & da & a & _ & _ & _ & _ & Hnew & Hs & Hd)].
    + exists []. unfold stores in Hst. injection Hst as Hs Hd.
      rewrite app_nil_r, Hs, Hd. split; [reflexivity|]. split; [simpl; lia|].
      split; [left; reflexivity|]. intros a' [].
    + exists [a]. rewrite Hs. simpl. split; [reflexivity|]. split; [lia|]. split.
      * destruct Hd as [(Hd & _)|Hd]; rewrite Hd; [left; reflexivity|].
        right. rewrite Hs. reflexivity.
      * intros a' [<-|[]]. unfold new_alert in Hnew. fold rs v in Hnew.
        destruct (alert_type v) as [ty|]; [|discriminate].
        inversion Hnew. simpl. auto.
  - intros Hc. unfold v, critical_verdict. now apply crisis_rule_fires.
  - intros Hc Ht. unfold v, critical_verdict. rewrite crisis_rule_idle by assumption.
    destruct (trend_verdict_shape r rs Ht) as (Hty & Hr). auto.
Qed.

(** A very low rating and a keyword together: the verdict is the crisis one. *)
Lemma one_alert_crisis_first_witness :
  critical_verdict 1.0%float [] "there is no point"
  = mkVerdict true (Some AlertType.SUICIDAL_IDEATION) crisis_reason
  /\ alert_type (critical_verdict 1.0%float [] "so tired")
     = Some AlertType.SEVERE_DEPRESSION.
Proof.
  split.
  - apply (proj1 (proj2 (one_alert_crisis_first
                           (Fixture.env_of (Fixture.sentiment_of 1.0%float))
                           (Fixture.world_of Fixture.assigned)
                           1 1.0%float "there is no point"))).
    reflexivity.
  - apply (proj2 (proj2 (one_alert_crisis_first
                           (Fixture.env_of (Fixture.sentiment_of 1.0%float))
                           (Fixture.world_of Fixture.assigned)
                           1 1.0%float "so tired"))); reflexivity.
Defined.

(** ** Who gets alerts *)

(** C9. When the user record is missing or is not a patient's, the check
    returns with both stores and the outbox unchanged; conversely, a run
    that adds an alert row or sends anything was for a user of type
    PATIENT. *)
Theorem alerts_only_for_patients env w user_id r text :
  let w' := snd (check_critical_mood_and_alert user_id r text env w) in
  ((find_user user_id (session w) = None
    \/ exists u, find_user user_id (session w) = Some u
                 /\ u_user_type u <> UserType.PATIENT) ->
   fst (check_critical_mood_and_alert user_id r text env w) = Ok tt
   /\ stores w' = stores w /\ outbox w' = outbox w)
  /\ ((alerts (session w') <> alerts (session w)
       \/ alerts (durable w') <> alerts (durable w)
       \/ outbox w' <> outbox w) ->
      exists u, find_user user_id (session w) = Some u
                /\ u_user_type u = UserType.PATIENT).
Proof.
  intros w'. subst w'.
  destruct (check_effect env w user_id r text) as
    [(Hst & Hout)|(u & da & a & Hu & Hty & _)].
  - split.
    + intros _. split; [apply check_returns|]. auto.
    + unfold stores in Hst. injection Hst as Hs Hd. rewrite Hs, Hd, Hout.
      intros [H|[H|H]]; congruence.
  - split.
    + intros [Hnone|(u' & Hu' & Hty')]; congruence.
    + intros _. eauto.
Qed.

Lemma alerts_only_for_patients_witness :
  let w' := snd (check_critical_mood_and_alert 2 1.0%float "i give up"
                   (Fixture.env_of (Fixture.sentiment_of 1.0%float))
                   (Fixture.world_of Fixture.assigned)) in
  stores w' = stores (Fixture.world_of Fixture.assigned) /\ outbox w' = [].
Proof.
  apply (proj1 (alerts_only_for_patients
                  (Fixture.env_of (Fixture.sentiment_of 1.0%float))
                  (Fixture.world_of Fixture.assigned) 2 1.0%float "i give up")).
  right. exists Fixture.doctor. split; [reflexivity|discriminate].
Defined.

(** ** A critical patient without a doctor *)

Lemma check_without_assignment env w user_id r text u :
  find_user user_id (session w) = Some u ->
  u_user_type u = UserType.PATIENT ->
  is_critical (critical_verdict r (recent_snapshots user_id (session w)) text) = true ->
  active_assignment user_id (session w) = None ->
  fault env (ops w) = None ->
  fault env (S (ops w)) = None ->
  fault env (S (S (ops w))) = None ->
  check_critical_mood_and_alert user_id r text env w
  = (Ok tt,
     add_log (mkLog Level.WARNING
                [Lit "Critical patient "; Int user_id;
                 Lit " has no assigned doctor for emergency contact"])
             (tick (tick (tick w)))).
Proof.
  intros Hu Hty Hc Hda F1 F2 F3.
  unfold check_critical_mood_and_alert, check_body, find_user in *. munfold.
  rewrite F1. simpl. rewrite Hu. simpl. rewrite Hty. simpl.
  rewrite F2. simpl. rewrite Hc. simpl. rewrite F3. simpl. rewrite Hda.
  reflexivity.
Qed.

(** C6. Without an active assignment for the patient the check adds no
    alert row and sends nothing, and it returns normally; when the lookups
    succeed for a patient with a critical verdict, it records the warning
    that the patient has no assigned doctor. *)
Theorem no_assignment_no_alert env w user_id r text :
  active_assignment user_id (session w) = None ->
  let w' := snd (check_critical_mood_and_alert user_id r text env w) in
  fst (check_critical_mood_and_alert user_id r text env w) = Ok tt
  /\ stores w' = stores w
  /\ outbox w' = outbox w
  /\ (forall u,
        find_user user_id (session w) = Some u ->
        u_user_type u = UserType.PATIENT ->
        is_critical (critical_verdict r (recent_snapshots user_id (session w)) text)
        = true ->
        (forall n, n < 3 -> fault env (ops w + n) = None) ->
        log w' = log w ++ [mkLog Level.WARNING
                             [Lit "Critical patient "; Int user_id;
                              Lit " has no assigned doctor for emergency contact"]]).
Proof.
  intros Hda w'. subst w'. split; [apply check_returns|].
  destruct (check_effect env w user_id r text) as
    [(Hst & Hout)|(u & da & a & _ & _ & _ & Hda' & _)]; [|congruence].
  split; [exact Hst|]. split; [exact Hout|].
  intros u Hu Hty Hc Hf.
  rewrite (@check_without_assignment env w user_id r text u); auto.
  - specialize (Hf 0). rewrite Nat.add_0_r in Hf. apply Hf. lia.
  - specialize (Hf 1). rewrite Nat.add_1_r in Hf. apply Hf. lia.
  - specialize (Hf 2). replace (ops w + 2) with (S (S (ops w))) in Hf by lia.
    apply Hf. lia.
Qed.

Lemma no_assignment_no_alert_witness :
  let w' := snd (check_critical_mood_and_alert 1 1.0%float "i give up"
                   (Fixture.env_of (Fixture.sentiment_of 1.0%float))
                   (Fixture.world_of Fixture.unassigned)) in
  alerts (durable w') = []
  /\ outbox w' = []
  /\ log w' = [mkLog Level.WARNING
                 [Lit "Critical patient "; Int 1;
                  Lit " has no assigned doctor for emergency contact"]].
Proof.
  destruct (@no_assignment_no_alert
              (Fixture.env_of (Fixture.sentiment_of 1.0%float))
              (Fixture.world_of Fixture.unassigned) 1 1.0%float "i give up"
              eq_refl) as (_ & Hst & Hout & Hlog).
  split; [|split].
  - exact (f_equal (fun p => alerts (snd p)) Hst).
  - exact Hout.
  - apply (Hlog Fixture.patient); reflexivity.
Defined.

(** ** Notification attempts *)

#[local] Arguments Py.take : simpl never.
#[local] Arguments firstn : simpl never.
#[local] Arguments build_snippet : simpl never.
#[local] Arguments sms_summary_of : simpl never.
#[local] Arguments alert_type_text_of : simpl never.
#[local] Arguments get_full_phone : simpl never.
#[local] Arguments Py.truthy_opt : simpl never.


Ltac munfold_notify :=
  unfold call_doctor_for_critical_alert, call_doctor_body,
    create_conversation_with_agent, query_recent_messages, url_for_status_webhook;
  munfold.






(** ** The crisis-language detector *)

Lemma prefix_app (k s : string) :
  prefix k s = true <-> exists post, s = (k ++ post)%string.
Proof.
  revert s. induction k as [|c k IH]; intros s; simpl.
  - destruct s; split; eauto.
  - destruct s as [|c' s]; simpl.
    + split; [discriminate|]. intros (post & H). discriminate.
    + destruct (ascii_dec c c') as [->|Hne].
      * rewrite IH. split; intros (post & H); exists post; congruence.
      * split; [discriminate|]. intros (post & H). congruence.
Qed.

(** [Py.contains] is the substring test. *)
Lemma contains_app (k s : string) :
  Py.contains k s = true <-> exists pre post, s = (pre ++ k ++ post)%string.
Proof.
  induction s as [|c s IH]; cbn [Py.contains].
  - destruct (prefix k "") eqn:Hp.
    + apply prefix_app in Hp as (post & Hp). split; [|reflexivity].
      intros _. exists "", post. exact Hp.
    + split; [discriminate|]. intros (pre & post & H).
      destruct pre; simpl in H.
      * assert (prefix k "" = true) by (apply prefix_app; eauto). congruence.
      * discriminate.
  - destruct (prefix k (String c s)) eqn:Hp.
    + apply prefix_app in Hp as (post & Hp). split; [|reflexivity].
      intros _. exists "", post. exact Hp.
    + rewrite IH. split.
      * intros (pre & post & ->). exists (String c pre), post. reflexivity.
      * intros (pre & post & H). destruct pre as [|c' pre]; simpl in H.
        -- assert (prefix k (String c s) = true) by (apply prefix_app; eauto).
           congruence.
        -- injection H as _ ->. eauto.
Qed.

Lemma lower_app (a b : string) :
  Py.lower (a ++ b) = (Py.lower a ++ Py.lower b)%string.
Proof. induction a as [|c a IH]; simpl; [reflexivity|now rewrite IH]. Qed.

Lemma lower_split (s a b : string) :
  Py.lower s = (a ++ b)%string ->
  exists s1 s2, s = (s1 ++ s2)%string /\ Py.lower s1 = a /\ Py.lower s2 = b.
Proof.
  revert s. induction a as [|c a IH]; intros s H; simpl in H.
  - exists "", s. auto.
  - destruct s as [|c' s]; simpl in H; [discriminate|].
    injection H as Hc H. destruct (IH s H) as (s1 & s2 & -> & H1 & H2).
    exists (String c' s1), s2. simpl. rewrite Hc, H1. auto.
Qed.

Lemma lower_upper_char (c : ascii) :
  Py.lower_char (Py.upper_char c) = Py.lower_char c.
Proof.
  destruct c as [[] [] [] [] [] [] [] []]; reflexivity.
Qed.

Lemma lower_lower_char (c : ascii) :
  Py.lower_char (Py.lower_char c) = Py.lower_char c.
Proof.
  destruct c as [[] [] [] [] [] [] [] []]; reflexivity.
Qed.

Lemma lower_upper (s : string) : Py.lower (Py.upper s) = Py.lower s.
Proof.
  induction s as [|c s IH]; simpl; [reflexivity|].
  now rewrite lower_upper_char, IH.
Qed.

Lemma lower_lower (s : string) : Py.lower (Py.lower s) = Py.lower s.
Proof.
  induction s as [|c s IH]; simpl; [reflexivity|].
  now rewrite lower_lower_char, IH.
Qed.

Lemma crisis_language_iff (text : string) :
  crisis_language text = true
  <-> exists keyword pre mid post,
        In keyword crisis_keywords
        /\ text = (pre ++ mid ++ post)%string
        /\ Py.lower mid = keyword.
Proof.
  unfold crisis_language. rewrite existsb_exists. split.
  - intros (k & Hin & Hc). apply contains_app in Hc as (pre & post & Hc).
    apply lower_split in Hc as (s1 & s23 & -> & H1 & H23).
    apply lower_split in H23 as (s2 & s3 & -> & H2 & H3).
    exists k, s1, s2, s3. auto.
  - intros (k & pre & mid & post & Hin & -> & Hk).
    exists k. split; [exact Hin|]. apply contains_app.
    exists (Py.lower pre), (Py.lower post). now rewrite !lower_app, Hk.
Qed.

Lemma spec_matched_keywords_nonempty (text : string) :
  crisis_language text = true <-> spec_matched_keywords text <> [].
Proof.
  unfold crisis_language, spec_matched_keywords.
  induction crisis_keywords as [|k ks IH]; simpl.
  - split; [discriminate|congruence].
  - destruct (Py.contains k (Py.lower text)); simpl.
    + split; [discriminate|reflexivity].
    + exact IH.
Qed.

(** C5 (as the code has it). The detector is a case-insensitive substring
    match of the utterance against the six fixed keywords and triggers on
    any match. It computes only that boolean: it is true exactly when the
    list of matched keywords is not empty, and the list itself is never
    built. The alert's [trigger_data] has the three keys sentiment_rating,
    conversation_snippet and recent_ratings. For the utterance
    [I just want to give up], whatever the ratings, the verdict is
    SUICIDAL_IDEATION with the crisis rationale, and a rating of 3.0 with no
    history triggers no rating rule. *)
Theorem crisis_detector_is_boolean :
  crisis_keywords
  = ["suicide"; "kill myself"; "end it all"; "hurt myself"; "no point"; "give up"]
  /\ (forall text,
        crisis_language text = true
        <-> exists keyword pre mid post,
              In keyword crisis_keywords
              /\ text = (pre ++ mid ++ post)%string
              /\ Py.lower mid = keyword)
  /\ (forall text, crisis_language text = true <-> spec_matched_keywords text <> [])
  /\ (forall text, crisis_language (Py.upper text) = crisis_language text)
  /\ (forall r text rs,
        dict_keys (trigger_data_of r text rs)
        = ["sentiment_rating"; "conversation_snippet"; "recent_ratings"])
  /\ (forall s user_id r text a,
        new_alert s user_id r text = Some a ->
        al_trigger_data a
        = Some (trigger_data_of r text (recent_snapshots user_id s)))
  /\ (forall r rs,
        critical_verdict r rs "I just want to give up"
        = mkVerdict true (Some AlertType.SUICIDAL_IDEATION) crisis_reason)
  /\ is_critical (trend_verdict 3.0%float []) = false.
Proof.
  split; [reflexivity|]. split; [exact crisis_language_iff|].
  split; [exact spec_matched_keywords_nonempty|]. split; [|split; [|split; [|split]]].
  - intros text. unfold crisis_language. now rewrite lower_upper.
  - reflexivity.
  - intros s user_id r text a. unfold new_alert.
    destruct (alert_type _); [|discriminate]. intros [= <-]. reflexivity.
  - intros r rs. unfold critical_verdict. apply crisis_rule_fires. reflexivity.
  - reflexivity.
Qed.

Lemma crisis_detector_is_boolean_witness :
  al_trigger_data
    (mkAlert 1 1 AlertSeverity.CRITICAL AlertType.SUICIDAL_IDEATION crisis_reason
       "active" (Some (trigger_data_of 3.0%float "I just want to give up" [])))
  = Some [("sentiment_rating", JFloat 3.0%float);
          ("conversation_snippet", JStr "I just want to give up");
          ("recent_ratings", JList [])].
Proof.
  apply (proj1 (proj2 (proj2 (proj2 (proj2 (proj2 crisis_detector_is_boolean)))))
           Fixture.assigned 1 3.0%float "I just want to give up").
  reflexivity.
Defined.

(** The utterance of the specification, rating 3.0, no earlier snapshot:
    the matched keywords are [give up], the one alert is of type
    SUICIDAL_IDEATION, and no entry of its [trigger_data] is that list of
    keywords. *)
Lemma matched_keywords_counterexample :
  let w' := snd (check_critical_mood_and_alert 1 3.0%float "I just want to give up"
                   (Fixture.env_of (Fixture.sentiment_of 3.0%float))
                   (Fixture.world_of Fixture.assigned)) in
  spec_matched_keywords "I just want to give up" = ["give up"]
  /\ map al_alert_type (alerts (durable w')) = [AlertType.SUICIDAL_IDEATION]
  /\ map al_trigger_data (alerts (durable w'))
     = [Some [("sentiment_rating", JFloat 3.0%float);
              ("conversation_snippet", JStr "I just want to give up");
              ("recent_ratings", JList [])]]
  /\ ~ (exists a d k,
          In a (alerts (durable w'))
          /\ al_trigger_data a = Some d
          /\ dict_get k d
             = Some (JList (map JStr (spec_matched_keywords "I just want to give up")))).
Proof.
  cbv zeta. split; [reflexivity|]. split; [reflexivity|]. split; [reflexivity|].
  intros (a & d & k & Hin & Hd & Hk).
  vm_compute in Hin. destruct Hin as [<-|[]].
  vm_compute in Hd. injection Hd as <-.
  change (spec_matched_keywords "I just want to give up") with ["give up"] in Hk.
  cbn [dict_get map] in Hk.
  destruct (String.eqb k "sentiment_rating"); [discriminate|].
  destruct (String.eqb k "conversation_snippet"); [discriminate|].
  destruct (String.eqb k "recent_ratings"); discriminate.
Qed.

(** ** The history seen by the check in the chat pipeline *)

Section Newest.
Context {A : Type} (key : A -> nat).


End Newest.


Ltac munfold_store :=
  unfold score_and_store;
  repeat (progress (unfold bind, try_except, ret, get, ask, modify, lift, raise,
                      logger, guard, commit, flush, add_conversation, add_message,
                      add_snapshot));
  simpl.




(** ** Scorer failures and the voice endpoint *)

Lemma yield_words_run (words : list string) env w :
  yield_words words env w
  = (Ok tt,
     mkWorld (session w) (durable w) (log w) (outbox w)
             (yielded w ++ map WordEvent words) (clock w) (ops w)).
Proof.
  revert w. induction words as [|word rest IH]; intros w; simpl.
  - rewrite app_nil_r. destruct w; reflexivity.
  - unfold bind, modify. simpl. rewrite IH. simpl.
    rewrite <- app_assoc. reflexivity.
Qed.

(** In the streaming endpoint a failure of the scorer ends the turn: the
    words already streamed are followed by the error event, an ERROR record
    is logged, nothing is stored and nothing is escalated. *)
Lemma stream_aborts_on_scorer_failure env w user_id message text u e :
  generate_content env "gemini-2.0-flash-lite" ("User: " ++ message)%string = Ok text ->
  fault env (ops w) = None ->
  find_user user_id (session w) = Some u ->
  analyze_sentiment env message = Raise e ->
  let w' := snd (generate_streaming_response user_id message env w) in
  stores w' = stores w
  /\ outbox w' = outbox w
  /\ log w' = log w ++ [mkLog Level.ERROR [Lit "Streaming error: "; Exc e]]
  /\ yielded w' = yielded w
                  ++ map WordEvent (Py.split (text_or text "I am here to listen."))
                  ++ [ErrorEvent "Stream failed."].
Proof.
  intros Hgen Hf Hu He. unfold find_user in Hu. simpl in Hgen.
  unfold generate_streaming_response. munfold.
  rewrite Hgen. simpl. rewrite yield_words_run. simpl.
  rewrite Hf. simpl. rewrite Hu. simpl. rewrite He. simpl.
  rewrite <- app_assoc. auto.
Qed.

(** In [api_chat] the same failure is absorbed: the rating is 3.0 with
    confidence 0.5, a WARNING is logged, and the turn is stored and
    committed. *)
Lemma chat_degrades_on_scorer_failure env w user message ai_response e :
  analyze_sentiment env message = Raise e ->
  (forall n, n < 3 -> fault env (ops w + n) = None) ->
  exists c um am x w1,
    score_and_store user message ai_response env w = (Ok (c, 3.0%float), w1)
    /\ log w1 = log w ++ [mkLog Level.WARNING
                            [Lit "Sentiment analysis failed: "; Exc e]]
    /\ messages (session w1) = messages (session w) ++ [um; am]
    /\ msg_text um = message
    /\ sentiment_snapshots (session w1) = sentiment_snapshots (session w) ++ [x]
    /\ ss_rating x = 3.0%float
    /\ ss_confidence x = 0.5%float
    /\ durable w1 = session w1.
Proof.
  intros He Hf.
  pose proof (Hf 0 ltac:(lia)) as F0. rewrite Nat.add_0_r in F0.
  pose proof (Hf 1 ltac:(lia)) as F1. rewrite Nat.add_1_r in F1.
  pose proof (Hf 2 ltac:(lia)) as F2.
  replace (ops w + 2) with (S (S (ops w))) in F2 by lia.
  munfold_store. rewrite He. simpl. rewrite F0. simpl. rewrite F1. simpl.
  rewrite F2. simpl.
  do 5 eexists. split; [reflexivity|]. simpl.
  rewrite <- app_assoc. simpl. repeat split; reflexivity.
Qed.



(** C7 (the code departs from it). The scorer is unavailable and the
    patient, who has a doctor, writes [I just want to give up]. Through
    [api_chat] the turn is rated 3.0 with confidence 0.5, stored, checked
    (the keyword raises an alert, call and text go out) and answered.
    Through [api_chat_stream] the words of the reply are followed by the
    error event, an ERROR record is logged, nothing is stored and the check
    does not run. Through [voice_process] the messages are stored, an ERROR
    record is logged, and no snapshot is stored. *)
Theorem stream_scorer_failure_drops_turn :
  let w := Fixture.world_of Fixture.assigned in
  let chatted :=
    api_chat (Fixture.chat "I just want to give up") Fixture.scorer_down w in
  let streamed :=
    api_chat_stream (Fixture.chat "I just want to give up") Fixture.scorer_down w in
  let spoken :=
    voice_process (Fixture.voice "I just want to give up") Fixture.scorer_down w in
  (fst chatted = Ok (ChatReply "I hear you." 1 3.0%float)
   /\ map (fun s => (ss_rating s, ss_confidence s))
          (sentiment_snapshots (durable (snd chatted))) = [(3.0, 0.5)%float]
   /\ map msg_text (messages (durable (snd chatted)))
      = ["I just want to give up"; "I hear you."]
   /\ map al_alert_type (alerts (durable (snd chatted)))
      = [AlertType.SUICIDAL_IDEATION]
   /\ List.length (outbox (snd chatted)) = 2
   /\ hd_error (log (snd chatted))
      = Some (mkLog Level.WARNING
                [Lit "Sentiment analysis failed: ";
                 Exc (Exception "ScoringUnavailable")]))
  /\ (fst streamed = Ok EventStream
      /\ yielded (snd streamed)
         = [WordEvent "I"; WordEvent "hear"; WordEvent "you.";
            ErrorEvent "Stream failed."]
      /\ log (snd streamed)
         = [mkLog Level.ERROR
              [Lit "Streaming error: "; Exc (Exception "ScoringUnavailable")]]
      /\ stores (snd streamed) = stores w
      /\ outbox (snd streamed) = [])
  /\ (map msg_text (messages (durable (snd spoken)))
      = ["I just want to give up"; "I hear you."]
      /\ sentiment_snapshots (durable (snd spoken)) = []
      /\ log (snd spoken)
         = [mkLog Level.ERROR
              [Lit "Failed to analyze sentiment for voice: ";
               Exc (Exception "ScoringUnavailable")]]
      /\ alerts (durable (snd spoken)) = []
      /\ outbox (snd spoken) = []).
Proof.
  cbv zeta. repeat split; vm_compute; reflexivity.
Qed.


(** * Further properties of the code *)

#[local] Arguments Py.take : simpl nomatch.
#[local] Arguments firstn : simpl nomatch.

(** ** The verdict *)

Lemma trend_verdict_idle (r : float) (rs : list SentimentSnapshot) :
  is_critical (trend_verdict r rs) = false -> trend_verdict r rs = initial_verdict.
Proof.
  destruct (trend_verdict_cases r rs) as [(_ & _ & Hc)|(_ & ->)]; [congruence|].
  unfold floor_rule. destruct (r <=? 1.5)%float; simpl; [discriminate|reflexivity].
Qed.

Lemma trend_critical_iff (r : float) (rs : list SentimentSnapshot) :
  is_critical (trend_verdict r rs) = true
  <-> (r <=? 1.5)%float = true \/ declines r rs.
Proof.
  destruct (trend_verdict_cases r rs) as [(Hd & _ & Hc)|(Hd & ->)].
  - tauto.
  - unfold floor_rule. destruct (r <=? 1.5)%float; simpl; intuition congruence.
Qed.

Lemma critical_has_type (r : float) (rs : list SentimentSnapshot) (text : string) :
  is_critical (critical_verdict r rs text) = true ->
  alert_type (critical_verdict r rs text) = Some AlertType.SUICIDAL_IDEATION
  \/ alert_type (critical_verdict r rs text) = Some AlertType.SEVERE_DEPRESSION.
Proof.
  unfold critical_verdict. destruct (crisis_language text) eqn:Hc.
  - rewrite crisis_rule_fires by assumption. now left.
  - rewrite crisis_rule_idle by assumption. intros Ht.
    right. apply (trend_verdict_shape r rs Ht).
Qed.

(** X1. The verdict is critical exactly when the floor rule, the decline
    rule or the keyword test holds. A critical verdict always has a type,
    which is SUICIDAL_IDEATION or SEVERE_DEPRESSION, and a rationale; a
    verdict that is not critical is the initial one. *)
Theorem verdict_well_formed (r : float) (rs : list SentimentSnapshot) (text : string) :
  let v := critical_verdict r rs text in
  (is_critical v = true
     <-> (r <=? 1.5)%float = true \/ declines r rs \/ crisis_language text = true)
  /\ (is_critical v = true
        <-> alert_type v = Some AlertType.SUICIDAL_IDEATION
            \/ alert_type v = Some AlertType.SEVERE_DEPRESSION)
  /\ (is_critical v = false <-> v = initial_verdict)
  /\ (is_critical v = true -> rationale v <> []).
Proof.
  intros v. subst v. unfold critical_verdict.
  pose proof (trend_critical_iff r rs) as Htrend.
  destruct (crisis_language text) eqn:Hc.
  - rewrite crisis_rule_fires by assumption. simpl.
    split; [tauto|]. split; [tauto|]. split; [|discriminate].
    split; discriminate.
  - rewrite crisis_rule_idle by assumption.
    destruct (is_critical (trend_verdict r rs)) eqn:Ht.
    + destruct (trend_verdict_shape r rs Ht) as (Hty & Hr).
      assert (Hf : (r <=? 1.5)%float = true \/ declines r rs)
        by (apply Htrend; reflexivity).
      split; [tauto|]. split; [tauto|]. split.
      * split; [discriminate|]. intros He. rewrite He in Ht. discriminate.
      * intros _ He. destruct Hr as [Hr|Hr]; rewrite Hr in He; discriminate.
    + pose proof (trend_verdict_idle r rs Ht) as Hi. rewrite Hi.
      split; [|split; [|split]].
      * split; [discriminate|]. intros [H|[H|H]]; [| |discriminate];
          assert (false = true) by (apply Htrend; auto); discriminate.
      * simpl. split; [discriminate|]. intros [H|H]; discriminate.
      * tauto.
      * discriminate.
Qed.

Lemma verdict_well_formed_witness :
  rationale (critical_verdict 1.0%float [] "fine") <> [].
Proof.
  apply (proj2 (proj2 (proj2 (verdict_well_formed 1.0%float [] "fine")))).
  reflexivity.
Defined.

(** ** The evidence stored with an alert *)

Lemma take_length (n : nat) (s : string) :
  String.length (Py.take n s) = Nat.min n (String.length s).
Proof.
  revert s. induction n as [|n IH]; intros [|c s]; simpl; auto.
Qed.

Lemma take_prefix (n : nat) (s : string) : prefix (Py.take n s) s = true.
Proof.
  revert s. induction n as [|n IH]; intros [|c s]; simpl; auto.
  destruct (ascii_dec c c); [apply IH|congruence].
Qed.

Lemma take_all (n : nat) (s : string) : String.length s <= n -> Py.take n s = s.
Proof.
  revert s. induction n as [|n IH]; intros [|c s] H; simpl in *; auto; try lia.
  f_equal. apply IH. lia.
Qed.

(** X2. The snippet stored with an alert is the first 200 characters of the
    utterance: a prefix of it, of length min(200, length), and the whole
    utterance when that has at most 200 characters. The second cut, to 240
    characters, made for the voice agent leaves the stored snippet as it
    is. *)
Theorem stored_snippet_bounds (r : float) (text : string)
    (rs : list SentimentSnapshot) :
  exists snippet,
    dict_get "conversation_snippet" (trigger_data_of r text rs) = Some (JStr snippet)
    /\ String.length snippet = Nat.min 200 (String.length text)
    /\ prefix snippet text = true
    /\ (String.length text <= 200 -> snippet = text)
    /\ json_slice 240 (JStr snippet) = Ok (JStr snippet).
Proof.
  exists (Py.take 200 text). split; [reflexivity|].
  split; [apply take_length|]. split; [apply take_prefix|].
  split; [apply take_all|].
  unfold json_slice. rewrite take_all; [reflexivity|].
  rewrite take_length. lia.
Qed.

Lemma stored_snippet_bounds_witness :
  exists snippet,
    dict_get "conversation_snippet" (trigger_data_of 3.0%float "no point" [])
    = Some (JStr snippet)
    /\ snippet = "no point".
Proof.
  destruct (stored_snippet_bounds 3.0%float "no point" [])
    as (snippet & Hget & _ & _ & Hall & _).
  exists snippet. split; [exact Hget|]. apply Hall. simpl. lia.
Defined.

Lemma fresh_id_above (ids : list nat) (x : nat) : In x ids -> x < fresh_id ids.
Proof.
  unfold fresh_id. induction ids as [|y ids IH]; simpl; [tauto|].
  intros [->|H]; [lia|]. specialize (IH H). lia.
Qed.

(** X3. Every alert row that a run of the check adds is for the checked
    user, has severity CRITICAL and status active, is of type
    SUICIDAL_IDEATION or SEVERE_DEPRESSION, has an id that no earlier alert
    row has, and carries the rating it was called with. *)
Theorem added_alert_shape env w user_id r text new :
  alerts (session (snd (check_critical_mood_and_alert user_id r text env w)))
  = alerts (session w) ++ new ->
  Forall (fun a =>
            al_patient_id a = user_id
            /\ al_severity a = AlertSeverity.CRITICAL
            /\ al_status a = "active"
            /\ (al_alert_type a = AlertType.SUICIDAL_IDEATION
                \/ al_alert_type a = AlertType.SEVERE_DEPRESSION)
            /\ ~ In (al_id a) (map al_id (alerts (session w)))
            /\ exists d, al_trigger_data a = Some d
                         /\ dict_get "sentiment_rating" d = Some (JFloat r))
         new.
Proof.
  intros Hnew.
  destruct (check_effect env w user_id r text) as
    [(Hst & _)|(u & da & a & _ & _ & Hc & _ & Ha & Hs & _)].
  - unfold stores in Hst. injection Hst as Hs _. rewrite Hs in Hnew.
    rewrite <- (app_nil_r (alerts (session w))) in Hnew at 1.
    apply app_inv_head in Hnew. subst new. constructor.
  - rewrite Hs in Hnew. simpl in Hnew. apply app_inv_head in Hnew. subst new.
    constructor; [|constructor].
    unfold new_alert in Ha.
    set (v := critical_verdict r (recent_snapshots user_id (session w)) text) in *.
    pose proof (critical_has_type r
                  (recent_snapshots user_id (session w)) text Hc) as Hty.
    fold v in Hty.
    destruct (alert_type v) as [ty|] eqn:Hat; [|discriminate].
    injection Ha as <-. simpl.
    split; [reflexivity|]. split; [reflexivity|]. split; [reflexivity|]. split.
    + destruct Hty as [H|H]; injection H as ->; auto.
    + split; [|eexists; split; reflexivity].
      intros Hin. apply fresh_id_above in Hin. lia.
Qed.

Lemma added_alert_shape_witness :
  Forall (fun a => al_patient_id a = 1 /\ al_severity a = AlertSeverity.CRITICAL)
    [mkAlert 1 1 AlertSeverity.CRITICAL AlertType.SEVERE_DEPRESSION
       (floor_reason 1.0%float) "active"
       (Some (trigger_data_of 1.0%float "so tired" []))].
Proof.
  eapply Forall_impl;
    [|apply (@added_alert_shape (Fixture.env_of (Fixture.sentiment_of 1.0%float))
               (Fixture.world_of Fixture.assigned) 1 1.0%float "so tired");
      reflexivity].
  intros a (H1 & H2 & _). auto.
Defined.

(** ** The history query *)

Lemma In_firstn {A} (n : nat) (l : list A) (a : A) : In a (firstn n l) -> In a l.
Proof.
  revert l. induction n as [|n IH]; intros [|x l]; simpl; try tauto.
  intros [->|H]; auto.
Qed.

Lemma In_skipn {A} (n : nat) (l : list A) (a : A) : In a (skipn n l) -> In a l.
Proof.
  revert l. induction n as [|n IH]; intros [|x l]; simpl; try tauto.
  intros H; auto.
Qed.

Section Descending.
Context {A : Type} (key : A -> nat).

Lemma insert_desc_In (x y : A) (l : list A) :
  In y (insert_desc key x l) <-> y = x \/ In y l.
Proof.
  induction l as [|z l IH]; simpl.
  - intuition congruence.
  - destruct (Nat.leb (key z) (key x)); simpl; [intuition congruence|].
    rewrite IH. intuition congruence.
Qed.

Lemma order_by_desc_In (y : A) (l : list A) :
  In y (order_by_desc key l) <-> In y l.
Proof.
  unfold order_by_desc. induction l as [|x l IH]; simpl; [tauto|].
  rewrite insert_desc_In, IH. intuition congruence.
Qed.

Lemma insert_desc_length (x : A) (l : list A) :
  List.length (insert_desc key x l) = S (List.length l).
Proof.
  induction l as [|z l IH]; simpl; [reflexivity|].
  destruct (Nat.leb (key z) (key x)); simpl; auto.
Qed.

Lemma order_by_desc_length (l : list A) :
  List.length (order_by_desc key l) = List.length l.
Proof.
  unfold order_by_desc. induction l as [|x l IH]; simpl; [reflexivity|].
  now rewrite insert_desc_length, IH.
Qed.

Lemma insert_desc_sorted (x : A) (l : list A) :
  StronglySorted (fun a b => key b <= key a) l ->
  StronglySorted (fun a b => key b <= key a) (insert_desc key x l).
Proof.
  induction 1 as [|z l Hs IH Hz]; simpl.
  - repeat constructor.
  - destruct (Nat.leb (key z) (key x)) eqn:Hle.
    + apply Nat.leb_le in Hle. constructor; [constructor; assumption|].
      constructor; [exact Hle|].
      rewrite Forall_forall in *. intros b Hb. specialize (Hz b Hb). lia.
    + apply Nat.leb_gt in Hle. constructor; [exact IH|].
      rewrite Forall_forall in *. intros b Hb.
      apply insert_desc_In in Hb as [->|Hb]; [lia|auto].
Qed.

Lemma order_by_desc_sorted (l : list A) :
  StronglySorted (fun a b => key b <= key a) (order_by_desc key l).
Proof.
  unfold order_by_desc. induction l as [|x l IH]; simpl; [constructor|].
  now apply insert_desc_sorted.
Qed.

Lemma sorted_firstn (n : nat) (l : list A) :
  StronglySorted (fun a b => key b <= key a) l ->
  StronglySorted (fun a b => key b <= key a) (firstn n l)
  /\ forall a b, In a (firstn n l) -> In b (skipn n l) -> key b <= key a.
Proof.
  revert l. induction n as [|n IH]; intros l Hs; simpl.
  - split; [constructor|]. intros a b [].
  - destruct l as [|x l]; simpl; [split; [constructor|intros a b []]|].
    inversion Hs as [|? ? Hs' Hx]; subst.
    destruct (IH l Hs') as (Hf & Hcut). rewrite Forall_forall in Hx. split.
    + constructor; [exact Hf|]. rewrite Forall_forall. intros b Hb.
      apply Hx. eapply In_firstn; eauto.
    + intros a b [<-|Ha] Hb; [|auto]. apply Hx. eapply In_skipn; eauto.
Qed.

End Descending.

(** X4. The history that the check reads has at most five snapshots, all of
    the checked patient and all rows of the table, ordered newest first;
    it has five whenever the patient has that many, and no snapshot of the
    patient that it leaves out is newer than one it holds. *)
Theorem history_is_the_newest_five (user_id : nat) (s : Store) :
  let mine := filter (fun x => Nat.eqb (ss_patient_id x) user_id)
                     (sentiment_snapshots s) in
  let history := recent_snapshots user_id s in
  List.length history = Nat.min 5 (List.length mine)
  /\ (forall x, In x history ->
        In x (sentiment_snapshots s) /\ ss_patient_id x = user_id)
  /\ StronglySorted (fun a b => ss_created_at b <= ss_created_at a) history
  /\ (forall x y, In x history -> In y mine -> ~ In y history ->
        ss_created_at y <= ss_created_at x).
Proof.
  intros mine history. subst history. unfold recent_snapshots. fold mine.
  pose proof (order_by_desc_sorted ss_created_at mine) as Hs.
  destruct (sorted_firstn ss_created_at 5 Hs) as (Hf & Hcut).
  split; [|split; [|split]].
  - rewrite length_firstn, order_by_desc_length. reflexivity.
  - intros x Hx. apply In_firstn in Hx.
    apply (proj1 (order_by_desc_In ss_created_at x mine)) in Hx.
    apply filter_In in Hx as (Hx & Hp). apply Nat.eqb_eq in Hp. split; assumption.
  - exact Hf.
  - intros x y Hx Hy Hn. apply (Hcut x y Hx).
    apply (proj2 (order_by_desc_In ss_created_at y mine)) in Hy.
    rewrite <- (firstn_skipn 5 (order_by_desc ss_created_at mine)) in Hy.
    apply in_app_or in Hy as [Hy|Hy]; [contradiction|exact Hy].
Qed.

Lemma history_is_the_newest_five_witness :
  Forall (fun x => ss_patient_id x = 1)
    (recent_snapshots 1
       (with_snapshots
          (fun _ => [mkSentimentSnapshot 1 1 ConversationChannel.CHAT 2.0%float
                       0.5%float 10 None;
                     mkSentimentSnapshot 2 7 ConversationChannel.CHAT 1.0%float
                       0.5%float 20 None])
          Fixture.assigned)).
Proof.
  apply Forall_forall. intros x Hx.
  apply (proj1 (proj2 (history_is_the_newest_five 1 _)) x Hx).
Defined.

(** ** The notification of the doctor *)

Lemma truthy_app (a b : string) :
  Py.truthy (a ++ b) = Py.truthy a || Py.truthy b.
Proof. destruct a, b; reflexivity. Qed.

(** The full number is empty or missing exactly when the phone column is. *)
Lemma get_full_phone_truthy (u : User) :
  Py.truthy_opt (get_full_phone u) = Py.truthy_opt (u_phone u).
Proof.
  unfold get_full_phone.
  destruct (u_country_code u) as [cc|], (u_phone u) as [ph|]; try reflexivity.
  destruct (Py.truthy cc) eqn:Hc, (Py.truthy ph) eqn:Hp; simpl; try reflexivity.
  unfold Py.truthy_opt. now rewrite truthy_app, Hc, Hp.
Qed.

Section Appends.
Context {B : Type} (f : World -> list B) (env : Env).

Lemma appends_of_keeps {A} (P : list B -> Prop) (m : M A) :
  keeps f m -> P [] -> appends f env P m.
Proof.
  intros Hk HP w. exists []. rewrite app_nil_r. split; [apply Hk|exact HP].
Qed.

Lemma appends_weaken {A} (P Q : list B -> Prop) (m : M A) :
  appends f env P m -> (forall n, P n -> Q n) -> appends f env Q m.
Proof.
  intros Hm HPQ w. destruct (Hm w) as (n & Hn & HP). eauto.
Qed.

(** A step that leaves the list alone, then the rest. *)
Lemma appends_bind_keeps {A C} (P : list B -> Prop) (m : M A) (k : A -> M C) :
  keeps f m -> P [] -> (forall a, appends f env P (k a)) ->
  appends f env P (bind m k).
Proof.
  intros Hm HP Hk w. unfold bind. specialize (Hm env w).
  destruct (m env w) as [[a|e] w1]; simpl in *.
  - destruct (Hk a w1) as (n & Hn & HPn). exists n. rewrite Hn, Hm. auto.
  - exists []. rewrite app_nil_r. auto.
Qed.

(** A step that appends, then a rest that appends. *)
Lemma appends_bind_seq {A C} (P Q : list B -> Prop) (m : M A) (k : A -> M C) :
  appends f env P m -> Q [] -> (forall a, appends f env Q (k a)) ->
  appends f env (fun n => exists n1 n2, n = n1 ++ n2 /\ P n1 /\ Q n2) (bind m k).
Proof.
  intros Hm HQ Hk w. unfold bind. destruct (Hm w) as (n1 & Hn1 & HP).
  destruct (m env w) as [[a|e] w1]; simpl in *.
  - destruct (Hk a w1) as (n2 & Hn2 & HQ2). exists (n1 ++ n2).
    rewrite Hn2, Hn1, app_assoc. split; [reflexivity|]. eauto.
  - exists n1. split; [exact Hn1|]. exists n1, []. rewrite app_nil_r. auto.
Qed.

(** A step that appends, then a rest that leaves the list alone. *)
Lemma appends_bind_then_keeps {A C} (P : list B -> Prop) (m : M A)
    (k : A -> M C) :
  appends f env P m -> (forall a, keeps f (k a)) -> appends f env P (bind m k).
Proof.
  intros Hm Hk w. unfold bind. destruct (Hm w) as (n & Hn & HP).
  destruct (m env w) as [[a|e] w1]; simpl in *; [|eauto].
  exists n. rewrite Hk. auto.
Qed.

Lemma appends_ask {C} (P : list B -> Prop) (k : Env -> M C) :
  appends f env P (k env) -> appends f env P (bind ask k).
Proof. intros Hk w. exact (Hk w). Qed.

Lemma appends_try {A} (P : list B -> Prop) (m : M A) (h : exn -> M A) :
  appends f env P m -> (forall e, keeps f (h e)) -> appends f env P (try_except m h).
Proof.
  intros Hm Hh w. unfold try_except. destruct (Hm w) as (n & Hn & HP).
  destruct (m env w) as [[a|e] w1]; simpl in *; [eauto|].
  exists n. rewrite Hh. auto.
Qed.

End Appends.

Lemma appends_add env (o : Outbound) :
  appends outbox env (fun n => n = [o]) (modify (add_outbound o)).
Proof. intros w. exists [o]. auto. Qed.


Ltac keeps_outbox :=
  unfold db_get_user, query_recent_messages, url_for_status_webhook, commit, flush,
    query_recent_sentiments, query_active_assignment, load_doctor, add_alert;
  keeps_auto.

(** What one call of the voice adapter sends: at most one request, to the
    number it was given; exactly one when the key is set. *)
Lemma create_conversation_appends env phone agent customer variables callback :
  appends outbox env
    (fun n => (n = [] /\ Py.truthy_opt (ELEVENLABS_API_KEY env) = false)
              \/ (exists p, n = [VoicePost p] /\ vp_to_number p = phone
                            /\ Py.truthy_opt (ELEVENLABS_API_KEY env) = true))
    (create_conversation_with_agent phone agent customer variables callback).
Proof.
  intros w. unfold create_conversation_with_agent. munfold.
  destruct (Py.truthy_opt (ELEVENLABS_API_KEY env)) eqn:Hkey; simpl.
  - destruct (nonempty variables); simpl;
      match goal with
      | |- context [requests_post env ?p] =>
          destruct (requests_post env p) as [sc cd|e]; simpl;
          [destruct (Nat.eqb sc 200 || Nat.eqb sc 201); simpl|];
          (exists [VoicePost p]; split; [reflexivity|]; right; exists p; auto)
      end.
  - exists []. rewrite app_nil_r. auto.
Qed.

Lemma call_doctor_appends env alert d :
  Py.truthy_opt (u_phone d) = true ->
  appends outbox env
    (fun n => exists n1 n2,
       n = n1 ++ n2
       /\ (n1 = [] \/ (exists p, n1 = [VoicePost p]
                                 /\ vp_to_number p = get_full_phone d
                                 /\ is_configured env = true))
       /\ (n2 = [] \/ exists body, n2 = [SmsSend (get_full_phone d) body]))
    (call_doctor_for_critical_alert alert (Some d)).
Proof.
  intros Hph.
  assert (Hnil : exists n1 n2 : list Outbound,
             [] = n1 ++ n2
             /\ (n1 = [] \/ (exists p, n1 = [VoicePost p]
                                       /\ vp_to_number p = get_full_phone d
                                       /\ is_configured env = true))
             /\ (n2 = [] \/ exists body, n2 = [SmsSend (get_full_phone d) body]))
    by (exists [], []; auto).
  unfold call_doctor_for_critical_alert.
  apply appends_try; [|intros e; keeps_auto].
  unfold call_doctor_body. rewrite Hph. cbn [negb].
  apply appends_bind_keeps; [keeps_outbox|exact Hnil|intros patient].
  cbv zeta. destruct patient as [patient|];
    [|apply appends_of_keeps; [keeps_auto|exact Hnil]].
  apply appends_bind_keeps; [keeps_outbox|exact Hnil|intros recent_messages].
  cbv zeta.
  apply appends_bind_keeps; [keeps_auto|exact Hnil|intros recent_ratings].
  apply appends_bind_keeps; [keeps_auto|exact Hnil|intros trigger_snippet].
  cbv zeta. apply appends_ask.
  apply appends_bind_seq; [|now left|intros _].
  - destruct (is_configured env) eqn:Hconf.
    + apply appends_bind_keeps; [keeps_outbox|now left|intros callback].
      apply appends_bind_then_keeps; [|intros res; keeps_auto].
      eapply appends_weaken; [apply create_conversation_appends|].
      intros n [(-> & _)|(p & -> & Hto & _)]; [now left|right; eauto].
    + apply appends_of_keeps; [keeps_auto|now left].
  - cbv zeta. apply appends_bind_then_keeps; [|intros _; keeps_auto].
    eapply appends_weaken; [apply appends_add|].
    intros n ->. right. eauto.
Qed.

Lemma one_attempt_per_channel_aux env w alert doctor :
  exists new,
    outbox (snd (call_doctor_for_critical_alert alert doctor env w))
    = outbox w ++ new.
Proof.
  destruct doctor as [d|].
  - destruct (Py.truthy_opt (u_phone d)) eqn:Hph.
    + destruct (@call_doctor_appends env alert d Hph w) as (n & Hn & _). eauto.
    + exists []. rewrite app_nil_r.
      unfold call_doctor_for_critical_alert, call_doctor_body. munfold.
      rewrite Hph. reflexivity.
  - exists []. rewrite app_nil_r.
    unfold call_doctor_for_critical_alert, call_doctor_body. munfold. reflexivity.
Qed.

(** X5. One notification attempts each channel at most once: the outbox
    gains nothing, the voice request, the text, or the voice request
    followed by the text. Both go to the doctor's full phone number, which
    is then not empty, and the voice request is made only when the voice
    channel is configured. Without a doctor record the outbox gains
    nothing. *)
Theorem one_attempt_per_channel env w alert doctor :
  exists new,
    outbox (snd (call_doctor_for_critical_alert alert doctor env w))
    = outbox w ++ new
    /\ match doctor with
       | None => new = []
       | Some d =>
           notification_of env d new
           /\ (new <> [] -> Py.truthy_opt (get_full_phone d) = true)
       end.
Proof.
  destruct doctor as [d|].
  - destruct (Py.truthy_opt (u_phone d)) eqn:Hph.
    + destruct (@call_doctor_appends env alert d Hph w)
        as (n & Hn & n1 & n2 & -> & H1 & H2).
      exists (n1 ++ n2). split; [exact Hn|].
      rewrite get_full_phone_truthy, Hph. split; [|reflexivity].
      destruct H1 as [->|(p & -> & Hto & Hc)], H2 as [->|(body & ->)]; simpl; auto.
    + exists []. rewrite app_nil_r. split; [|simpl; split; [exact I|congruence]].
      unfold call_doctor_for_critical_alert, call_doctor_body. munfold.
      rewrite Hph. reflexivity.
  - exists []. rewrite app_nil_r. split; [|reflexivity].
    unfold call_doctor_for_critical_alert, call_doctor_body. munfold. reflexivity.
Qed.

(** X6. A doctor without a phone number stops the notification at once:
    one ERROR record, no store call, nothing sent. The alert row is durable
    by then, and the check still logs its CRITICAL record saying that the
    doctor was notified. *)
Theorem doctor_without_phone :
  (forall env w alert d,
      Py.truthy_opt (u_phone d) = false ->
      call_doctor_for_critical_alert alert (Some d) env w
      = (Ok tt,
         add_log (mkLog Level.ERROR
                    [Lit "Doctor "; Int (u_id d);
                     Lit " has no phone number for emergency contact"]) w))
  /\ (forall env w user_id r text u da d a,
      no_faults env ->
      find_user user_id (session w) = Some u ->
      u_user_type u = UserType.PATIENT ->
      is_critical (critical_verdict r (recent_snapshots user_id (session w)) text)
      = true ->
      active_assignment user_id (session w) = Some da ->
      new_alert (session w) user_id r text = Some a ->
      find_user (dp_doctor_id da) (session w) = Some d ->
      Py.truthy_opt (u_phone d) = false ->
      let w' := snd (check_critical_mood_and_alert user_id r text env w) in
      alerts (durable w') = alerts (session w) ++ [a]
      /\ outbox w' = outbox w
      /\ log w' = log w ++
           [mkLog Level.ERROR
              [Lit "Doctor "; Int (u_id d);
               Lit " has no phone number for emergency contact"];
            mkLog Level.CRITICAL
              [Lit "Critical alert triggered for patient "; Int user_id;
               Lit ", doctor "; Int (dp_doctor_id da); Lit " notified"]]).
Proof.
  assert (Hcall : forall env w alert d,
      Py.truthy_opt (u_phone d) = false ->
      call_doctor_for_critical_alert alert (Some d) env w
      = (Ok tt,
         add_log (mkLog Level.ERROR
                    [Lit "Doctor "; Int (u_id d);
                     Lit " has no phone number for emergency contact"]) w)).
  { intros env w alert d Hph.
    unfold call_doctor_for_critical_alert, call_doctor_body. munfold.
    rewrite Hph. reflexivity. }
  split; [exact Hcall|].
  intros env w user_id r text u da d a Hnf Hu Hty Hc Hda Hnew Hd Hph.
  unfold new_alert in Hnew.
  destruct (alert_type _) as [ty|] eqn:Hat; [|discriminate].
  injection Hnew as <-.
  unfold check_critical_mood_and_alert, check_body, find_user in *. munfold.
  rewrite Hnf. simpl. rewrite Hu. simpl. rewrite Hty. simpl.
  rewrite Hnf. simpl. rewrite Hc. simpl. rewrite Hnf. simpl. rewrite Hda. simpl.
  rewrite Hat. simpl. rewrite Hnf. simpl. rewrite Hnf. simpl. rewrite Hd. simpl.
  rewrite Hcall by exact Hph. simpl.
  rewrite <- app_assoc. auto.
Qed.

Lemma doctor_without_phone_witness :
  let silent := mkUser 2 "Lee" None (Some "+1") UserType.DOCTOR in
  let w := Fixture.world_of
             (mkStore [Fixture.patient; silent] [mkDoctorPatient 1 2 1 true]
                      [] [] [] [] []) in
  let w' := snd (check_critical_mood_and_alert 1 1.0%float "so tired"
                   (Fixture.env_of (Fixture.sentiment_of 1.0%float)) w) in
  List.length (alerts (durable w')) = 1 /\ outbox w' = [].
Proof.
  intros silent w w'.
  destruct (proj2 doctor_without_phone
              (Fixture.env_of (Fixture.sentiment_of 1.0%float)) w
              1 1.0%float "so tired"
              Fixture.patient (mkDoctorPatient 1 2 1 true) silent
              (mkAlert 1 1 AlertSeverity.CRITICAL AlertType.SEVERE_DEPRESSION
                 (floor_reason 1.0%float) "active"
                 (Some (trigger_data_of 1.0%float "so tired" []))))
    as (Ha & Ho & _);
    try (intros; exact eq_refl); try (intro n; exact eq_refl).
  split; [exact (f_equal (@List.length Alert) Ha)|exact Ho].
Defined.

(** X7. When the voice channel is not configured no request is made to the
    voice provider and the text still goes out: for a doctor with a phone
    number and a patient record that loads, the outbox gains exactly the
    text to the doctor's full number, whatever the SMS channel answers. *)
Theorem text_without_voice env w a d u r text rs :
  Py.truthy_opt (u_phone d) = true ->
  find_user (al_patient_id a) (session w) = Some u ->
  al_trigger_data a = Some (trigger_data_of r text rs) ->
  is_configured env = false ->
  fault env (ops w) = None ->
  fault env (S (ops w)) = None ->
  outbox (snd (call_doctor_for_critical_alert a (Some d) env w))
  = outbox w ++ [SmsSend (get_full_phone d)
                         (sms_summary_of (u_name u) (alert_type_text_of a))].
Proof.
  intros Hph Hu Htd Hconf F0 F1. unfold find_user in Hu.
  munfold_notify.
  rewrite Hph. simpl. rewrite F0. simpl. rewrite Hu. simpl. rewrite F1. simpl.
  rewrite Htd. simpl. rewrite Hconf. simpl.
  destruct (send_twilio_message env _ _) as [[]|e]; reflexivity.
Qed.

Lemma text_without_voice_witness :
  outbox (snd (call_doctor_for_critical_alert
                 (mkAlert 1 1 AlertSeverity.CRITICAL AlertType.SEVERE_DEPRESSION
                    (floor_reason 1.0%float) "active"
                    (Some (trigger_data_of 1.0%float "so tired" [])))
                 (Some Fixture.doctor)
                 (mkEnv (fun _ => None) (Fixture.sentiment_of 1.0%float)
                    (fun _ _ => Ok None) (fun _ _ => Ok tt)
                    (fun _ => HttpFailed (Exception "unused"))
                    None true None "127.0.0.1:5000")
                 (Fixture.world_of Fixture.assigned)))
  = [SmsSend (Some "+15550100")
       (sms_summary_of "Ana" "Severe Depression")].
Proof.
  exact (@text_without_voice
           (mkEnv (fun _ => None) (Fixture.sentiment_of 1.0%float)
              (fun _ _ => Ok None) (fun _ _ => Ok tt)
              (fun _ => HttpFailed (Exception "unused"))
              None true None "127.0.0.1:5000")
           (Fixture.world_of Fixture.assigned)
           (mkAlert 1 1 AlertSeverity.CRITICAL AlertType.SEVERE_DEPRESSION
              (floor_reason 1.0%float) "active"
              (Some (trigger_data_of 1.0%float "so tired" [])))
           Fixture.doctor Fixture.patient 1.0%float "so tired" []
           eq_refl eq_refl eq_refl eq_refl eq_refl eq_refl).
Defined.

(** ** The voice adapter *)



(** ** The conversation excerpt *)

Lemma length_append (a b : string) :
  String.length (a ++ b) = String.length a + String.length b.
Proof. induction a as [|c a IH]; simpl; [reflexivity|now rewrite IH]. Qed.

(** X9. For a bound of at least 3 characters the excerpt built for the
    voice agent never exceeds the bound: lines that fit are passed
    unchanged, longer ones are cut to the bound minus 3 characters and
    closed with three dots. *)
Theorem snippet_within_bound (msgs : list Message) (max_chars : nat) :
  3 <= max_chars ->
  let joined :=
    Py.join newline
      (map (fun m => (speaker m ++ ": " ++ msg_text m)%string) msgs) in
  String.length (build_snippet msgs max_chars) <= max_chars
  /\ (String.length joined <= max_chars -> build_snippet msgs max_chars = joined)
  /\ (max_chars < String.length joined ->
        build_snippet msgs max_chars
        = (Py.take (max_chars - 3) joined ++ "...")%string
        /\ String.length (build_snippet msgs max_chars) = max_chars).
Proof.
  intros Hmax joined. unfold build_snippet. fold joined.
  destruct (Nat.ltb max_chars (String.length joined)) eqn:Hlt.
  - apply Nat.ltb_lt in Hlt.
    assert (Hlen : String.length (Py.take (max_chars - 3) joined ++ "...")
                   = max_chars).
    { rewrite length_append, take_length. simpl. lia. }
    split; [lia|]. split; [lia|]. auto.
  - apply Nat.ltb_ge in Hlt. split; [exact Hlt|]. split; [reflexivity|lia].
Qed.

Lemma snippet_within_bound_witness :
  build_snippet
    [mkMessage 1 1 MessageSender.PATIENT "I feel low today" 10;
     mkMessage 2 1 MessageSender.AI "I hear you." 11] 20
  = "Patient: I feel l...".
Proof.
  destruct (@snippet_within_bound
              [mkMessage 1 1 MessageSender.PATIENT "I feel low today" 10;
               mkMessage 2 1 MessageSender.AI "I hear you." 11] 20
              ltac:(lia)) as (_ & _ & Hcut).
  destruct Hcut as (Hcut & _); [simpl; lia|]. exact Hcut.
Defined.

(** ** The endpoints *)

Lemma bind_ok_inv {A B} (m : M A) (k : A -> M B) env w b w' :
  bind m k env w = (Ok b, w') ->
  exists a w1, m env w = (Ok a, w1) /\ k a env w1 = (Ok b, w').
Proof.
  unfold bind. destruct (m env w) as [[a|e] w1]; [eauto|discriminate].
Qed.

Lemma try_except_ok_inv {A} (m : M A) (h : exn -> M A) env w b w' :
  try_except m h env w = (Ok b, w') ->
  m env w = (Ok b, w')
  \/ exists e w1, m env w = (Raise e, w1) /\ h e env w1 = (Ok b, w').
Proof.
  unfold try_except. destruct (m env w) as [[a|e] w1]; eauto.
Qed.

(** A [try] whose handler logs and returns a value never raises. *)
Lemma try_except_total {A} (m : M A) (l : Level.t) (msg : exn -> FString) (x : A) :
  never_raises (try_except m (fun e => bind (logger l (msg e)) (fun _ => ret x))).
Proof.
  intros env w. unfold try_except.
  destruct (m env w) as [[a|e] w1]; simpl; eauto.
Qed.

Lemma text_or_truthy (text : option string) (default : string) :
  Py.truthy default = true -> Py.truthy (text_or text default) = true.
Proof.
  intros Hd. unfold text_or. destruct text as [t|]; [|exact Hd].
  destruct (Py.truthy t) eqn:Ht; [exact Ht|exact Hd].
Qed.

Ltac munfold_store_in H :=
  unfold score_and_store in H;
  repeat (progress (unfold bind, try_except, ret, get, ask, modify, lift, raise,
                      logger, guard, commit, flush, add_conversation, add_message,
                      add_snapshot in H));
  simpl in H.


(** The check leaves the committed conversations, messages and snapshots
    as they are. *)
Lemma check_keeps_committed_turn env w user_id r text :
  durable w = session w ->
  let w' := snd (check_critical_mood_and_alert user_id r text env w) in
  conversations (durable w') = conversations (session w)
  /\ messages (durable w') = messages (session w)
  /\ sentiment_snapshots (durable w') = sentiment_snapshots (session w).
Proof.
  intros Hd w'. subst w'.
  destruct (check_effect env w user_id r text) as
    [(Hst & _)|(u & da & a & _ & _ & _ & _ & _ & Hs & Hd')].
  - unfold stores in Hst. injection Hst as _ Hd'. rewrite Hd', Hd. auto.
  - destruct Hd' as [(Hd' & _)|Hd']; rewrite Hd'; [rewrite Hd; auto|].
    rewrite Hs. auto.
Qed.



Lemma truthy_false_iff (s : string) : Py.truthy s = false <-> s = "".
Proof. destruct s; unfold Py.truthy; simpl; split; congruence. Qed.

Ltac refusal_cases :=
  split; [|split; [|split]]; intros;
  try solve [split; reflexivity];
  try solve [congruence];
  try solve [match goal with
             | H : Some _ = Some _ |- _ => injection H as ->; discriminate
             end];
  try solve [match goal with
             | H : _ \/ _ |- _ => destruct H as [H|H]; elim H; reflexivity
             end].

(** X11. The two chat endpoints act only for a logged-in patient who sent a
    non-empty message. Without a session user they answer 401, for a user
    whose session type is not patient 403, without a message 400; each of
    these leaves the world untouched, with no store call and no generated
    reply. *)
Theorem chat_endpoints_refusals (req : ChatRequest) env w :
  (session_user_id req = None ->
     api_chat req env w = (Ok (JsonError 401 "Not authenticated"), w)
     /\ api_chat_stream req env w = (Ok (JsonError 401 "Not authenticated"), w))
  /\ (session_user_id req <> None -> session_user_type req <> Some "patient" ->
        api_chat req env w = (Ok (JsonError 403 "Unauthorized - patients only"), w)
        /\ api_chat_stream req env w
           = (Ok (JsonError 403 "Unauthorized - patients only"), w))
  /\ (session_user_id req <> None -> session_user_type req = Some "patient" ->
        message req = None \/ message req = Some "" ->
        api_chat req env w = (Ok (JsonError 400 "Message is required"), w)
        /\ api_chat_stream req env w = (Ok (JsonError 400 "Message is required"), w))
  /\ (snd (api_chat req env w) <> w \/ snd (api_chat_stream req env w) <> w ->
        exists user_id text,
          session_user_id req = Some user_id
          /\ session_user_type req = Some "patient"
          /\ message req = Some text /\ text <> "").
Proof.
  unfold api_chat, api_chat_stream.
  destruct (session_user_id req) as [uid|]; [|refusal_cases].
  destruct (session_user_type req) as [t|]; [|refusal_cases].
  destruct (String.eqb t "patient") eqn:Ht; [|refusal_cases].
  apply String.eqb_eq in Ht. subst t.
  destruct (message req) as [text|]; [|refusal_cases].
  destruct (Py.truthy text) eqn:Hm.
  - split; [discriminate|]. split; [congruence|]. split.
    + intros _ _ [H|H]; [discriminate|]. injection H as ->. discriminate.
    + intros _. exists uid, text. repeat split. intros ->. discriminate.
  - apply truthy_false_iff in Hm. subst text. refusal_cases.
Qed.

Lemma chat_endpoints_refusals_witness :
  api_chat (mkChatRequest (Some 2) (Some "doctor") (Some "hello"))
    Fixture.scorer_down (Fixture.world_of Fixture.assigned)
  = (Ok (JsonError 403 "Unauthorized - patients only"),
     Fixture.world_of Fixture.assigned).
Proof.
  apply (proj1 (proj2 (chat_endpoints_refusals
                         (mkChatRequest (Some 2) (Some "doctor") (Some "hello"))
                         Fixture.scorer_down (Fixture.world_of Fixture.assigned)))).
  - discriminate.
  - discriminate.
Defined.

Lemma create_conversation_keeps_yielded p a c d u :
  keeps yielded (create_conversation_with_agent p a c d u).
Proof. unfold create_conversation_with_agent. keeps_auto. Qed.

Lemma check_keeps_yielded user_id r text :
  keeps yielded (check_critical_mood_and_alert user_id r text).
Proof.
  unfold check_critical_mood_and_alert, check_body, call_doctor_for_critical_alert,
    call_doctor_body.
  keeps_outbox; try apply create_conversation_keeps_yielded; keeps_auto.
Qed.

Lemma split_acc_truthy (word s : string) :
  Forall (fun x => Py.truthy x = true) (Py.split_acc word s).
Proof.
  revert word. induction s as [|c s IH]; intros word; simpl.
  - destruct (Py.truthy word) eqn:Hw; auto.
  - destruct (Py.is_space c); [|apply IH].
    destruct (Py.truthy word) eqn:Hw; auto.
Qed.

(** X12. The stream generator never raises. What it yields is the words
    of the reply, none of them empty, followed by at most one closing
    event: the error event, or the complete event that names a
    conversation which is durable by then. *)
Theorem stream_events (user_id : nat) (message : string) env w :
  let out := generate_streaming_response user_id message env w in
  fst out = Ok tt
  /\ exists words tail,
       yielded (snd out) = yielded w ++ map WordEvent words ++ tail
       /\ Forall (fun x => Py.truthy x = true) words
       /\ (tail = []
           \/ tail = [ErrorEvent "Stream failed."]
           \/ exists c, tail = [CompleteEvent (cv_id c)]
                        /\ In c (conversations (durable (snd out)))).
Proof.
  intros out. subst out. unfold generate_streaming_response. munfold.
  destruct (generate_content env _ _) as [text|e]; simpl.
  2:{ split; [reflexivity|]. exists [], [ErrorEvent "Stream failed."]. simpl. auto. }
  rewrite yield_words_run. simpl.
  pose proof (split_acc_truthy "" (text_or text "I am here to listen.")) as Hwords.
  fold (Py.split (text_or text "I am here to listen.")) in Hwords.
  set (words := Py.split (text_or text "I am here to listen.")) in *.
  assert (Herr : forall l : list Event,
             (l ++ map WordEvent words) ++ [ErrorEvent "Stream failed."]
             = l ++ map WordEvent words ++ [ErrorEvent "Stream failed."])
    by (intros; now rewrite <- app_assoc).
  destruct (fault env (ops w)); simpl.
  { split; [reflexivity|]. exists words, [ErrorEvent "Stream failed."]. auto. }
  destruct (find _ (users (session w))) as [u|]; simpl.
  2:{ split; [reflexivity|]. exists words, []. rewrite app_nil_r. auto. }
  destruct (analyze_sentiment env message) as [sent|e]; simpl.
  2:{ split; [reflexivity|]. exists words, [ErrorEvent "Stream failed."]. auto. }
  destruct (fault env (S (ops w))); simpl.
  { split; [reflexivity|]. exists words, [ErrorEvent "Stream failed."]. auto. }
  destruct (fault env (S (S (ops w)))); simpl.
  { split; [reflexivity|]. exists words, [ErrorEvent "Stream failed."]. auto. }
  destruct (fault env (S (S (S (ops w))))); simpl.
  { split; [reflexivity|]. exists words, [ErrorEvent "Stream failed."]. auto. }
  match goal with
  | |- context [check_critical_mood_and_alert ?i ?r ?t env ?w0] =>
      pose proof (check_keeps_yielded i r t env w0) as Hy;
      pose proof (@check_keeps_committed_turn env w0 i r t eq_refl) as Hk;
      pose proof (check_returns env w0 i r t) as Hok;
      cbv zeta in Hk;
      destruct (check_critical_mood_and_alert i r t env w0) as [o w1]
  end.
  simpl in Hy, Hk, Hok. subst o. simpl.
  split; [reflexivity|]. destruct Hk as (Kc & _).
  eexists words, [CompleteEvent _]. rewrite Hy, <- app_assoc.
  split; [reflexivity|]. split; [exact Hwords|]. right. right.
  match type of Kc with
  | _ = _ ++ [?c] => exists c
  end.
  split; [reflexivity|]. rewrite Kc. apply in_or_app. right. now left.
Qed.

Ltac munfold_voice :=
  unfold voice_process, query_conversation_of_call;
  repeat (progress (unfold bind, try_except, ret, get, ask, modify, lift, raise,
                      logger, guard, commit, flush, db_get_user, add_conversation,
                      add_message, add_snapshot));
  simpl.

(** X13. [voice_process] never raises. Without a call id or without a call
    context in the session it answers 400, and without speech it asks the
    caller to repeat; both leave the world untouched. When the user of the
    call context does not exist, the generated reply is still spoken,
    nothing is stored, and one ERROR record is logged: the scorer's
    exception, or the unbound [user_message] that the snapshot refers to. *)
Theorem voice_process_edges (req : VoiceRequest) env w :
  (exists resp, fst (voice_process req env w) = Ok resp)
  /\ (call_id req = None \/ call_id req = Some ""
      \/ (exists cid, call_id req = Some cid /\ call_context req cid = None) ->
      voice_process req env w = (Ok (Plain 400 "Call context not found"), w))
  /\ (forall cid user_id,
        call_id req = Some cid -> cid <> "" ->
        call_context req cid = Some user_id ->
        speech_result req = None \/ speech_result req = Some "" ->
        voice_process req env w
        = (Ok (TwiML [Say "I didn't catch that. Could you please repeat what you said?";
                      Redirect ("/voice/webhook?call_id=" ++ cid)%string]), w))
  /\ (forall cid user_id speech text,
        call_id req = Some cid -> cid <> "" ->
        call_context req cid = Some user_id ->
        speech_result req = Some speech -> speech <> "" ->
        generate_content env "gemini-2.5-pro"
          (voice_system_prompt ++ newline ++ newline ++ "User said: " ++ speech
           ++ newline ++ newline ++ "Respond with empathy and support:")%string
        = Ok text ->
        fault env (ops w) = None ->
        find_user user_id (session w) = None ->
        let out := voice_process req env w in
        (exists reply gather bye,
            fst out = Ok (TwiML [Say reply; gather; bye])
            /\ Py.truthy reply = true)
        /\ stores (snd out) = stores w
        /\ exists e,
             log (snd out)
             = log w ++ [mkLog Level.ERROR
                           [Lit "Failed to analyze sentiment for voice: "; Exc e]]
             /\ (e = Exception "UnboundLocalError"
                 \/ analyze_sentiment env speech = Raise e)).
Proof.
  split; [|split; [|split]].
  - unfold voice_process. apply try_except_total.
  - intros H. munfold_voice.
    destruct (call_id req) as [cid|]; [|reflexivity].
    destruct H as [H|[H|(cid' & H & Hctx)]]; try discriminate.
    + injection H as ->. reflexivity.
    + injection H as ->. rewrite Hctx. destruct (Py.truthy cid'); reflexivity.
  - intros cid user_id Hcid Hne Hctx Hsp. munfold_voice. rewrite Hcid.
    assert (Ht : Py.truthy cid = true)
      by (destruct (Py.truthy cid) eqn:Ht; [reflexivity|];
          apply truthy_false_iff in Ht; contradiction).
    rewrite Ht, Hctx. destruct Hsp as [->| ->]; reflexivity.
  - intros cid user_id speech text Hcid Hne Hctx Hsp Hsne Hgen Hf Hu out.
    subst out. unfold find_user in Hu. simpl in Hgen.
    assert (Ht : Py.truthy cid = true)
      by (destruct (Py.truthy cid) eqn:Ht; [reflexivity|];
          apply truthy_false_iff in Ht; contradiction).
    assert (Hs : Py.truthy speech = true)
      by (destruct (Py.truthy speech) eqn:Hs; [reflexivity|];
          apply truthy_false_iff in Hs; contradiction).
    munfold_voice. rewrite Hcid, Ht, Hctx, Hsp. simpl. rewrite Hs. simpl.
    rewrite Hgen. simpl. rewrite Hf. simpl. rewrite Hu. simpl.
    destruct (analyze_sentiment env speech) as [sent|e] eqn:Ha; simpl.
    + split; [do 3 eexists; split; [reflexivity|];
              apply text_or_truthy; reflexivity|].
      split; [reflexivity|]. eexists. split; [reflexivity|]. now left.
    + split; [do 3 eexists; split; [reflexivity|];
              apply text_or_truthy; reflexivity|].
      split; [reflexivity|]. eexists. split; [reflexivity|]. now right.
Qed.

Lemma voice_process_edges_witness :
  voice_process (mkVoiceRequest (Some "CA9") (fun _ => None) (Some "hello"))
    Fixture.scorer_down (Fixture.world_of Fixture.assigned)
  = (Ok (Plain 400 "Call context not found"), Fixture.world_of Fixture.assigned).
Proof.
  apply (proj1 (proj2 (voice_process_edges
                         (mkVoiceRequest (Some "CA9") (fun _ => None) (Some "hello"))
                         Fixture.scorer_down (Fixture.world_of Fixture.assigned)))).
  right. right. exists "CA9". split; reflexivity.
Defined.

(** ** Choosing a doctor *)

Ltac munfold_assign :=
  unfold api_request_doctor, query_doctor, add_assignment, rollback;
  munfold.

(** Every run of [api_request_doctor] either leaves both stores as they
    were, or rolls the session back to the durable rows and answers 500, or
    adds and commits one active assignment of the session's patient to a
    user of type DOCTOR. *)
Lemma request_doctor_effect req env w :
  let out := api_request_doctor req env w in
  exists resp,
    fst out = Ok resp
    /\ ((stores (snd out) = stores w /\ forall n m, resp <> AssignSuccess n m)
        \/ (session (snd out) = durable w /\ durable (snd out) = durable w
            /\ resp = AssignError 500 "Failed to assign doctor")
        \/ (exists user_id doctor_id doc,
              dr_user_id req = Some user_id
              /\ dr_user_type req = Some "patient"
              /\ dr_doctor_id req = Some doctor_id
              /\ active_assignment user_id (session w) = None
              /\ find_doctor doctor_id (session w) = Some doc
              /\ session (snd out)
                 = with_doctor_patients
                     (fun l => l ++ [mkDoctorPatient
                                       (fresh_id (map dp_id (doctor_patients (session w))))
                                       doctor_id user_id true])
                     (session w)
              /\ durable (snd out) = session (snd out)
              /\ resp = AssignSuccess (u_name doc)
                          ("Successfully assigned to Dr. " ++ u_name doc)%string)).
Proof.
  munfold_assign.
  destruct (dr_user_id req) as [uid|]; simpl;
    [|eexists; split; [reflexivity|left; split; [reflexivity|discriminate]]].
  destruct (dr_user_type req) as [t|]; simpl;
    [|eexists; split; [reflexivity|left; split; [reflexivity|discriminate]]].
  destruct (String.eqb t "patient") eqn:Ht; simpl;
    [|eexists; split; [reflexivity|left; split; [reflexivity|discriminate]]].
  apply String.eqb_eq in Ht. subst t.
  destruct (dr_doctor_id req) as [did|]; simpl;
    [|eexists; split; [reflexivity|left; split; [reflexivity|discriminate]]].
  destruct (Nat.eqb did 0); simpl;
    [eexists; split; [reflexivity|left; split; [reflexivity|discriminate]]|].
  destruct (fault env (ops w)); simpl;
    [eexists; split; [reflexivity|right; left; auto]|].
  destruct (active_assignment uid (session w)) eqn:Ha; simpl;
    [eexists; split; [reflexivity|left; split; [reflexivity|discriminate]]|].
  destruct (fault env (S (ops w))); simpl;
    [eexists; split; [reflexivity|right; left; auto]|].
  destruct (find_doctor did (session w)) as [doc|] eqn:Hd; simpl;
    [|eexists; split; [reflexivity|left; split; [reflexivity|discriminate]]].
  destruct (fault env (S (S (ops w)))); simpl;
    [eexists; split; [reflexivity|right; left; auto]|].
  eexists. split; [reflexivity|]. right. right.
  exists uid, did, doc. repeat split; auto.
Qed.



Lemma active_assignment_added (p : nat) (s : Store) (d : DoctorPatient) :
  active_assignment p s = None ->
  dp_patient_id d = p -> dp_is_active d = true ->
  active_assignment p (with_doctor_patients (fun l => l ++ [d]) s) = Some d.
Proof.
  unfold active_assignment. simpl. intros Hn Hp Ha.
  induction (doctor_patients s) as [|x l IH]; simpl in *.
  - now rewrite Hp, Nat.eqb_refl, Ha.
  - destruct (Nat.eqb (dp_patient_id x) p && dp_is_active x);
      [discriminate|auto].
Qed.



(** ** The alert comes first *)

Lemma faults_none_upto (env : Env) (w : World) (k : nat) :
  (forall n, n < k -> fault env (ops w + n) = None) ->
  forall n, n < k -> fault env (Nat.iter n S (ops w)) = None.
Proof.
  intros H n Hn. replace (Nat.iter n S (ops w)) with (ops w + n); [auto|].
  induction n as [|n IH]; simpl; [lia|]. rewrite <- IH by lia. lia.
Qed.

(** When the five store calls up to the loading of the doctor succeed, the
    alert row is durable and the notification has been run, whatever it
    did. *)
Lemma check_persists_alert env w user_id r text u da a :
  (forall n, n < 5 -> fault env (ops w + n) = None) ->
  find_user user_id (session w) = Some u ->
  u_user_type u = UserType.PATIENT ->
  is_critical (critical_verdict r (recent_snapshots user_id (session w)) text) = true ->
  active_assignment user_id (session w) = Some da ->
  new_alert (session w) user_id r text = Some a ->
  exists w1,
    check_critical_mood_and_alert user_id r text env w
    = (Ok tt,
       add_log (mkLog Level.CRITICAL
                  [Lit "Critical alert triggered for patient "; Int user_id;
                   Lit ", doctor "; Int (dp_doctor_id da); Lit " notified"]) w1)
    /\ session w1 = with_alerts (fun l => l ++ [a]) (session w)
    /\ durable w1 = session w1
    /\ exists sent, outbox w1 = outbox w ++ sent.
Proof.
  intros Hf Hu Hty Hc Hda Hnew.
  pose proof (faults_none_upto env w Hf) as Hi.
  pose proof (Hi 0 ltac:(lia)) as F0. pose proof (Hi 1 ltac:(lia)) as F1.
  pose proof (Hi 2 ltac:(lia)) as F2. pose proof (Hi 3 ltac:(lia)) as F3.
  pose proof (Hi 4 ltac:(lia)) as F4. simpl in F0, F1, F2, F3, F4.
  unfold new_alert in Hnew.
  destruct (alert_type _) as [ty|] eqn:Hat; [|discriminate].
  injection Hnew as <-.
  unfold check_critical_mood_and_alert, check_body, find_user in *. munfold.
  rewrite F0. simpl. rewrite Hu. simpl. rewrite Hty. simpl.
  rewrite F1. simpl. rewrite Hc. simpl. rewrite F2. simpl. rewrite Hda. simpl.
  rewrite Hat. simpl. rewrite F3. simpl. rewrite F4. simpl.
  match goal with
  | |- context [call_doctor_for_critical_alert ?a0 ?d env ?w0] =>
      pose proof (call_doctor_keeps_stores a0 d env w0) as Hk;
      pose proof (call_doctor_returns env w0 a0 d) as Hok;
      destruct (one_attempt_per_channel_aux env w0 a0 d) as (sent & Hsent);
      destruct (call_doctor_for_critical_alert a0 d env w0) as [o w1]
  end.
  simpl in Hk, Hok, Hsent. subst o. simpl.
  unfold stores in Hk. simpl in Hk. injection Hk as Hs Hd.
  exists w1. split; [reflexivity|]. split; [exact Hs|].
  split; [congruence|]. exists sent. exact Hsent.
Qed.

(** X15. The alert is committed before anyone is notified: for a patient
    with a critical verdict and an active assignment, when the five store
    calls up to the loading of the doctor succeed, exactly the new alert row
    becomes durable, whatever the doctor record, the voice channel and the
    SMS channel do afterwards; the outbox only grows, and the last log
    record is the CRITICAL one that reports the notification. *)
Theorem alert_before_notification env w user_id r text u da a :
  (forall n, n < 5 -> fault env (ops w + n) = None) ->
  find_user user_id (session w) = Some u ->
  u_user_type u = UserType.PATIENT ->
  is_critical (critical_verdict r (recent_snapshots user_id (session w)) text) = true ->
  active_assignment user_id (session w) = Some da ->
  new_alert (session w) user_id r text = Some a ->
  let w' := snd (check_critical_mood_and_alert user_id r text env w) in
  alerts (durable w') = alerts (session w) ++ [a]
  /\ (exists sent, outbox w' = outbox w ++ sent)
  /\ exists earlier,
       log w' = earlier ++
         [mkLog Level.CRITICAL
            [Lit "Critical alert triggered for patient "; Int user_id;
             Lit ", doctor "; Int (dp_doctor_id da); Lit " notified"]].
Proof.
  intros Hf Hu Hty Hc Hda Hnew w'. subst w'.
  destruct (check_persists_alert env w user_id r text Hf Hu Hty Hc Hda Hnew)
    as (w1 & Hrun & Hs & Hd & Hsent).
  rewrite Hrun. simpl. rewrite Hd, Hs. simpl. eauto.
Qed.

Lemma alert_before_notification_witness :
  alerts (durable (snd (check_critical_mood_and_alert 1 1.0%float "so tired"
                          Fixture.channels_down
                          (Fixture.world_of Fixture.assigned))))
  = [mkAlert 1 1 AlertSeverity.CRITICAL AlertType.SEVERE_DEPRESSION
       (floor_reason 1.0%float) "active"
       (Some (trigger_data_of 1.0%float "so tired" []))].
Proof.
  exact (proj1 (@alert_before_notification Fixture.channels_down
                  (Fixture.world_of Fixture.assigned) 1 1.0%float "so tired"
                  Fixture.patient (mkDoctorPatient 1 2 1 true)
                  (mkAlert 1 1 AlertSeverity.CRITICAL AlertType.SEVERE_DEPRESSION
                     (floor_reason 1.0%float) "active"
                     (Some (trigger_data_of 1.0%float "so tired" [])))
                  (fun n _ => eq_refl) eq_refl eq_refl eq_refl eq_refl eq_refl)).
Defined.

(** X16. Choosing a doctor and the check compose: after a successful
    [api_request_doctor] of a patient, a critical verdict for that patient
    finds the new assignment, so that (when the store calls of the check
    succeed) the alert row becomes durable instead of the warning that the
    patient has no doctor. *)
Theorem chosen_doctor_is_alerted req env w name msg user_id env' r text u :
  fst (api_request_doctor req env w) = Ok (AssignSuccess name msg) ->
  dr_user_id req = Some user_id ->
  let w1 := snd (api_request_doctor req env w) in
  (forall n, n < 5 -> fault env' (ops w1 + n) = None) ->
  find_user user_id (session w1) = Some u ->
  u_user_type u = UserType.PATIENT ->
  is_critical (critical_verdict r (recent_snapshots user_id (session w1)) text)
  = true ->
  let w2 := snd (check_critical_mood_and_alert user_id r text env' w1) in
  exists a,
    alerts (durable w2) = alerts (durable w1) ++ [a]
    /\ al_patient_id a = user_id
    /\ log w2 <> log w1 ++
         [mkLog Level.WARNING
            [Lit "Critical patient "; Int user_id;
             Lit " has no assigned doctor for emergency contact"]].
Proof.
  intros Hok Hreq w1 Hf Hu Hty Hc w2. subst w2.
  pose proof (request_doctor_effect req env w) as Heff. cbv zeta in Heff.
  change (snd (api_request_doctor req env w)) with w1 in Heff.
  clearbody w1.
  destruct Heff
    as (resp & Hok' & [(_ & Hno)|[(_ & _ & ->)|
        (uid & did & doc & Hu' & _ & _ & Hnone & _ & Hs & Hd & _)]]).
  - rewrite Hok in Hok'. injection Hok' as <-. now elim (Hno name msg).
  - rewrite Hok in Hok'. discriminate.
  - rewrite Hreq in Hu'. injection Hu' as <-.
    assert (Hda : active_assignment user_id (session w1)
                  = Some (mkDoctorPatient
                            (fresh_id (map dp_id (doctor_patients (session w))))
                            did user_id true))
      by (rewrite Hs; apply active_assignment_added; auto).
    pose proof (critical_has_type r
                  (recent_snapshots user_id (session w1)) text Hc) as Hty'.
    destruct (new_alert (session w1) user_id r text) as [a|] eqn:Hnew.
    2:{ unfold new_alert in Hnew.
        destruct Hty' as [H|H]; rewrite H in Hnew; discriminate. }
    destruct (check_persists_alert env' w1 user_id r text Hf Hu Hty Hc Hda Hnew)
      as (w3 & Hrun & Hs3 & Hd3 & _).
    exists a. rewrite Hrun. simpl. rewrite Hd3, Hs3, Hd. simpl.
    split; [reflexivity|]. split.
    + unfold new_alert in Hnew. destruct (alert_type _); [|discriminate].
      injection Hnew as <-. reflexivity.
    + intros H. apply (f_equal (@rev LogRecord)) in H.
      rewrite !rev_unit in H. discriminate.
Qed.

Lemma chosen_doctor_is_alerted_witness :
  exists a,
    alerts (durable (snd (check_critical_mood_and_alert 1 1.0%float "so tired"
                            Fixture.channels_down
                            (snd (api_request_doctor
                                    (mkDoctorRequest (Some 1) (Some "patient")
                                       (Some 2))
                                    (Fixture.env_of (Fixture.sentiment_of 3.0%float))
                                    (Fixture.world_of Fixture.unassigned))))))
    = [a]
    /\ al_patient_id a = 1.
Proof.
  destruct (@chosen_doctor_is_alerted
              (mkDoctorRequest (Some 1) (Some "patient") (Some 2))
              (Fixture.env_of (Fixture.sentiment_of 3.0%float))
              (Fixture.world_of Fixture.unassigned)
              (u_name Fixture.doctor)
              ("Successfully assigned to Dr. " ++ u_name Fixture.doctor)%string
              1 Fixture.channels_down 1.0%float "so tired" Fixture.patient
              eq_refl eq_refl (fun n _ => eq_refl) eq_refl eq_refl eq_refl)
    as (a & Ha & Hp & _).
  exists a. split; [exact Ha | exact Hp].
Defined.

(** ** Accounts *)

Lemma truthy_opt_true (o : option string) :
  Py.truthy_opt o = true -> exists s, o = Some s /\ s <> "".
Proof.
  destruct o as [s|]; [|discriminate]. intros H. exists s. split; [reflexivity|].
  intros ->. discriminate.
Qed.

Lemma find_by_email_none (email : string) (t : Auth.Tables) :
  Auth.find_by_email email t = None <->
  ~ In email (map Auth.acc_email (Auth.accounts t)).
Proof.
  unfold Auth.find_by_email. split.
  - intros H Hin. apply in_map_iff in Hin as (a & Ha & Hin).
    apply (find_none _ _ H) in Hin. rewrite Ha, String.eqb_refl in Hin.
    discriminate.
  - intros H. destruct (find _ _) as [a|] eqn:Hf; [|reflexivity].
    apply find_some in Hf as (Hin & He). apply String.eqb_eq in He.
    elim H. rewrite <- He. now apply in_map.
Qed.

Lemma find_by_email_last (email : string) (l : list Auth.Account)
    (p : list Auth.PatientProfile) (a : Auth.Account) :
  Auth.find_by_email email (Auth.mkTables l p) = None ->
  Auth.acc_email a = email ->
  Auth.find_by_email email (Auth.mkTables (l ++ [a]) p) = Some a.
Proof.
  unfold Auth.find_by_email. simpl. intros Hn He.
  induction l as [|x l IH]; simpl in *.
  - now rewrite He, String.eqb_refl.
  - destruct (String.eqb (Auth.acc_email x) email); [discriminate|auto].
Qed.

Ltac rejected :=
  solve [left; do 2 eexists; simpl;
         split; [reflexivity|split; [reflexivity|auto]]].

Ltac refused :=
  solve [simpl; split; [reflexivity|]; split; [reflexivity|]; left; eauto].

Section Accounts.
Variable generate_password_hash : string -> string.
Variable check_password_hash : string -> string -> bool.

(** What one registration does: either nothing is added and nothing
    becomes durable, or the request was complete and exactly one account
    (with a consent profile when it is a patient) is added and committed. *)
Lemma register_effect (req : Auth.RegisterRequest) (f : Auth.Faults)
    (st : Auth.State) :
  let out := Auth.api_register generate_password_hash req f st in
  (exists status error,
      fst out = Auth.RegisterError status error
      /\ Auth.st_durable (snd out) = Auth.st_durable st
      /\ (Auth.st_session (snd out) = Auth.st_session st
          \/ Auth.st_session (snd out) = Auth.st_durable st))
  \/ (exists email name phone password,
        Auth.rq_email req = Some email /\ email <> ""
        /\ Auth.rq_name req = Some name /\ name <> ""
        /\ Auth.rq_phone req = Some phone /\ phone <> ""
        /\ Auth.rq_password req = Some (Auth.Str password)
        /\ 6 <= String.length password
        /\ Auth.find_by_email email (Auth.st_session st) = None
        /\ let user :=
             Auth.mkAccount
               (fresh_id (map Auth.acc_id (Auth.accounts (Auth.st_session st))))
               name email phone
               (Auth.or_default (Auth.rq_country_code req) "")
               (if String.eqb (Auth.or_default (Auth.rq_user_type req) "patient")
                              "patient"
                then UserType.PATIENT else UserType.DOCTOR)
               (generate_password_hash password) in
           fst out = Auth.Registered (Auth.acc_id user)
           /\ Auth.st_durable (snd out) = Auth.st_session (snd out)
           /\ Auth.st_log (snd out) = Auth.st_log st
           /\ Auth.accounts (Auth.st_session (snd out))
              = Auth.accounts (Auth.st_session st) ++ [user]
           /\ Auth.patient_profiles (Auth.st_session (snd out))
              = Auth.patient_profiles (Auth.st_session st)
                ++ (if UserType.eqb (Auth.acc_user_type user) UserType.PATIENT
                    then [Auth.mkPatientProfile
                            (fresh_id
                               (map Auth.pp_id
                                  (Auth.patient_profiles (Auth.st_session st))))
                            (Auth.acc_id user) true true true]
                    else [])).
Proof.
  intros out. subst out. unfold Auth.api_register.
  destruct (Py.truthy_opt (Auth.rq_email req)) eqn:He; simpl;
    [|rejected].
  destruct (Auth.field_truthy (Auth.rq_password req)) eqn:Hp; simpl;
    [|rejected].
  destruct (Py.truthy_opt (Auth.rq_name req)) eqn:Hn; simpl;
    [|rejected].
  destruct (Py.truthy_opt (Auth.rq_phone req)) eqn:Hph; simpl;
    [|rejected].
  destruct (Auth.rq_password req) as [[password|n]|] eqn:Hpw;
    [|rejected|rejected].
  destruct (Nat.ltb (String.length password) 6) eqn:Hlen; [rejected|].
  apply Nat.ltb_ge in Hlen.
  destruct (Auth.query_fails f); [rejected|].
  apply truthy_opt_true in He as (email & He & He').
  apply truthy_opt_true in Hn as (name & Hn & Hn').
  apply truthy_opt_true in Hph as (phone & Hph & Hph').
  rewrite He, Hn, Hph. simpl.
  destruct (Auth.find_by_email email (Auth.st_session st)) eqn:Hfind;
    [rejected|].
  destruct (Auth.flush_fails f); [rejected|].
  destruct (Auth.commit_fails f).
  { destruct (String.eqb _ "patient"); rejected. }
  right. exists email, name, phone, password.
  repeat (split; [first [assumption | reflexivity]|]).
  cbv zeta.
  destruct (String.eqb _ "patient"); simpl; rewrite ?app_nil_r;
    repeat split; reflexivity.
Qed.

(** What one login does: the rows are never touched; a refusal leaves the
    Flask session as it was; a success comes from an account with this
    email whose hash accepts the password, and sets the four session keys
    from that account. *)
Lemma login_effect (req : Auth.LoginRequest) (f : Auth.Faults)
    (st : Auth.State) (sess : Auth.Session) :
  let out := Auth.api_login check_password_hash req f st sess in
  Auth.st_session (snd out) = Auth.st_session st
  /\ Auth.st_durable (snd out) = Auth.st_durable st
  /\ ((exists status error,
         fst (fst out) = Auth.LoginError status error
         /\ snd (fst out) = sess)
      \/ (exists user email password,
            Auth.lq_email req = Some email
            /\ Auth.lq_password req = Some (Auth.Str password)
            /\ Auth.query_fails f = None
            /\ Auth.find_by_email email (Auth.st_session st) = Some user
            /\ check_password_hash (Auth.acc_password_hash user) password = true
            /\ fst (fst out)
               = Auth.LoggedIn (Auth.user_type_value (Auth.acc_user_type user))
            /\ snd (fst out)
               = Auth.mkSession (Some (Auth.acc_id user)) (Some email)
                   (Some (Auth.user_type_value (Auth.acc_user_type user)))
                   (Some (Auth.acc_name user))
            /\ snd out = st)).
Proof.
  intros out. subst out. unfold Auth.api_login.
  destruct (Py.truthy_opt (Auth.lq_email req)) eqn:He; simpl;
    [|refused].
  destruct (Auth.field_truthy (Auth.lq_password req)) eqn:Hp; simpl;
    [|refused].
  destruct (Auth.lq_password req) as [[password|n]|] eqn:Hpw;
    [|refused|refused].
  destruct (Auth.query_fails f) eqn:Hq; [refused|].
  apply truthy_opt_true in He as (email & He & _). rewrite He. simpl.
  destruct (Auth.find_by_email email (Auth.st_session st)) as [user|] eqn:Hfind;
    [|refused].
  destruct (check_password_hash (Auth.acc_password_hash user) password) eqn:Hc;
    [|refused].
  simpl. split; [reflexivity|]. split; [reflexivity|].
  right. exists user, email, password. repeat split; auto.
Qed.

(** X17. A registration succeeds only for a complete request: email, name
    and phone non-empty, the password a string of six characters or more,
    and the email not yet taken. Then exactly one account is durable in
    addition, with the returned id, the hash of the password and the type
    PATIENT when the request names no type or the type patient, and DOCTOR
    for any other type; a patient gets a profile with the three consents
    set, a doctor none. *)
Theorem registration_means (req : Auth.RegisterRequest) (f : Auth.Faults)
    (st : Auth.State) (uid : nat) :
  let out := Auth.api_register generate_password_hash req f st in
  fst out = Auth.Registered uid ->
  exists email name phone password type,
    Auth.rq_email req = Some email /\ email <> ""
    /\ Auth.rq_name req = Some name /\ name <> ""
    /\ Auth.rq_phone req = Some phone /\ phone <> ""
    /\ Auth.rq_password req = Some (Auth.Str password)
    /\ 6 <= String.length password
    /\ ~ In email (map Auth.acc_email (Auth.accounts (Auth.st_session st)))
    /\ Auth.accounts (Auth.st_durable (snd out))
       = Auth.accounts (Auth.st_session st)
         ++ [Auth.mkAccount uid name email phone
               (Auth.or_default (Auth.rq_country_code req) "") type
               (generate_password_hash password)]
    /\ (Auth.rq_user_type req = None \/ Auth.rq_user_type req = Some "patient" ->
        type = UserType.PATIENT
        /\ exists pid,
             Auth.patient_profiles (Auth.st_durable (snd out))
             = Auth.patient_profiles (Auth.st_session st)
               ++ [Auth.mkPatientProfile pid uid true true true])
    /\ (forall t, Auth.rq_user_type req = Some t -> t <> "patient" ->
        type = UserType.DOCTOR
        /\ Auth.patient_profiles (Auth.st_durable (snd out))
           = Auth.patient_profiles (Auth.st_session st)).
Proof.
  intros out Hreg.
  destruct (register_effect req f st)
    as [(status & error & Herr & _)
       |(email & name & phone & password & He & He' & Hn & Hn' & Hp & Hp'
         & Hpw & Hlen & Hfind & Huid & Hd & _ & Hacc & Hprof)];
    fold out in Herr || fold out in Huid, Hd, Hacc, Hprof.
  { rewrite Herr in Hreg. discriminate. }
  rewrite Hreg in Huid. injection Huid as Huid. cbn [Auth.acc_id] in Hprof.
  rewrite <- Huid in Hacc, Hprof.
  eexists email, name, phone, password, _.
  repeat (split; [first [assumption | reflexivity]|]).
  split; [now apply find_by_email_none|].
  rewrite Hd. split; [exact Hacc|].
  cbn [Auth.acc_user_type] in Hprof. split.
  - intros Ht.
    assert (E : String.eqb (Auth.or_default (Auth.rq_user_type req) "patient")
                           "patient" = true)
      by (destruct Ht as [-> | ->]; reflexivity).
    rewrite E in *. split; [reflexivity|]. eexists. exact Hprof.
  - intros t Ht Hne.
    assert (E : String.eqb (Auth.or_default (Auth.rq_user_type req) "patient")
                           "patient" = false)
      by (rewrite Ht; simpl; now apply String.eqb_neq).
    rewrite E in *. split; [reflexivity|].
    simpl in Hprof. now rewrite app_nil_r in Hprof.
Qed.


(** X19. Registration and login round-trip: with a hashing whose check
    accepts every password under its own hash, a login with the email and
    password of a successful registration succeeds whenever its query does,
    and sets the session to the registered id, email, type and name; a
    non-empty password that the stored hash rejects is answered 401 and
    leaves the session as it was. *)
Theorem register_then_login (req : Auth.RegisterRequest) (f f' : Auth.Faults)
    (st : Auth.State) (uid : nat) (email password : string)
    (sess : Auth.Session) :
  (forall p, check_password_hash (generate_password_hash p) p = true) ->
  fst (Auth.api_register generate_password_hash req f st) = Auth.Registered uid ->
  Auth.rq_email req = Some email ->
  Auth.rq_password req = Some (Auth.Str password) ->
  Auth.query_fails f' = None ->
  let st' := snd (Auth.api_register generate_password_hash req f st) in
  exists type name,
    Auth.rq_name req = Some name
    /\ Auth.api_login check_password_hash
         (Auth.mkLoginRequest (Some email) (Some (Auth.Str password))) f' st' sess
       = (Auth.LoggedIn (Auth.user_type_value type),
          Auth.mkSession (Some uid) (Some email)
            (Some (Auth.user_type_value type)) (Some name),
          st')
    /\ forall wrong,
         wrong <> "" ->
         check_password_hash (generate_password_hash password) wrong = false ->
         Auth.api_login check_password_hash
           (Auth.mkLoginRequest (Some email) (Some (Auth.Str wrong))) f' st' sess
         = (Auth.LoginError 401 "Invalid credentials", sess, st').
Proof.
  intros Hhash Hreg Hemail Hpass Hq st'.
  destruct (register_effect req f st)
    as [(status & error & Herr & _)
       |(email0 & name & phone & password0 & He & He' & Hn & _ & _ & _
         & Hpw & Hlen & Hfind & Huid & _ & _ & Hacc & _)].
  { rewrite Herr in Hreg. discriminate. }
  rewrite Hemail in He. injection He as <-.
  rewrite Hpass in Hpw. injection Hpw as <-.
  rewrite Hreg in Huid. injection Huid as Huid. rewrite <- Huid in Hacc.
  fold st' in Hacc.
  assert (Ht : forall s, s <> "" -> Py.truthy s = true).
  { intros s Hs. destruct (Py.truthy s) eqn:E; [reflexivity|].
    apply truthy_false_iff in E. contradiction. }
  assert (Hpt : Py.truthy password = true).
  { apply Ht. intros ->. simpl in Hlen. lia. }
  match type of Hacc with
  | _ = _ ++ [?u] =>
      assert (Hin : Auth.find_by_email email (Auth.st_session st') = Some u)
  end.
  { destruct (Auth.st_session st') as [accs profs]. simpl in Hacc. subst accs.
    apply find_by_email_last; [|reflexivity].
    unfold Auth.find_by_email in *. exact Hfind. }
  eexists _, name. split; [exact Hn|]. split.
  - unfold Auth.api_login.
    cbn [Auth.lq_email Auth.lq_password Auth.field_truthy Auth.or_default].
    unfold Py.truthy_opt. rewrite (Ht email He'), Hpt, Hq, Hin. simpl.
    rewrite Hhash. reflexivity.
  - intros wrong Hw Hc. unfold Auth.api_login.
    cbn [Auth.lq_email Auth.lq_password Auth.field_truthy Auth.or_default].
    unfold Py.truthy_opt. rewrite (Ht email He'), (Ht wrong Hw), Hq, Hin. simpl.
    rewrite Hc. reflexivity.
Qed.

(** X20. A login never changes a row; a login that is refused leaves the
    Flask session as it was; a login that succeeds was made with the email
    of an existing account and a password that its hash accepts, and sets
    the session's id, email, type and name from that account. *)
Theorem login_cases (req : Auth.LoginRequest) (f : Auth.Faults)
    (st : Auth.State) (sess : Auth.Session) :
  let out := Auth.api_login check_password_hash req f st sess in
  (Auth.st_session (snd out) = Auth.st_session st
   /\ Auth.st_durable (snd out) = Auth.st_durable st)
  /\ (forall status error,
        fst (fst out) = Auth.LoginError status error -> snd (fst out) = sess)
  /\ (forall t,
        fst (fst out) = Auth.LoggedIn t ->
        exists user password,
          In user (Auth.accounts (Auth.st_session st))
          /\ Auth.lq_email req = Some (Auth.acc_email user)
          /\ Auth.lq_password req = Some (Auth.Str password)
          /\ check_password_hash (Auth.acc_password_hash user) password = true
          /\ t = Auth.user_type_value (Auth.acc_user_type user)
          /\ snd (fst out)
             = Auth.mkSession (Some (Auth.acc_id user))
                 (Some (Auth.acc_email user)) (Some t)
                 (Some (Auth.acc_name user))).
Proof.
  intros out.
  destruct (login_effect req f st sess)
    as (Hs & Hd & [(status & error & Herr & Hsess)
                  |(user & email & password & He & Hp & _ & Hfind & Hc
                    & Hok & Hsess & _)]);
    fold out in Hs, Hd, Hsess, Herr || fold out in Hs, Hd, Hsess, Hok.
  - split; [auto|]. split; [auto|].
    intros t H. rewrite Herr in H. discriminate.
  - split; [auto|]. split.
    + intros status error H. rewrite Hok in H. discriminate.
    + intros t H. rewrite Hok in H. injection H as <-.
      unfold Auth.find_by_email in Hfind.
      apply find_some in Hfind as (Hin & Heq). apply String.eqb_eq in Heq.
      exists user, password. rewrite Heq. auto 8.
Qed.

(** X21. The session that a login sets is what the patient endpoints
    check: the session type is patient or doctor as the account is; for
    a doctor account the two chat endpoints answer 403 and the request for
    a doctor 401, and after [api_logout] all three answer 401; in each case
    the world is left untouched. *)
Theorem login_session_at_patient_endpoints (req : Auth.LoginRequest)
    (f : Auth.Faults) (st : Auth.State) (sess : Auth.Session) (t : string) :
  let out := Auth.api_login check_password_hash req f st sess in
  let sess' := snd (fst out) in
  fst (fst out) = Auth.LoggedIn t ->
  (exists user,
      In user (Auth.accounts (Auth.st_session st))
      /\ Auth.fs_user_id sess' = Some (Auth.acc_id user)
      /\ Auth.fs_user_type sess' = Some t
      /\ (t = "patient" <-> Auth.acc_user_type user = UserType.PATIENT)
      /\ (t = "doctor" <-> Auth.acc_user_type user = UserType.DOCTOR))
  /\ (t = "doctor" ->
      forall message doctor_id env w,
        api_chat (Auth.chat_request sess' message) env w
        = (Ok (JsonError 403 "Unauthorized - patients only"), w)
        /\ api_chat_stream (Auth.chat_request sess' message) env w
           = (Ok (JsonError 403 "Unauthorized - patients only"), w)
        /\ api_request_doctor (Auth.doctor_request sess' doctor_id) env w
           = (Ok (AssignError 401 "Unauthorized - patients only"), w))
  /\ (forall message doctor_id env w,
        api_chat (Auth.chat_request (Auth.api_logout sess') message) env w
        = (Ok (JsonError 401 "Not authenticated"), w)
        /\ api_chat_stream (Auth.chat_request (Auth.api_logout sess') message) env w
           = (Ok (JsonError 401 "Not authenticated"), w)
        /\ api_request_doctor
             (Auth.doctor_request (Auth.api_logout sess') doctor_id) env w
           = (Ok (AssignError 401 "Unauthorized - patients only"), w)).
Proof.
  intros out sess' Hin.
  destruct (login_effect req f st sess)
    as (_ & _ & [(status & error & Herr & _)
                |(user & email & password & _ & _ & _ & Hfind & _
                  & Hok & Hsess & _)]);
    fold out in Herr || fold out in Hok, Hsess.
  { rewrite Herr in Hin. discriminate. }
  rewrite Hok in Hin. injection Hin as <-.
  fold sess' in Hsess. rewrite Hsess.
  split; [|split].
  - unfold Auth.find_by_email in Hfind. apply find_some in Hfind as (Hin & _).
    exists user. split; [exact Hin|]. split; [reflexivity|].
    split; [reflexivity|].
    destruct (Auth.acc_user_type user); simpl; split; split;
      congruence || discriminate.
  - intros Hdoc message doctor_id env w.
    unfold api_chat, api_chat_stream, api_request_doctor. simpl.
    rewrite Hdoc. simpl. repeat split; reflexivity.
  - intros message doctor_id env w. repeat split; reflexivity.
Qed.

End Accounts.

Lemma registration_means_witness :
  exists email name phone password type,
    Auth.accounts
      (Auth.st_durable
         (snd (Auth.api_register Auth.tagged_hash
                 (Auth.mkRegisterRequest (Some "ann@example.org")
                    (Some (Auth.Str "secret1")) (Some "Patient") (Some "Ann")
                    (Some "5550100") None)
                 Auth.no_fault
                 (Auth.mkState (Auth.mkTables [] []) (Auth.mkTables [] []) []))))
    = [Auth.mkAccount 1 name email phone "" type (Auth.tagged_hash password)]
    /\ type = UserType.DOCTOR.
Proof.
  destruct (@registration_means Auth.tagged_hash
              (Auth.mkRegisterRequest (Some "ann@example.org")
                 (Some (Auth.Str "secret1")) (Some "Patient") (Some "Ann")
                 (Some "5550100") None)
              Auth.no_fault
              (Auth.mkState (Auth.mkTables [] []) (Auth.mkTables [] []) [])
              1 eq_refl)
    as (email & name & phone & password & type & _ & _ & _ & _ & _ & _ & _ & _
        & _ & Hacc & _ & Hdoc).
  exists email, name, phone, password, type. split; [exact Hacc|].
  exact (proj1 (Hdoc "Patient" eq_refl ltac:(discriminate))).
Defined.

Lemma register_then_login_witness :
  exists type name,
    Auth.api_login Auth.tagged_check
      (Auth.mkLoginRequest (Some "ann@example.org") (Some (Auth.Str "secret1")))
      Auth.no_fault
      (snd (Auth.api_register Auth.tagged_hash
              (Auth.mkRegisterRequest (Some "ann@example.org")
                 (Some (Auth.Str "secret1")) None (Some "Ann")
                 (Some "5550100") (Some "+1"))
              Auth.no_fault
              (Auth.mkState (Auth.mkTables [] []) (Auth.mkTables [] []) [])))
      Auth.empty_session
    = (Auth.LoggedIn (Auth.user_type_value type),
       Auth.mkSession (Some 1) (Some "ann@example.org")
         (Some (Auth.user_type_value type)) (Some name),
       snd (Auth.api_register Auth.tagged_hash
              (Auth.mkRegisterRequest (Some "ann@example.org")
                 (Some (Auth.Str "secret1")) None (Some "Ann")
                 (Some "5550100") (Some "+1"))
              Auth.no_fault
              (Auth.mkState (Auth.mkTables [] []) (Auth.mkTables [] []) []))).
Proof.
  destruct (@register_then_login Auth.tagged_hash Auth.tagged_check
              (Auth.mkRegisterRequest (Some "ann@example.org")
                 (Some (Auth.Str "secret1")) None (Some "Ann")
                 (Some "5550100") (Some "+1"))
              Auth.no_fault Auth.no_fault
              (Auth.mkState (Auth.mkTables [] []) (Auth.mkTables [] []) [])
              1 "ann@example.org" "secret1" Auth.empty_session
              (fun p => String.eqb_refl (Auth.tagged_hash p))
              eq_refl eq_refl eq_refl eq_refl)
    as (type & name & _ & Hlogin & _).
  exists type, name. exact Hlogin.
Defined.

Lemma login_session_at_patient_endpoints_witness :
  api_chat
    (Auth.chat_request
       (snd (fst (Auth.api_login Auth.tagged_check
                    (Auth.mkLoginRequest (Some "bo@example.org")
                       (Some (Auth.Str "secret2")))
                    Auth.no_fault
                    (Auth.mkState
                       (Auth.mkTables
                          [Auth.mkAccount 2 "Bo" "bo@example.org" "5550101" "+1"
                             UserType.DOCTOR (Auth.tagged_hash "secret2")] [])
                       (Auth.mkTables [] []) [])
                    Auth.empty_session)))
       (Some "hello"))
    Fixture.scorer_down (Fixture.world_of Fixture.assigned)
  = (Ok (JsonError 403 "Unauthorized - patients only"),
     Fixture.world_of Fixture.assigned).
Proof.
  exact (proj1 (proj1 (proj2
    (@login_session_at_patient_endpoints Auth.tagged_check
       (Auth.mkLoginRequest (Some "bo@example.org") (Some (Auth.Str "secret2")))
       Auth.no_fault
       (Auth.mkState
          (Auth.mkTables
             [Auth.mkAccount 2 "Bo" "bo@example.org" "5550101" "+1"
                UserType.DOCTOR (Auth.tagged_hash "secret2")] [])
          (Auth.mkTables [] []) [])
       Auth.empty_session "doctor" eq_refl)) eq_refl
    (Some "hello") (Some 2) Fixture.scorer_down
    (Fixture.world_of Fixture.assigned))).
Defined.

(** ** Starting a voice call *)

(** When the voice adapter returns call data, it has made exactly one
    request, to the given number, and the provider has answered it with 200
    or 201 and that data. *)
Lemma create_conversation_some env w phone agent customer variables callback data :
  fst (create_conversation_with_agent phone agent customer variables callback env w)
  = Ok (Some data) ->
  exists p status_code,
    outbox (snd (create_conversation_with_agent phone agent customer variables
                   callback env w))
    = outbox w ++ [VoicePost p]
    /\ vp_to_number p = phone
    /\ requests_post env p = Responded status_code data
    /\ call_started status_code = true.
Proof.
  unfold create_conversation_with_agent. munfold. unfold call_started.
  destruct (Py.truthy_opt (ELEVENLABS_API_KEY env)); simpl; [|discriminate].
  destruct (nonempty variables); simpl;
    match goal with
    | |- context [requests_post env ?p] =>
        destruct (requests_post env p) as [sc cd|e] eqn:Hp; simpl;
        [destruct (Nat.eqb sc 200 || Nat.eqb sc 201) eqn:Hsc; simpl|];
        intros H; try discriminate; injection H as <-;
        exists p, sc; auto
    end.
Qed.

Lemma create_conversation_keeps_clock p a c d u :
  keeps clock (create_conversation_with_agent p a c d u).
Proof. unfold create_conversation_with_agent. keeps_auto. Qed.

Ltac munfold_call :=
  unfold api_start_call, get_user_from_session, rollback, is_patient_session;
  repeat (progress (unfold bind, try_except, ret, get, ask, modify, lift, raise,
                      logger, guard, commit, flush, db_get_user, add_conversation));
  simpl.

(** What one run of [api_start_call] does. *)
Lemma start_call_effect json_dumps req env w :
  let out := api_start_call json_dumps req env w in
  exists resp new,
    fst out = Ok resp
    /\ outbox (snd out) = outbox w ++ new
    /\ ((exists status error,
           resp = CallError status error
           /\ durable (snd out) = durable w
           /\ (new = [] \/ exists p, new = [VoicePost p]))
        \/ (exists uid user data p status_code,
              session_user_id req = Some uid
              /\ session_user_type req = Some "patient"
              /\ find_user uid (session w) = Some user
              /\ Py.truthy_opt (u_phone user) = true
              /\ new = [VoicePost p]
              /\ vp_to_number p = get_full_phone user
              /\ requests_post env p = Responded status_code data
              /\ call_started status_code = true
              /\ let c := mkConversation
                            (fresh_id (map cv_id (conversations (session w))))
                            (u_id user) ConversationChannel.VOICE (clock w)
                            (Some (json_dumps data)) in
                 session (snd out)
                 = with_conversations (fun l => l ++ [c]) (session w)
                 /\ durable (snd out) = session (snd out)
                 /\ resp = CallStarted (cv_id c) (get_full_phone user)
                             [Lit "AI voice call initiated to ";
                              OptStr (get_full_phone user);
                              Lit ". You should receive a call from Aura shortly."])).
Proof.
  munfold_call. unfold find_user.
  destruct (session_user_id req) as [uid|]; simpl.
  2:{ exists (CallError 401 "Not authenticated"), []. rewrite app_nil_r.
      split; [reflexivity|]. split; [reflexivity|]. left. eauto 6. }
  destruct (session_user_type req) as [t|]; simpl.
  2:{ eexists _, []. rewrite app_nil_r.
      split; [reflexivity|]. split; [reflexivity|]. left. eauto 6. }
  destruct (String.eqb t "patient") eqn:Ht; simpl.
  2:{ eexists _, []. rewrite app_nil_r.
      split; [reflexivity|]. split; [reflexivity|]. left. eauto 6. }
  apply String.eqb_eq in Ht. subst t.
  destruct (fault env (ops w)); simpl.
  { eexists _, []. rewrite app_nil_r.
    split; [reflexivity|]. split; [reflexivity|]. left. eauto 6. }
  destruct (find (fun u => Nat.eqb (u_id u) uid) (users (session w)))
    as [user|] eqn:Hu; simpl.
  2:{ eexists _, []. rewrite app_nil_r.
      split; [reflexivity|]. split; [reflexivity|]. left. eauto 6. }
  destruct (Py.truthy_opt (u_phone user)) eqn:Hph; simpl.
  2:{ eexists _, []. rewrite app_nil_r.
      split; [reflexivity|]. split; [reflexivity|]. left. eauto 6. }
  match goal with
  | |- context [create_conversation_with_agent ?ph ?a ?c ?d ?u env ?w0] =>
      pose proof (create_conversation_keeps_stores ph a c d u env w0) as Hk;
      pose proof (create_conversation_keeps_clock ph a c d u env w0) as Hclk;
      pose proof (create_conversation_some env w0 ph a c d u) as Hsome;
      destruct (create_conversation_appends env ph a c d u w0)
        as (new & Hnew & Hshape);
      destruct (create_conversation_returns env w0 ph a c d u) as (res & Hres);
      destruct (create_conversation_with_agent ph a c d u env w0) as [o w1]
  end.
  simpl in Hk, Hclk, Hsome, Hnew, Hres. subst o. simpl.
  unfold stores in Hk. simpl in Hk. injection Hk as Hs Hd.
  assert (Hone : new = [] \/ exists p, new = [VoicePost p]).
  { destruct Hshape as [(-> & _)|(p & -> & _)]; eauto. }
  destruct res as [data|]; simpl.
  2:{ eexists _, new. split; [reflexivity|]. split; [exact Hnew|].
      left. eauto 6. }
  destruct (Hsome data eq_refl) as (p & sc & Hout & Hto & Hpost & Hsc).
  destruct (fault env (ops w1)); simpl.
  { eexists _, new. split; [reflexivity|]. split; [exact Hnew|].
    left. eauto 6. }
  eexists _, [VoicePost p]. split; [reflexivity|]. split; [exact Hout|].
  right. exists uid, user, data, p, sc. rewrite Hs, Hclk.
  repeat (split; [first [assumption | reflexivity]|]).
  cbv zeta. repeat split.
Qed.

(** X22. [api_start_call] never raises. Without a session user it answers
    401 and for a session that is not a patient's 403, leaving the world
    untouched. In every run it makes at most one request to the voice
    provider and sends no text; and the durable rows change only when the
    provider has accepted the call with 200 or 201. *)
Theorem start_call_cases json_dumps (req : ChatRequest) env w :
  let out := api_start_call json_dumps req env w in
  (exists resp, fst out = Ok resp)
  /\ (session_user_id req = None ->
      out = (Ok (CallError 401 "Not authenticated"), w))
  /\ (session_user_id req <> None -> session_user_type req <> Some "patient" ->
      out = (Ok (CallError 403 "Unauthorized - patients only"), w))
  /\ (exists new,
        outbox (snd out) = outbox w ++ new
        /\ (new = [] \/ exists p, new = [VoicePost p]))
  /\ (durable (snd out) <> durable w ->
      exists p status_code data,
        In (VoicePost p) (outbox (snd out))
        /\ requests_post env p = Responded status_code data
        /\ call_started status_code = true).
Proof.
  intros out.
  split; [|split; [|split; [|split]]].
  - destruct (start_call_effect json_dumps req env w) as (resp & _ & H & _).
    eauto.
  - subst out. unfold api_start_call. intros ->. reflexivity.
  - subst out. unfold api_start_call, is_patient_session.
    destruct (session_user_id req); [|congruence].
    destruct (session_user_type req) as [t|]; [|reflexivity].
    destruct (String.eqb t "patient") eqn:Ht; [|reflexivity].
    apply String.eqb_eq in Ht. subst t. congruence.
  - destruct (start_call_effect json_dumps req env w)
      as (resp & new & _ & Hout & [(status & error & _ & _ & Hn)
                                  |(uid & user & data & p & sc & _ & _ & _ & _
                                    & Hn & _)]);
      exists new; (split; [exact Hout|]); [exact Hn|eauto].
  - intros Hd.
    destruct (start_call_effect json_dumps req env w)
      as (resp & new & _ & Hout & [(status & error & _ & Hsame & _)
                                  |(uid & user & data & p & sc & _ & _ & _ & _
                                    & Hn & _ & Hpost & Hsc & _)]).
    + now elim Hd.
    + exists p, sc, data. fold out in Hout. rewrite Hout, Hn.
      split; [apply in_or_app; right; left; reflexivity|auto].
Qed.

(** X23. A call that [api_start_call] reports as started was placed and
    recorded: the session user exists and has a non-empty phone number, the
    one request to the provider went to that user's full phone number and
    was answered with 200 or 201, and one conversation of the VOICE channel
    for that user, with the returned id and the serialised call data as
    provider session id, is the last durable conversation. *)
Theorem started_call_is_recorded json_dumps (req : ChatRequest) env w
    conversation_id phone_number message :
  let out := api_start_call json_dumps req env w in
  fst out = Ok (CallStarted conversation_id phone_number message) ->
  exists user data p status_code,
    In user (users (session w))
    /\ session_user_id req = Some (u_id user)
    /\ phone_number = get_full_phone user
    /\ Py.truthy_opt phone_number = true
    /\ outbox (snd out) = outbox w ++ [VoicePost p]
    /\ vp_to_number p = phone_number
    /\ requests_post env p = Responded status_code data
    /\ call_started status_code = true
    /\ conversations (durable (snd out))
       = conversations (session w)
         ++ [mkConversation conversation_id (u_id user) ConversationChannel.VOICE
               (clock w) (Some (json_dumps data))].
Proof.
  intros out Hok.
  destruct (start_call_effect json_dumps req env w)
    as (resp & new & Hres & Hout & [(status & error & -> & _)
                                   |(uid & user & data & p & sc & Hu & _ & Hfind
                                     & Hph & -> & Hto & Hpost & Hsc & Hs & Hd
                                     & ->)]);
    fold out in Hres, Hout; rewrite Hres in Hok; [discriminate|].
  fold out in Hs, Hd.
  injection Hok as <- <- <-.
  unfold find_user in Hfind. apply find_some in Hfind as (Hin & Hid).
  apply Nat.eqb_eq in Hid.
  exists user, data, p, sc.
  split; [exact Hin|]. split; [congruence|]. split; [reflexivity|].
  split; [now rewrite get_full_phone_truthy|].
  split; [exact Hout|]. split; [exact Hto|]. split; [exact Hpost|].
  split; [exact Hsc|]. rewrite Hd, Hs. reflexivity.
Qed.

Lemma started_call_is_recorded_witness :
  exists data,
    conversations
      (durable (snd (api_start_call
                       (fun d => match call_sid d with
                                 | Some sid => call_sid_json sid
                                 | None => "{}"
                                 end)
                       (mkChatRequest (Some 1) (Some "patient") None)
                       (Fixture.env_of (Fixture.sentiment_of 3.0%float))
                       (Fixture.world_of Fixture.assigned))))
    = [mkConversation 1 1 ConversationChannel.VOICE 100
         (Some (match call_sid data with
                | Some sid => call_sid_json sid
                | None => "{}"
                end))].
Proof.
  destruct (@started_call_is_recorded
              (fun d => match call_sid d with
                        | Some sid => call_sid_json sid
                        | None => "{}"
                        end)
              (mkChatRequest (Some 1) (Some "patient") None)
              (Fixture.env_of (Fixture.sentiment_of 3.0%float))
              (Fixture.world_of Fixture.assigned)
              1 (Some "+15550101")
              [Lit "AI voice call initiated to "; OptStr (Some "+15550101");
               Lit ". You should receive a call from Aura shortly."]
              eq_refl)
    as (user & data & p & sc & Hin & Hid & _ & _ & _ & _ & _ & _ & Hc).
  exists data. injection Hid as Hid. rewrite <- Hid in Hc. exact Hc.
Defined.

(** ** The analytics of a patient *)

Lemma guarded_read_ok_inv {A} (read : World -> A) env w a w' :
  (guard ;; w0 <- get ;; ret (read w0))%monad env w = (Ok a, w') ->
  fault env (ops w) = None /\ a = read (tick w) /\ w' = tick w.
Proof.
  unfold bind, guard, get, ret.
  destruct (fault env (ops w)); simpl; [discriminate|].
  intros H. injection H as <- <-. auto.
Qed.

Lemma sorted_map_key {A} (key : A -> nat) (l : list A) :
  StronglySorted (fun a b => key b <= key a) l ->
  StronglySorted (fun a b => b <= a) (map key l).
Proof.
  induction 1 as [|c l _ IH Hc]; simpl; constructor; [exact IH|].
  rewrite Forall_forall in *. intros x Hx.
  apply in_map_iff in Hx as (y & <- & Hy). auto.
Qed.

Lemma summarise_keeps {B} (f : World -> B) (convs : list Conversation) :
  (forall w, f (tick w) = f w) -> keeps f (summarise convs).
Proof.
  intros Hf. induction convs as [|c convs IH]; simpl.
  - apply keeps_ret.
  - unfold query_first_message_of.
    repeat (apply keeps_bind; [|intro]);
      first [ apply keeps_guard; exact Hf | apply keeps_get | apply keeps_ret
            | exact IH ].
Qed.

(** The loop gives one entry for each conversation, in the same order. *)
Lemma summarise_timestamps (convs : list Conversation) env w entries w' :
  summarise convs env w = (Ok entries, w') ->
  map cs_timestamp entries = map cv_started_at convs
  /\ map cs_type entries = map (fun c => channel_value (cv_channel c)) convs.
Proof.
  revert w entries w'. induction convs as [|c convs IH]; simpl;
    intros w entries w' H.
  - unfold ret in H. injection H as <- _. auto.
  - apply bind_ok_inv in H as (user_msg & w1 & _ & H).
    apply bind_ok_inv in H as (ai_msg & w2 & _ & H).
    apply bind_ok_inv in H as (rest & w3 & Hrest & H).
    unfold ret in H. injection H as <- _.
    destruct (IH _ _ _ Hrest) as (Ht & Hc). simpl. now rewrite Ht, Hc.
Qed.

Lemma analytics_keeps {B} (f : World -> B) (req : AnalyticsRequest) :
  (forall w, f (tick w) = f w) ->
  (forall r w, f (add_log r w) = f w) ->
  keeps f (api_patient_analytics req).
Proof.
  intros Ht Hl. unfold api_patient_analytics, query_assignment,
    count_conversations, query_ratings, query_last_conversations.
  destruct (ar_user_id req); [|apply keeps_ret].
  destruct (negb (is_doctor_session (ar_user_type req))); [apply keeps_ret|].
  repeat first
    [ apply keeps_ret | apply keeps_get | apply keeps_guard; exact Ht
    | apply keeps_logger; exact Hl
    | apply summarise_keeps; exact Ht
    | apply keeps_bind; [|intro]
    | apply keeps_try; [|intro]
    | match goal with
      | |- keeps _ (match ?x with _ => _ end) => destruct x
      end ].
Qed.

(** X24. [api_patient_analytics] only reads, and answers with the figures
    of a patient only to a doctor's session with an active assignment to
    that patient. The figures are the number of the patient's
    conversations, an average of 0 when the patient has no snapshot, and at
    most five recent conversations, newest first. An exception escapes the
    endpoint only from the query of the assignment, which stands before the
    [try]. *)
Theorem analytics_for_assigned_doctor (req : AnalyticsRequest) env w :
  let out := api_patient_analytics req env w in
  let mine := conversations_of (ar_patient_id req) (session w) in
  (stores (snd out) = stores w /\ outbox (snd out) = outbox w)
  /\ (forall total avg recent,
        fst out = Ok (Analytics total avg recent) ->
        (exists doctor_id d,
            ar_user_id req = Some doctor_id
            /\ ar_user_type req = Some "doctor"
            /\ In d (doctor_patients (session w))
            /\ dp_doctor_id d = doctor_id
            /\ dp_patient_id d = ar_patient_id req
            /\ dp_is_active d = true)
        /\ total = List.length mine
        /\ List.length recent = Nat.min 5 total
        /\ StronglySorted (fun a b => b <= a) (map cs_timestamp recent)
        /\ (filter (fun s => Nat.eqb (ss_patient_id s) (ar_patient_id req))
                   (sentiment_snapshots (session w)) = [] ->
            avg = 0%float))
  /\ (forall e,
        fst out = Raise e ->
        fault env (ops w) = Some e
        /\ ar_user_id req <> None /\ ar_user_type req = Some "doctor").
Proof.
  intros out mine. split; [|split].
  - split.
    + apply (analytics_keeps stores req); reflexivity.
    + apply (analytics_keeps outbox req); reflexivity.
  - intros total avg recent Hok. subst out.
    destruct (api_patient_analytics req env w) as [o w'] eqn:Hrun.
    simpl in Hok. subst o. unfold api_patient_analytics in Hrun.
    destruct (ar_user_id req) as [uid|]; [|discriminate].
    unfold is_doctor_session in Hrun.
    destruct (ar_user_type req) as [t|]; [|discriminate].
    destruct (String.eqb t "doctor") eqn:Ht; [|discriminate].
    apply String.eqb_eq in Ht. subst t. simpl in Hrun.
    apply bind_ok_inv in Hrun as (assignment & w1 & Hq & Hrun).
    apply guarded_read_ok_inv in Hq as (_ & -> & ->).
    change (session (tick w)) with (session w) in Hrun.
    destruct (assigned_to uid (ar_patient_id req) (session w)) as [d|] eqn:Hd;
      [|discriminate].
    apply try_except_ok_inv in Hrun as [Hrun|(e & w2 & _ & Hh)].
    2:{ unfold bind, logger, modify, ret in Hh. discriminate. }
    apply bind_ok_inv in Hrun as (total' & w2 & Hq & Hrun).
    apply guarded_read_ok_inv in Hq as (_ & -> & ->).
    apply bind_ok_inv in Hrun as (ratings & w3 & Hq & Hrun).
    apply guarded_read_ok_inv in Hq as (_ & -> & ->).
    apply bind_ok_inv in Hrun as (convs & w4 & Hq & Hrun).
    apply guarded_read_ok_inv in Hq as (_ & -> & ->).
    apply bind_ok_inv in Hrun as (entries & w5 & Hsum & Hrun).
    unfold ret in Hrun. injection Hrun as <- <- <- _.
    apply summarise_timestamps in Hsum as (Hts & _).
    change (session (tick (tick (tick (tick w))))) with (session w) in Hts.
    change (session (tick (tick (tick w)))) with (session w).
    change (session (tick (tick w))) with (session w).
    fold mine in Hts |- *.
    split; [|split; [|split; [|split]]].
    + unfold assigned_to in Hd. apply find_some in Hd as (Hin & Hb).
      apply andb_true_iff in Hb as (Hb & Ha).
      apply andb_true_iff in Hb as (Hdoc & Hpat).
      apply Nat.eqb_eq in Hdoc, Hpat. exists uid, d. auto 8.
    + reflexivity.
    + rewrite <- (length_map cs_timestamp), Hts, length_map, length_firstn,
        order_by_desc_length. reflexivity.
    + rewrite Hts.
      pose proof (order_by_desc_sorted cv_started_at mine) as Hs.
      destruct (sorted_firstn cv_started_at 5 Hs) as (Hf & _).
      apply sorted_map_key. exact Hf.
    + intros ->. reflexivity.
  - intros e Hr. subst out. unfold api_patient_analytics in Hr |- *.
    destruct (ar_user_id req) as [uid|]; [|discriminate].
    unfold is_doctor_session in Hr.
    destruct (ar_user_type req) as [t|]; [|discriminate].
    destruct (String.eqb t "doctor") eqn:Ht; [|discriminate].
    apply String.eqb_eq in Ht. subst t. simpl in Hr.
    unfold bind at 1 in Hr.
    destruct (query_assignment uid (ar_patient_id req) env w)
      as [[assignment|e'] w1] eqn:Hq.
    + destruct assignment; [|discriminate].
      match type of Hr with
      | fst (try_except ?m _ _ _) = _ =>
          destruct (try_except_total m Level.ERROR
                      (fun e => [Lit "Error fetching patient analytics: "; Exc e])
                      (AnalyticsError 500 "Unable to fetch analytics")
                      env w1) as (a & Ha)
      end.
      assert (Hx : Raise e = Ok a) by (rewrite <- Hr; exact Ha).
      discriminate.
    + simpl in Hr. injection Hr as <-.
      unfold query_assignment, bind, guard, get, ret in Hq.
      destruct (fault env (ops w)) as [e0|]; simpl in Hq; [|discriminate].
      injection Hq as <- _.
      split; [reflexivity|]. split; [discriminate|reflexivity].
Qed.
